(** * Content-risk scoring engine of team-spark: a shallow embedding

    The development follows the TypeScript sources

    - [src/services/TextAnalysisService.ts]  (orchestrator, detectors,
      context and intent classifiers, sentiment analyzer, risk aggregator),
    - [src/services/ToxicityAnalyzer.ts],
    - [ProfanityFilter] (the profanity filter class),
    - [src/services/ImageAnalysisService.ts] (merge of image and text results).

    Modelling conventions.

    - A JavaScript string is a sequence of UTF-16 code units.  The model
      covers the strings whose code units are below 256 (Latin-1): they are
      closed under [toLowerCase], [trim], [replace] and [split] as used here,
      and are written as Rocq [string]s, one [ascii] per code unit.
    - A JavaScript number is modelled as an exact rational ([Q]); the
      constants [0.35], [1.3], ... denote the decimal fractions themselves.
    - Regular expressions are parsed from their source text into a small
      syntax and run by a backtracking matcher that follows the priority
      order of ECMAScript (leftmost start, ordered alternation, greedy
      quantifiers), so that the end of a match, hence [lastIndex] of a
      global expression, is the one the engine computes.
    - What the code calls outside the repository (the two HTTP classifiers,
      the [bad-words] filter, a [RegExp] built at run time from a word of
      its list, [Math.sqrt]) is a field of a record [Env]; an HTTP call
      either throws or answers.
    - The mutable state that survives a call of [analyzeText] is the
      [lastIndex] of the regular expressions kept in the fields of
      [ToxicityAnalyzer]; it is threaded explicitly. *)

From Stdlib Require Import QArith Qround Qminmax ZArith NArith String Ascii List Bool Lia Lqa.
Import ListNotations.

Set Implicit Arguments.

Local Open Scope string_scope.
Local Open Scope Q_scope.

(** ** Code units *)

Module Char.

Definition code (c : ascii) : N := N_of_ascii c.

Definition between (lo hi : N) (c : ascii) : bool :=
  (N.leb lo (code c) && N.leb (code c) hi)%bool.

(** ECMAScript [WhiteSpace] and [LineTerminator] below 256: TAB, LF, VT, FF,
    CR, SP and NBSP.  This is the class [\s] and what [trim] removes. *)
Definition isSpace (c : ascii) : bool :=
  (between 9 13 c || N.eqb (code c) 32 || N.eqb (code c) 160)%bool.

Definition isDigit (c : ascii) : bool := between 48 57 c.

(** The class [\w] = [[A-Za-z0-9_]]. *)
Definition isWord (c : ascii) : bool :=
  (between 97 122 c || between 65 90 c || isDigit c || N.eqb (code c) 95)%bool.

(** [toLowerCase] on one code unit: A-Z and the Latin-1 capitals
    U+00C0..U+00DE (U+00D7 is the multiplication sign). *)
Definition toLower (c : ascii) : ascii :=
  if (between 65 90 c
      || (between 192 222 c && negb (N.eqb (code c) 215)))%bool
  then ascii_of_N (code c + 32) else c.

(** [Canonicalize] of a case-insensitive expression without the [u] flag:
    the upper-case form when it is one code unit; below 256 this moves a-z
    and U+00E0..U+00FE (but not the division sign U+00F7) down by 32. *)
Definition canonicalize (c : ascii) : ascii :=
  if (between 97 122 c
      || (between 224 254 c && negb (N.eqb (code c) 247)))%bool
  then ascii_of_N (code c - 32) else c.

(** Does [toUpperCase] change the code unit?  (a-z, the micro sign, sharp s
    and U+00E0..U+00FF except the division sign.) *)
Definition hasUpper (c : ascii) : bool :=
  (between 97 122 c || N.eqb (code c) 181
   || (between 223 255 c && negb (N.eqb (code c) 247)))%bool.

End Char.

(** ** The string methods the sources use *)

Module Str.

Fixpoint map (f : ascii -> ascii) (s : string) : string :=
  match s with
  | EmptyString => EmptyString
  | String c s' => String (f c) (map f s')
  end.

Fixpoint forallb (p : ascii -> bool) (s : string) : bool :=
  match s with
  | EmptyString => true
  | String c s' => (p c && forallb p s')%bool
  end.

Fixpoint existsb (p : ascii -> bool) (s : string) : bool :=
  match s with
  | EmptyString => false
  | String c s' => (p c || existsb p s')%bool
  end.

Fixpoint count (p : ascii -> bool) (s : string) : nat :=
  match s with
  | EmptyString => O
  | String c s' => if p c then S (count p s') else count p s'
  end.

Fixpoint drop (n : nat) (s : string) : string :=
  match n, s with
  | O, _ => s
  | S _, EmptyString => EmptyString
  | S n', String _ s' => drop n' s'
  end.

Definition toLowerCase (s : string) : string := map Char.toLower s.

Fixpoint trimStart (s : string) : string :=
  match s with
  | EmptyString => EmptyString
  | String c s' => if Char.isSpace c then trimStart s' else s
  end.

(** [trimEnd] keeps a code unit when it is not white space or when something
    is left after it. *)
Fixpoint trimEnd (s : string) : string :=
  match s with
  | EmptyString => EmptyString
  | String c s' =>
      match trimEnd s' with
      | EmptyString => if Char.isSpace c then EmptyString else String c EmptyString
      | t => String c t
      end
  end.

Definition trim (s : string) : string := trimEnd (trimStart s).

(** [s.includes(t)] *)
Fixpoint includes (s t : string) : bool :=
  (String.prefix t s
   || match s with
      | EmptyString => false
      | String _ s' => includes s' t
      end)%bool.

(** [s === s.toUpperCase()] *)
Definition isUpperCase (s : string) : bool :=
  forallb (fun c => negb (Char.hasUpper c)) s.

(** [s.replace(/\s+/g, ' ')]: every maximal run of white space becomes one
    space.  [inRun] tells that the previous code unit was white space. *)
Fixpoint collapseSpaces (inRun : bool) (s : string) : string :=
  match s with
  | EmptyString => EmptyString
  | String c s' =>
      if Char.isSpace c
      then if inRun then collapseSpaces true s'
           else String " "%char (collapseSpaces true s')
      else String c (collapseSpaces false s')
  end.

(** [s.replace(/[^\w\s]/g, ' ')] *)
Definition blankSpecials (s : string) : string :=
  map (fun c => if (Char.isWord c || Char.isSpace c)%bool then c else " "%char) s.

(** [s.split(/\s+/)]: the pieces between maximal runs of white space, with
    an empty first (last) piece when [s] starts (ends) with white space, and
    the one-element array of the empty string for the empty string. *)
Fixpoint splitSpaces (inRun : bool) (s : string) : list string :=
  match s with
  | EmptyString => [EmptyString]
  | String c s' =>
      if Char.isSpace c
      then if inRun then splitSpaces true s'
           else EmptyString :: splitSpaces true s'
      else match splitSpaces false s' with
           | w :: ws => String c w :: ws
           | [] => [String c EmptyString]
           end
  end.

Definition split (s : string) : list string := splitSpaces false s.

(** [array.includes(w)] on an array of strings *)
Definition mem (w : string) (l : list string) : bool :=
  List.existsb (String.eqb w) l.

(** [[...new Set(l)]]: the first occurrence of every element, in order. *)
Fixpoint dedupFrom (seen : list string) (l : list string) : list string :=
  match l with
  | [] => []
  | x :: l' => if mem x seen then dedupFrom seen l'
               else x :: dedupFrom (x :: seen) l'
  end.

Definition dedup (l : list string) : list string := dedupFrom [] l.

(** [array.push(x)] *)
Definition push (l : list string) (x : string) : list string := (l ++ [x])%list.

End Str.

Import Str(push).

(** ** Regular expressions

    The fragment of the ECMAScript pattern syntax that occurs in the
    sources: literals, the classes [\s], [\w], [\d], bracket sets, groups,
    alternation, and the quantifiers [?], [+], [{n}] and [{n,}] (the last
    three on a single code unit or class only). *)

Module Regex.

Inductive item : Type :=
| IChar (c : ascii)
| ISpace
| IWord
| IDigit.

(** A class is a bracket set, possibly negated; a lone literal or escape is
    the set of that one item. *)
Record cls : Type := Cls { negated : bool; items : list item }.

Inductive regex : Type :=
| Eps
| Atom (c : cls)
| Cat (r1 r2 : regex)
| Alt (r1 r2 : regex)
| Opt (r : regex)
| Plus (c : cls)
| Never.

Definition single (i : item) : cls := Cls false [i].

(** *** Parsing the source text of a pattern *)

Definition cat (r1 r2 : regex) : regex :=
  match r2 with
  | Eps => r1
  | _ => Cat r1 r2
  end.

Fixpoint power (n : nat) (r : regex) : regex :=
  match n with
  | O => Eps
  | S n' => cat r (power n' r)
  end.

Definition digitValue (c : ascii) : option nat :=
  if Char.isDigit c then Some (N.to_nat (Char.code c - 48)) else None.

Definition escape (c : ascii) : item :=
  if Ascii.eqb c "s" then ISpace
  else if Ascii.eqb c "w" then IWord
  else if Ascii.eqb c "d" then IDigit
  else IChar c.

(** The items of a bracket set up to the closing bracket. *)
Fixpoint parseItems (s : list ascii) : option (list item * list ascii) :=
  match s with
  | [] => None
  | c :: s' =>
      if Ascii.eqb c "]" then Some ([], s')
      else if Ascii.eqb c "\"
      then match s' with
           | e :: s'' =>
               match parseItems s'' with
               | Some (l, rest) => Some (escape e :: l, rest)
               | None => None
               end
           | [] => None
           end
      else match parseItems s' with
           | Some (l, rest) => Some (IChar c :: l, rest)
           | None => None
           end
  end.

Definition parseSet (s : list ascii) : option (cls * list ascii) :=
  match s with
  | c :: s' =>
      if Ascii.eqb c "^"
      then match parseItems s' with
           | Some (l, rest) => Some (Cls true l, rest)
           | None => None
           end
      else match parseItems s with
           | Some (l, rest) => Some (Cls false l, rest)
           | None => None
           end
  | [] => None
  end.

(** A quantifier after the atom [r], if there is one. *)
Definition quantify (r : regex) (s : list ascii) : option (regex * list ascii) :=
  match s with
  | c :: s' =>
      if Ascii.eqb c "?" then Some (Opt r, s')
      else if Ascii.eqb c "+"
      then match r with
           | Atom k => Some (Plus k, s')
           | _ => None
           end
      else if Ascii.eqb c "{"
      then match r, s' with
           | Atom k, d :: e :: s'' =>
               match digitValue d with
               | Some n =>
                   if Ascii.eqb e "}" then Some (power n r, s'')
                   else if Ascii.eqb e ","
                   then match n, s'' with
                        | S n', f :: rest =>
                            if Ascii.eqb f "}"
                            then Some (Cat (power n' r) (Plus k), rest)
                            else None
                        | _, _ => None
                        end
                   else None
               | None => None
               end
           | _, _ => None
           end
      else Some (r, s)
  | [] => Some (r, s)
  end.

Fixpoint parseAlt (fuel : nat) (s : list ascii) : option (regex * list ascii) :=
  match fuel with
  | O => None
  | S fuel' =>
      match parseSeq fuel' s with
      | Some (r, c :: s') =>
          if Ascii.eqb c "|"
          then match parseAlt fuel' s' with
               | Some (r', rest) => Some (Alt r r', rest)
               | None => None
               end
          else Some (r, c :: s')
      | other => other
      end
  end
with parseSeq (fuel : nat) (s : list ascii) : option (regex * list ascii) :=
  match fuel with
  | O => None
  | S fuel' =>
      match s with
      | [] => Some (Eps, [])
      | c :: _ =>
          if (Ascii.eqb c "|" || Ascii.eqb c ")")%bool then Some (Eps, s)
          else match parseAtom fuel' s with
               | Some (a, s') =>
                   match quantify a s' with
                   | Some (q, s'') =>
                       match parseSeq fuel' s'' with
                       | Some (r, rest) => Some (cat q r, rest)
                       | None => None
                       end
                   | None => None
                   end
               | None => None
               end
      end
  end
with parseAtom (fuel : nat) (s : list ascii) : option (regex * list ascii) :=
  match fuel with
  | O => None
  | S fuel' =>
      match s with
      | [] => None
      | c :: s' =>
          if Ascii.eqb c "("
          then match parseAlt fuel' s' with
               | Some (r, d :: rest) =>
                   if Ascii.eqb d ")" then Some (r, rest) else None
               | _ => None
               end
          else if Ascii.eqb c "["
          then match parseSet s' with
               | Some (k, rest) => Some (Atom k, rest)
               | None => None
               end
          else if Ascii.eqb c "\"
          then match s' with
               | e :: rest => Some (Atom (single (escape e)), rest)
               | [] => None
               end
          else Some (Atom (single (IChar c)), s')
      end
  end.

Definition parse (src : string) : option regex :=
  let s := list_ascii_of_string src in
  match parseAlt (3 * List.length s + 3) s with
  | Some (r, []) => Some r
  | _ => None
  end.

(** *** Matching *)

Definition itemMatches (ignoreCase : bool) (i : item) (a : ascii) : bool :=
  match i with
  | IChar c =>
      if ignoreCase
      then Ascii.eqb (Char.canonicalize a) (Char.canonicalize c)
      else Ascii.eqb a c
  | ISpace => Char.isSpace a
  | IWord => Char.isWord a
  | IDigit => Char.isDigit a
  end.

Definition clsMatches (ignoreCase : bool) (k : cls) (a : ascii) : bool :=
  xorb (negated k) (List.existsb (fun i => itemMatches ignoreCase i a) (items k)).

(** The matcher is written with a continuation [cont] that receives the
    rest of the input; a failing continuation makes the matcher backtrack
    to the next choice, in the order of the ECMAScript semantics.  The result
    is the input left after the whole match. *)

Fixpoint many (ic : bool) (k : cls) (s : string)
    (cont : string -> option string) : option string :=
  match s with
  | String a s' =>
      if clsMatches ic k a
      then match many ic k s' cont with
           | Some rest => Some rest
           | None => cont s
           end
      else cont s
  | EmptyString => cont s
  end.

Fixpoint run (ic : bool) (r : regex) (s : string)
    (cont : string -> option string) : option string :=
  match r with
  | Eps => cont s
  | Atom k =>
      match s with
      | String a s' => if clsMatches ic k a then cont s' else None
      | EmptyString => None
      end
  | Cat r1 r2 => run ic r1 s (fun s' => run ic r2 s' cont)
  | Alt r1 r2 =>
      match run ic r1 s cont with
      | Some rest => Some rest
      | None => run ic r2 s cont
      end
  | Opt r1 =>
      match run ic r1 s cont with
      | Some rest => Some rest
      | None => cont s
      end
  | Plus k =>
      match s with
      | String a s' => if clsMatches ic k a then many ic k s' cont else None
      | EmptyString => None
      end
  | Never => None
  end.

(** A match that starts at the head of [s]. *)
Definition matchAt (ic : bool) (r : regex) (s : string) : option string :=
  run ic r s Some.

(** The leftmost match in [s]. *)
Fixpoint search (ic : bool) (r : regex) (s : string) : option string :=
  match matchAt ic r s with
  | Some rest => Some rest
  | None =>
      match s with
      | String _ s' => search ic r s'
      | EmptyString => None
      end
  end.

(** *** RegExp objects

    A [RegExp] object carries its flags and the mutable [lastIndex]. *)

Record RegExp : Type := MkRegExp {
  source : regex;
  ignoreCase : bool;
  global : bool;
  lastIndex : nat
}.

Definition setLastIndex (re : RegExp) (n : nat) : RegExp :=
  MkRegExp (source re) (ignoreCase re) (global re) n.

(** Evaluation of a regular-expression literal [/src/flags]: a new object
    with [lastIndex = 0]. *)
Definition literal (src flags : string) : RegExp :=
  MkRegExp (match parse src with Some r => r | None => Never end)
           (Str.includes flags "i") (Str.includes flags "g") 0.

(** [re.test(s)] (RegExpBuiltinExec): a global expression starts at
    [lastIndex], fails at once when that is beyond the end, and stores the
    end of the match, or 0 after a failure; another expression starts at 0
    and leaves [lastIndex] alone.  The result is the answer and the object
    after the call. *)
Definition test (re : RegExp) (s : string) : bool * RegExp :=
  if global re
  then if Nat.ltb (String.length s) (lastIndex re)
       then (false, setLastIndex re 0)
       else match search (ignoreCase re) (source re) (Str.drop (lastIndex re) s) with
            | Some rest =>
                (true, setLastIndex re (String.length s - String.length rest))
            | None => (false, setLastIndex re 0)
            end
  else match search (ignoreCase re) (source re) s with
       | Some _ => (true, re)
       | None => (false, re)
       end.

(** [patterns.some(pattern => pattern.test(text))] and a single
    [pattern.test(text)] on objects that were just created by literals and
    are dropped afterwards. *)
Definition testFresh (re : RegExp) (s : string) : bool := fst (test re s).

Definition some (patterns : list RegExp) (s : string) : bool :=
  List.existsb (fun re => testFresh re s) patterns.

End Regex.

Import Regex.


(** ** Numbers *)

Module Num.

Definition leb (a b : Q) : bool := Qle_bool a b.
Definition ltb (a b : Q) : bool := negb (Qle_bool b a).
Definition geb (a b : Q) : bool := Qle_bool b a.
Definition gtb (a b : Q) : bool := negb (Qle_bool a b).

(** [Math.min(a, b)] and [Math.max(a, b)] *)
Definition min (a b : Q) : Q := if ltb b a then b else a.
Definition max (a b : Q) : Q := if ltb a b then b else a.

(** [Math.round(x)]: the integer nearest to [x], halves going up. *)
Definition round (x : Q) : Q := inject_Z (Qfloor (x + (1 # 2))).

Definition ofNat (n : nat) : Q := inject_Z (Z.of_nat n).

End Num.

(** ** Exceptions and the outside world *)

Inductive exn (A : Type) : Type :=
| Ok (a : A)
| Throw (e : string).

Arguments Ok {A} a.
Arguments Throw {A} e.

(** [try { body } catch (error) { handler }] *)
Definition tryCatch {A : Type} (body : exn A) (handler : string -> exn A) : exn A :=
  match body with
  | Ok a => Ok a
  | Throw e => handler e
  end.

Definition bind {A B : Type} (c : exn A) (k : A -> exn B) : exn B :=
  match c with
  | Ok a => k a
  | Throw e => Throw e
  end.

Notation "x <- c ;; k" := (bind c (fun x => k))
  (at level 61, c at next level, right associativity).

(** The attribute scores in an answer of the Perspective API
    ([scores.X?.summaryScore?.value || 0]: a missing attribute counts 0). *)
Record PerspectiveScores : Type := {
  TOXICITY : Q;
  SEVERE_TOXICITY : Q;
  IDENTITY_ATTACK : Q;
  INSULT : Q;
  THREAT : Q
}.

(** What the code calls outside the repository.

    - [huggingface text]: the [axios.post] of [getMLHateSpeechScore]; it
      throws, or answers without data ([None]), or with the score of the
      label [HATE] (0 when the label is missing).
    - [perspective text]: the [axios.post] of [getMLToxicityScore];
      it throws, or answers without [attributeScores], or with them.
    - [badwordsList]: the word list of [new Filter()] of the package
      [bad-words]; [badwordsIsProfane list text]: its method [isProfane] on
      a filter whose list is [list].
    - [wordMatches word text]: the number of matches of
      [new RegExp(`\\b${word}\\b`, 'gi')] in [text].
    - [sqrt]: [Math.sqrt]. *)
Record Env : Type := {
  huggingface : string -> exn (option Q);
  perspective : string -> exn (option PerspectiveScores);
  badwordsList : list string;
  badwordsIsProfane : list string -> string -> bool;
  wordMatches : string -> string -> nat;
  sqrt : Q -> Q
}.

(** ** Results *)

Inductive Level : Type := low | medium | high | critical.

Inductive Risk : Type := safe | warning | danger | criticalRisk.

Module Category.

Record t : Type := Make {
  score : Q;
  level : Level;
  detected : bool;
  reasoning : list string
}.

End Category.

Record ContextAnalysis : Type := {
  isSarcastic : bool;
  isIronic : bool;
  isPlayful : bool;
  isFriendly : bool;
  isEducational : bool;
  isHistorical : bool;
  isFormal : bool
}.

Record IntentAnalysis : Type := {
  isThreatening : bool;
  isAggressive : bool;
  isHostile : bool;
  isClear : bool;
  isConstructive : bool
}.

(** The [analysis] object of a [ContentAnalysisResult]. *)
Module Analysis.

Record t : Type := {
  hateSpeech : Category.t;
  toxicity : Category.t;
  harassment : Category.t;
  profanity : Category.t;
  sentiment : Category.t;
  context : ContextAnalysis;
  intent : IntentAnalysis;
  overallRisk : Risk;
  confidence : Q;
  flaggedWords : list string;
  suggestions : list string;
  reasoning : list string
}.

End Analysis.

(** A [ContentAnalysisResult] without [id] and [metadata], which hold the
    clock, a random number and what the request says about the user. *)
Record ContentAnalysisResult : Type := {
  content : string;
  analysis : Analysis.t
}.

(** ** ContextAnalyzer *)

Module ContextAnalyzer.

Definition sarcasmIndicators : list RegExp := Eval vm_compute in
  [ literal "yeah\s+right" "gi";
    literal "sure\s+thing" "gi";
    literal "oh\s+great" "gi";
    literal "wonderful" "gi";
    literal "fantastic" "gi";
    literal "as\s+if" "gi";
    literal "whatever" "gi" ].

Definition detectSarcasm (text : string) : bool := some sarcasmIndicators text.

Definition ironyIndicators : list RegExp := Eval vm_compute in
  [ literal "ironically" "gi";
    literal "paradoxically" "gi";
    literal "surprisingly" "gi";
    literal "unexpectedly" "gi" ].

Definition detectIrony (text : string) : bool := some ironyIndicators text.

(** The last indicator of the source is an alternation of four emoji; each
    is a pair of surrogate code units, which no string of the model
    contains, so it is the expression that never matches. *)
Definition playfulIndicators : list RegExp := Eval vm_compute in
  [ literal "lol" "gi";
    literal "haha" "gi";
    literal "hehe" "gi";
    literal "jk" "gi";
    literal "just\s+kidding" "gi";
    MkRegExp Never false true 0 ].

Definition detectPlayfulness (text : string) : bool := some playfulIndicators text.

Definition friendlyIndicators : list RegExp := Eval vm_compute in
  [ literal "please" "gi";
    literal "thank\s+you" "gi";
    literal "thanks" "gi";
    literal "appreciate" "gi";
    literal "kind\s+of" "gi";
    literal "sort\s+of" "gi" ].

Definition detectFriendliness (text : string) : bool := some friendlyIndicators text.

Definition educationalIndicators : list RegExp := Eval vm_compute in
  [ literal "according\s+to" "gi";
    literal "research\s+shows" "gi";
    literal "studies\s+indicate" "gi";
    literal "historically" "gi";
    literal "in\s+fact" "gi";
    literal "for\s+example" "gi" ].

Definition detectEducational (text : string) : bool := some educationalIndicators text.

Definition historicalIndicators : list RegExp := Eval vm_compute in
  [ literal "in\s+\d{4}" "gi";
    literal "during\s+the" "gi";
    literal "historically" "gi";
    literal "in\s+the\s+past" "gi";
    literal "century" "gi";
    literal "era" "gi" ].

Definition detectHistorical (text : string) : bool := some historicalIndicators text.

Definition formalIndicators : list RegExp := Eval vm_compute in
  [ literal "therefore" "gi";
    literal "however" "gi";
    literal "furthermore" "gi";
    literal "moreover" "gi";
    literal "consequently" "gi" ].

Definition detectFormality (text : string) : bool := some formalIndicators text.

Definition analyze (text : string) : ContextAnalysis :=
  {| isSarcastic := detectSarcasm text;
     isIronic := detectIrony text;
     isPlayful := detectPlayfulness text;
     isFriendly := detectFriendliness text;
     isEducational := detectEducational text;
     isHistorical := detectHistorical text;
     isFormal := detectFormality text |}.

End ContextAnalyzer.

(** ** IntentAnalyzer *)

Module IntentAnalyzer.

Definition threatIndicators : list RegExp := Eval vm_compute in
  [ literal "i\s+will\s+(hurt|harm|kill|attack)" "gi";
    literal "you\s+will\s+(pay|suffer|regret)" "gi";
    literal "threat" "gi";
    literal "warning" "gi" ].

Definition detectThreats (text : string) : bool := some threatIndicators text.

Definition aggressionIndicators : list RegExp := Eval vm_compute in
  [ literal "angry" "gi";
    literal "furious" "gi";
    literal "rage" "gi";
    literal "attack" "gi";
    literal "fight" "gi";
    literal "destroy" "gi" ].

Definition detectAggression (text : string) : bool := some aggressionIndicators text.

Definition hostilityIndicators : list RegExp := Eval vm_compute in
  [ literal "hate" "gi";
    literal "despise" "gi";
    literal "loathe" "gi";
    literal "enemy" "gi";
    literal "opponent" "gi" ].

Definition detectHostility (text : string) : bool := some hostilityIndicators text.

Definition punctuation : RegExp := Eval vm_compute in literal "[.!?]" "".

Definition detectClarity (text : string) : bool :=
  let wordCount := List.length (Str.split text) in
  let hasPunctuation := testFresh punctuation text in
  (Nat.ltb 5 wordCount && hasPunctuation)%bool.

Definition constructiveIndicators : list RegExp := Eval vm_compute in
  [ literal "suggest" "gi";
    literal "recommend" "gi";
    literal "propose" "gi";
    literal "help" "gi";
    literal "improve" "gi";
    literal "better" "gi" ].

Definition detectConstructiveness (text : string) : bool :=
  some constructiveIndicators text.

Definition analyze (text : string) : IntentAnalysis :=
  {| isThreatening := detectThreats text;
     isAggressive := detectAggression text;
     isHostile := detectHostility text;
     isClear := detectClarity text;
     isConstructive := detectConstructiveness text |}.

End IntentAnalyzer.

(** ** ToxicityAnalyzer

    The keyword and pattern tables are fields set by the constructor: the
    [RegExp] objects of [toxicityPatterns] live as long as the analyzer and
    keep their [lastIndex] from one call of [analyze] to the next.  The
    patterns of [analyzeSentiment] and [analyzeAggression] are literals
    inside the methods, created anew by every call. *)

Module ToxicityAnalyzer.

Record t : Type := {
  toxicityKeywords : list string;
  toxicityPatterns : list RegExp
}.

(** The constructor: the objects made by the eight literals, each with
    [lastIndex = 0]. *)
Definition patternLiterals : list RegExp := Eval vm_compute in
  [ literal "you\s+are\s+(so\s+)?(stupid|dumb|idiot|moron)" "gi";
    literal "i\s+hate\s+you" "gi";
    literal "you\s+suck" "gi";
    literal "go\s+away" "gi";
    literal "shut\s+up" "gi";
    literal "nobody\s+cares" "gi";
    literal "you\s+are\s+worthless" "gi";
    literal "you\s+are\s+garbage" "gi" ].

Definition new : t :=
  {| toxicityKeywords :=
       [ "toxic"; "poison"; "venom"; "hate"; "disgusting"; "revolting";
         "pathetic"; "worthless"; "useless"; "garbage"; "trash";
         "annoying"; "irritating"; "infuriating"; "disgusting" ];
     toxicityPatterns := patternLiterals |}.

Definition analyzeKeywords (self : t) (text : string) : Q :=
  let score :=
    fold_left (fun score keyword =>
                 if Str.includes text keyword then score + 10 else score)
              (toxicityKeywords self) 0 in
  Num.min score 40.

(** The [forEach] of [analyzePatterns]: every pattern is tested once, in
    order, and is left with the [lastIndex] that [test] stored. *)
Fixpoint testEach (patterns : list RegExp) (text : string) (score : Q)
    : (Q * list RegExp)%type :=
  match patterns with
  | [] => (score, [])
  | pattern :: rest =>
      let (hit, pattern') := test pattern text in
      let (score', rest') :=
        testEach rest text (if hit then score + 15 else score) in
      (score', pattern' :: rest')
  end.

Definition analyzePatterns (self : t) (text : string) : (Q * t)%type :=
  let (score, patterns') := testEach (toxicityPatterns self) text 0 in
  (Num.min score 30,
   {| toxicityKeywords := toxicityKeywords self; toxicityPatterns := patterns' |}).

Definition getMLToxicityScore (env : Env) (text : string) : exn Q :=
  answer <- tryCatch
    (response <- perspective env text ;;
     match response with
     | Some scores =>
         let weightedScore :=
           (TOXICITY scores * 0.3 +
            SEVERE_TOXICITY scores * 0.25 +
            IDENTITY_ATTACK scores * 0.2 +
            INSULT scores * 0.15 +
            THREAT scores * 0.1) * 100 in
         Ok (Some (Num.round weightedScore))
     | None => Ok None
     end)
    (fun _ => Ok None) ;;
  match answer with
  | Some mlScore => Ok mlScore
  | None => Ok 0
  end.

Definition negativeWords : list string :=
  [ "hate"; "dislike"; "terrible"; "awful"; "horrible"; "disgusting";
    "annoying"; "irritating"; "frustrating"; "angry"; "mad"; "upset" ].

Definition negativePatterns : list RegExp := Eval vm_compute in
  [ literal "i\s+hate" "gi";
    literal "i\s+dislike" "gi";
    literal "this\s+is\s+terrible" "gi";
    literal "this\s+is\s+awful" "gi";
    literal "i\s+can't\s+stand" "gi" ].

Definition analyzeSentiment (text : string) : Q :=
  let score := 0 in
  let score :=
    fold_left (fun score word =>
                 if Str.includes text word then score + 5 else score)
              negativeWords score in
  let score :=
    fold_left (fun score pattern =>
                 if testFresh pattern text then score + 10 else score)
              negativePatterns score in
  let exclamationCount := Str.count (Ascii.eqb "!") text in
  let questionCount := Str.count (Ascii.eqb "?") text in
  let score := if Nat.ltb 3 exclamationCount then score + 5 else score in
  let score := if Nat.ltb 3 questionCount then score + 3 else score in
  Num.min score 20.

Definition aggressiveWords : list string :=
  [ "attack"; "fight"; "destroy"; "kill"; "hurt"; "harm";
    "violence"; "aggressive"; "hostile"; "combative" ].

Definition aggressivePatterns : list RegExp := Eval vm_compute in
  [ literal "i\s+will\s+(hurt|harm|attack)" "gi";
    literal "you\s+deserve\s+to\s+(die|suffer)" "gi";
    literal "i\s+want\s+to\s+(hurt|harm)" "gi";
    literal "let's\s+fight" "gi" ].

Definition analyzeAggression (text : string) : Q :=
  let score := 0 in
  let score :=
    fold_left (fun score word =>
                 if Str.includes text word then score + 15 else score)
              aggressiveWords score in
  let score :=
    fold_left (fun score pattern =>
                 if testFresh pattern text then score + 20 else score)
              aggressivePatterns score in
  Num.min score 30.

(** [analyze]: the result and the analyzer after the call. *)
Definition analyze (env : Env) (self : t) (text : string) : (exn Q * t)%type :=
  let cleanText := Str.trim (Str.toLowerCase text) in
  let score := 0 in
  let keywordScore := analyzeKeywords self cleanText in
  let score := score + keywordScore in
  let (patternScore, self') := analyzePatterns self cleanText in
  let score := score + patternScore in
  (tryCatch
     (mlScore <- getMLToxicityScore env cleanText ;;
      let score := Num.max score mlScore in
      let sentimentScore := analyzeSentiment cleanText in
      let score := score + sentimentScore in
      let aggressionScore := analyzeAggression cleanText in
      let score := score + aggressionScore in
      Ok (Num.min score 100))
     (fun _ => Ok 0),
   self').

Definition getToxicityLevel (score : Q) : Level :=
  if Num.geb score 80 then critical
  else if Num.geb score 60 then high
  else if Num.geb score 40 then medium
  else low.

Definition isToxic (score threshold : Q) : bool := Num.geb score threshold.

End ToxicityAnalyzer.

(** ** ProfanityFilter *)

Module ProfanityFilter.

Definition customProfanityList : list string :=
  [ "stupid"; "idiot"; "moron"; "dumb"; "retard" ].

(** The filter object after [initializeCustomFilter]: [addWords] appends the
    custom words to the list of the package. *)
(** [filterList] is the property [list] of the filter object. *)
Record t : Type := { filterList : list string }.

Definition new (env : Env) : t :=
  {| filterList := (badwordsList env ++ customProfanityList)%list |}.

Definition isProfane (env : Env) (self : t) (text : string) : bool :=
  badwordsIsProfane env (filterList self) text.

Definition countRepeatedProfanity (env : Env) (self : t) (text : string) : nat :=
  fold_left (fun repeatedCount word =>
               let matches := wordMatches env word text in
               if Nat.ltb 1 matches
               then (repeatedCount + (matches - 1))%nat
               else repeatedCount)
            (filterList self) O.

Definition intensityMap : list (string * Q)%type :=
  [ ("damn", 5); ("hell", 5); ("crap", 5);
    ("stupid", 10); ("idiot", 10); ("moron", 10);
    ("fuck", 20); ("shit", 15); ("bitch", 15);
    ("cunt", 25); ("nigger", 30); ("faggot", 25) ].

Definition calculateIntensityScore (text : string) : Q :=
  let intensityScore :=
    fold_left (fun intensityScore entry =>
                 if Str.includes text (fst entry)
                 then intensityScore + snd entry else intensityScore)
              intensityMap 0 in
  Num.min intensityScore 30.

Definition directedPatterns : list RegExp := Eval vm_compute in
  [ literal "you\s+\w+" "gi";
    literal "fuck\s+you" "gi";
    literal "go\s+to\s+hell" "gi";
    literal "you\s+are\s+\w+" "gi" ].

Definition shouting : RegExp := Eval vm_compute in literal "\w+!{2,}" "gi".

Definition calculateContextScore (env : Env) (self : t) (text : string) : Q :=
  let contextScore := 0 in
  let contextScore :=
    fold_left (fun contextScore pattern =>
                 if testFresh pattern text then contextScore + 10 else contextScore)
              directedPatterns contextScore in
  let contextScore :=
    if (Str.isUpperCase text && isProfane env self text)%bool
    then contextScore + 5 else contextScore in
  let contextScore :=
    if (testFresh shouting text && isProfane env self text)%bool
    then contextScore + 5 else contextScore in
  Num.min contextScore 20.

Definition analyze (env : Env) (self : t) (text : string) : exn Q :=
  tryCatch
    (let cleanText := Str.trim (Str.toLowerCase text) in
     let isProfane := isProfane env self cleanText in
     if negb isProfane then Ok 0
     else
       let score := 0 in
       let score := score + 30 in
       let profaneWords :=
         List.filter (fun word => Str.includes cleanText (Str.toLowerCase word))
                     (filterList self) in
       let score := score + Num.ofNat (List.length profaneWords) * 10 in
       let repeatedProfanity := countRepeatedProfanity env self cleanText in
       let score := score + Num.ofNat repeatedProfanity * 5 in
       let intensityScore := calculateIntensityScore cleanText in
       let score := score + intensityScore in
       let contextScore := calculateContextScore env self cleanText in
       let score := score + contextScore in
       Ok (Num.min score 100))
    (fun _ => Ok 0).

End ProfanityFilter.

(** ** The level of a score *)

Definition getRiskLevel (score : Q) : Level :=
  if Num.geb score 80 then critical
  else if Num.geb score 60 then high
  else if Num.geb score 40 then medium
  else low.

(** ** SentimentAnalyzer *)

Module SentimentAnalyzer.

Definition positiveWords : list string :=
  [ "good"; "great"; "excellent"; "wonderful"; "amazing"; "love"; "like" ].

Definition negativeWords : list string :=
  [ "bad"; "terrible"; "awful"; "horrible"; "hate"; "dislike"; "angry" ].

(** One turn of [words.forEach]. *)
Definition visit (acc : (Q * list string)%type) (word : string)
    : (Q * list string)%type :=
  let (score, reasoning) := acc in
  let (score, reasoning) :=
    if Str.mem word positiveWords
    then (score - 10, push reasoning "Positive sentiment detected")
    else (score, reasoning) in
  if Str.mem word negativeWords
  then (score + 15, push reasoning "Negative sentiment detected")
  else (score, reasoning).

Definition analyze (text : string) : Category.t :=
  let reasoning := [] in
  let score := 0 in
  let words := Str.split text in
  let (score, reasoning) := fold_left visit words (score, reasoning) in
  let exclamationCount := Str.count (Ascii.eqb "!") text in
  let (score, reasoning) :=
    if Nat.ltb 2 exclamationCount
    then (score + Num.ofNat exclamationCount * 5,
          push reasoning "High emotional intensity detected")
    else (score, reasoning) in
  {| Category.score := Num.min score 100;
     Category.level := getRiskLevel score;
     Category.detected := Num.gtb score 20;
     Category.reasoning := reasoning |}.

End SentimentAnalyzer.

(** ** TextAnalysisService *)

Module TextAnalysisService.

(** The fields that hold state: the toxicity analyzer with its pattern
    objects and the profanity filter.  The context, intent and sentiment
    analyzers have no fields. *)
Record t : Type := {
  profanityFilter : ProfanityFilter.t;
  toxicityAnalyzer : ToxicityAnalyzer.t
}.

Definition new (env : Env) : t :=
  {| profanityFilter := ProfanityFilter.new env;
     toxicityAnalyzer := ToxicityAnalyzer.new |}.

Record TextAnalysisRequest : Type := { text : string }.

Definition preprocessText (text : string) : string :=
  Str.trim
    (Str.blankSpecials
       (Str.collapseSpaces false
          (Str.trim (Str.toLowerCase text)))).

(** The loop over one tier of patterns:
    [for (const pattern of tier) if (pattern.test(text)) { score += points;
    detected = true; reasoning.push(message) }]. *)
Definition tier (patterns : list RegExp) (points : Q) (message : string)
    (text : string) (acc : (Q * bool * list string)%type)
    : (Q * bool * list string)%type :=
  fold_left (fun acc pattern =>
               let '(score, detected, reasoning) := acc in
               if testFresh pattern text
               then (score + points, true, push reasoning message)
               else acc)
            patterns acc.

Definition directHate : list RegExp := Eval vm_compute in
  [ literal "i\s+hate\s+(all\s+)?(blacks?|whites?|jews?|muslims?|gays?|women?|men)" "gi";
    literal "(blacks?|whites?|jews?|muslims?|gays?|women?|men)\s+should\s+(die|be\s+killed|be\s+eliminated)" "gi";
    literal "(nazi|fascist|supremacist)\s+(ideology|beliefs?|views?)" "gi" ].

Definition indirectHate : list RegExp := Eval vm_compute in
  [ literal "(blacks?|whites?|jews?|muslims?|gays?|women?|men)\s+are\s+(inferior|superior|animals?|scum)" "gi";
    literal "(blacks?|whites?|jews?|muslims?|gays?|women?|men)\s+don't\s+belong" "gi";
    literal "(blacks?|whites?|jews?|muslims?|gays?|women?|men)\s+are\s+(ruining|destroying)" "gi" ].

Definition dehumanizing : list RegExp := Eval vm_compute in
  [ literal "(blacks?|whites?|jews?|muslims?|gays?|women?|men)\s+are\s+(animals?|vermin|pests?)" "gi";
    literal "(blacks?|whites?|jews?|muslims?|gays?|women?|men)\s+should\s+be\s+(exterminated|eliminated)" "gi" ].

Definition getMLHateSpeechScore (env : Env) (text : string) : exn Q :=
  answer <- tryCatch
    (response <- huggingface env text ;;
     match response with
     | Some hateScore => Ok (Some (Num.round (hateScore * 100)))
     | None => Ok None
     end)
    (fun _ => Ok None) ;;
  match answer with
  | Some mlScore => Ok mlScore
  | None => Ok 0
  end.

Definition analyzeHateSpeech (env : Env) (text : string)
    (contextAnalysis : ContextAnalysis) (intentAnalysis : IntentAnalysis)
    : exn Category.t :=
  let reasoning : list string := [] in
  let score := 0 in
  let detected := false in
  let '(score, detected, reasoning) :=
    tier directHate 40 "Direct hate speech pattern detected" text
         (score, detected, reasoning) in
  let '(score, detected, reasoning) :=
    tier indirectHate 25 "Indirect hate speech pattern detected" text
         (score, detected, reasoning) in
  let '(score, detected, reasoning) :=
    tier dehumanizing 35 "Dehumanizing language detected" text
         (score, detected, reasoning) in
  let '(score, reasoning) :=
    if (isSarcastic contextAnalysis || isIronic contextAnalysis)%bool
    then (score * 0.3, push reasoning "Score reduced due to sarcastic/ironic context")
    else (score, reasoning) in
  let '(score, reasoning) :=
    if (isEducational contextAnalysis || isHistorical contextAnalysis)%bool
    then (score * 0.2, push reasoning "Score reduced due to educational context")
    else (score, reasoning) in
  let '(score, reasoning) :=
    if isThreatening intentAnalysis
    then (score * 1.5, push reasoning "Score increased due to threatening intent")
    else (score, reasoning) in
  let '(score, detected, reasoning) :=
    match getMLHateSpeechScore env text with
    | Ok mlScore =>
        let '(score, reasoning) :=
          if Num.gtb mlScore score
          then (mlScore, push reasoning "ML model detected higher hate speech score")
          else (score, reasoning) in
        let detected := if Num.gtb mlScore 30 then true else detected in
        (score, detected, reasoning)
    | Throw _ => (score, detected, reasoning)
    end in
  let score := Num.min score 100 in
  Ok {| Category.score := score;
        Category.level := getRiskLevel score;
        Category.detected := detected;
        Category.reasoning := reasoning |}.

Definition analyzeToxicity (env : Env) (self : t) (text : string)
    (contextAnalysis : ContextAnalysis) (intentAnalysis : IntentAnalysis)
    : (exn Category.t * t)%type :=
  let reasoning : list string := [] in
  let (result, analyzer') :=
    ToxicityAnalyzer.analyze env (toxicityAnalyzer self) text in
  (toxicityScore <- result ;;
   let '(toxicityScore, reasoning) :=
     if (isSarcastic contextAnalysis || isIronic contextAnalysis)%bool
     then (toxicityScore * 0.4,
           push reasoning "Toxicity score reduced due to sarcastic context")
     else (toxicityScore, reasoning) in
   let '(toxicityScore, reasoning) :=
     if (isPlayful contextAnalysis || isFriendly contextAnalysis)%bool
     then (toxicityScore * 0.3,
           push reasoning "Toxicity score reduced due to playful context")
     else (toxicityScore, reasoning) in
   let '(toxicityScore, reasoning) :=
     if (isAggressive intentAnalysis || isHostile intentAnalysis)%bool
     then (toxicityScore * 1.3,
           push reasoning "Toxicity score increased due to aggressive intent")
     else (toxicityScore, reasoning) in
   Ok {| Category.score := Num.min toxicityScore 100;
         Category.level := getRiskLevel toxicityScore;
         Category.detected := Num.gtb toxicityScore 40;
         Category.reasoning := reasoning |},
   {| profanityFilter := profanityFilter self; toxicityAnalyzer := analyzer' |}).

Definition directThreats : list RegExp := Eval vm_compute in
  [ literal "i\s+will\s+(hurt|harm|kill|attack|destroy)\s+you" "gi";
    literal "you\s+will\s+(pay|suffer|regret)" "gi";
    literal "i\s+am\s+going\s+to\s+(hurt|harm|kill|attack)\s+you" "gi" ].

Definition stalking : list RegExp := Eval vm_compute in
  [ literal "i\s+know\s+where\s+you\s+(live|work|go)" "gi";
    literal "i\s+am\s+watching\s+you" "gi";
    literal "i\s+see\s+you\s+(everywhere|all\s+the\s+time)" "gi";
    literal "i\s+follow\s+you" "gi" ].

Definition intimidation : list RegExp := Eval vm_compute in
  [ literal "watch\s+your\s+(back|step)" "gi";
    literal "you\s+better\s+(watch\s+out|be\s+careful)" "gi";
    literal "i\s+will\s+find\s+you" "gi";
    literal "you\s+can't\s+hide" "gi" ].

Definition cyberbullying : list RegExp := Eval vm_compute in
  [ literal "everyone\s+hates\s+you" "gi";
    literal "nobody\s+(likes|loves)\s+you" "gi";
    literal "you\s+should\s+(kill\s+yourself|die)" "gi";
    literal "you\s+are\s+(worthless|useless|pathetic)" "gi" ].

Definition analyzeHarassment (text : string)
    (contextAnalysis : ContextAnalysis) (intentAnalysis : IntentAnalysis)
    : exn Category.t :=
  let reasoning : list string := [] in
  let score := 0 in
  let detected := false in
  let '(score, detected, reasoning) :=
    tier directThreats 45 "Direct threat pattern detected" text
         (score, detected, reasoning) in
  let '(score, detected, reasoning) :=
    tier stalking 35 "Stalking behavior pattern detected" text
         (score, detected, reasoning) in
  let '(score, detected, reasoning) :=
    tier intimidation 25 "Intimidation pattern detected" text
         (score, detected, reasoning) in
  let '(score, detected, reasoning) :=
    tier cyberbullying 30 "Cyberbullying pattern detected" text
         (score, detected, reasoning) in
  let '(score, reasoning) :=
    if (isSarcastic contextAnalysis || isIronic contextAnalysis)%bool
    then (score * 0.2, push reasoning "Harassment score reduced due to sarcastic context")
    else (score, reasoning) in
  let '(score, reasoning) :=
    if isThreatening intentAnalysis
    then (score * 1.4, push reasoning "Harassment score increased due to threatening intent")
    else (score, reasoning) in
  let score := Num.min score 100 in
  Ok {| Category.score := score;
        Category.level := getRiskLevel score;
        Category.detected := detected;
        Category.reasoning := reasoning |}.

Definition analyzeProfanity (env : Env) (self : t) (text : string)
    (contextAnalysis : ContextAnalysis) : exn Category.t :=
  let reasoning : list string := [] in
  profanityScore <- ProfanityFilter.analyze env (profanityFilter self) text ;;
  let '(profanityScore, reasoning) :=
    if (isSarcastic contextAnalysis || isIronic contextAnalysis)%bool
    then (profanityScore * 0.3,
          push reasoning "Profanity score reduced due to sarcastic context")
    else (profanityScore, reasoning) in
  let '(profanityScore, reasoning) :=
    if (isPlayful contextAnalysis || isFriendly contextAnalysis)%bool
    then (profanityScore * 0.4,
          push reasoning "Profanity score reduced due to playful context")
    else (profanityScore, reasoning) in
  let '(profanityScore, reasoning) :=
    if (isEducational contextAnalysis || isHistorical contextAnalysis)%bool
    then (profanityScore * 0.1,
          push reasoning "Profanity score reduced due to educational context")
    else (profanityScore, reasoning) in
  Ok {| Category.score := Num.min profanityScore 100;
        Category.level := getRiskLevel profanityScore;
        Category.detected := Num.gtb profanityScore 25;
        Category.reasoning := reasoning |}.

Definition calculateOverallRisk (hateSpeech toxicity harassment profanity sentiment : Q)
    (contextAnalysis : ContextAnalysis) (intentAnalysis : IntentAnalysis) : Risk :=
  let weightedScore :=
    hateSpeech * 0.35 +
    harassment * 0.25 +
    toxicity * 0.20 +
    profanity * 0.15 +
    sentiment * 0.05 in
  let adjustedScore := weightedScore in
  let adjustedScore :=
    if (isSarcastic contextAnalysis || isIronic contextAnalysis)%bool
    then adjustedScore * 0.4 else adjustedScore in
  let adjustedScore :=
    if (isEducational contextAnalysis || isHistorical contextAnalysis)%bool
    then adjustedScore * 0.3 else adjustedScore in
  let adjustedScore :=
    if (isThreatening intentAnalysis || isAggressive intentAnalysis)%bool
    then adjustedScore * 1.3 else adjustedScore in
  if Num.geb adjustedScore 70 then criticalRisk
  else if Num.geb adjustedScore 50 then danger
  else if Num.geb adjustedScore 30 then warning
  else safe.

Definition sum (scores : list Q) : Q := fold_left Qplus scores 0.

(** [scores] is never empty in the source (it has the five category
    scores). *)
Definition calculateConfidence (env : Env) (scores : list Q)
    (contextAnalysis : ContextAnalysis) (intentAnalysis : IntentAnalysis) : Q :=
  let length := Num.ofNat (List.length scores) in
  let avg := sum scores / length in
  let variance :=
    fold_left (fun a b => a + (b - avg) * (b - avg)) scores 0 / length in
  let stdDev := sqrt env variance in
  let confidence := Num.max 0 (100 - stdDev * 2) in
  let confidence :=
    if (isSarcastic contextAnalysis || isIronic contextAnalysis)%bool
    then confidence * 0.7 else confidence in
  let confidence :=
    if (isEducational contextAnalysis || isHistorical contextAnalysis)%bool
    then confidence * 0.8 else confidence in
  let confidence :=
    if isClear intentAnalysis then confidence * 1.1 else confidence in
  Num.round (Num.min confidence 100).

Definition allKeywords : list string :=
  [ "hate"; "kill"; "destroy"; "racist"; "sexist"; "harass"; "bully"; "threaten" ].

Definition extractFlaggedWords (text : string) : list string :=
  let words := Str.split text in
  let flaggedWords :=
    List.filter (fun word =>
                   List.existsb (fun keyword => Str.includes word keyword) allKeywords)
                words in
  Str.dedup flaggedWords.

Definition generateReasoning (hateSpeech toxicity harassment profanity sentiment : Category.t)
    : list string :=
  Str.dedup (Category.reasoning hateSpeech ++ Category.reasoning toxicity ++
             Category.reasoning harassment ++ Category.reasoning profanity)%list.

Definition baseSuggestions (riskLevel : Risk) : list string :=
  match riskLevel with
  | safe => [ "Content appears safe for publication" ]
  | warning => [ "Consider reviewing content before publication";
                 "Content may need minor adjustments" ]
  | danger => [ "Content should be reviewed by moderators";
                "Consider editing or removing problematic sections" ]
  | criticalRisk => [ "Content should not be published";
                      "Immediate moderation required";
                      "Consider user warning or suspension" ]
  end.

Definition generateSuggestions (riskLevel : Risk) (contextAnalysis : ContextAnalysis)
    : list string :=
  let suggestions := baseSuggestions riskLevel in
  let suggestions :=
    if (isSarcastic contextAnalysis || isIronic contextAnalysis)%bool
    then push suggestions "Consider adding context indicators for sarcastic content"
    else suggestions in
  if isEducational contextAnalysis
  then push suggestions "Educational content may need additional context or warnings"
  else suggestions.

(** [analyzeText]: the promise's outcome and the service after the call. *)
Definition analyzeText (env : Env) (self : t) (request : TextAnalysisRequest)
    : (exn ContentAnalysisResult * t)%type :=
  let originalText := text request in
  let preprocessedText := preprocessText originalText in
  let contextAnalysis := ContextAnalyzer.analyze preprocessedText in
  let intentAnalysis := IntentAnalyzer.analyze preprocessedText in
  let (toxicityOutcome, self') :=
    analyzeToxicity env self preprocessedText contextAnalysis intentAnalysis in
  (tryCatch
     (hateSpeechResult <-
        analyzeHateSpeech env preprocessedText contextAnalysis intentAnalysis ;;
      toxicityResult <- toxicityOutcome ;;
      harassmentResult <-
        analyzeHarassment preprocessedText contextAnalysis intentAnalysis ;;
      profanityResult <-
        analyzeProfanity env self preprocessedText contextAnalysis ;;
      let sentimentResult := SentimentAnalyzer.analyze preprocessedText in
      let overallRisk :=
        calculateOverallRisk
          (Category.score hateSpeechResult)
          (Category.score toxicityResult)
          (Category.score harassmentResult)
          (Category.score profanityResult)
          (Category.score sentimentResult)
          contextAnalysis intentAnalysis in
      let confidence :=
        calculateConfidence env
          [ Category.score hateSpeechResult;
            Category.score toxicityResult;
            Category.score harassmentResult;
            Category.score profanityResult;
            Category.score sentimentResult ]
          contextAnalysis intentAnalysis in
      Ok {| content := text request;
            analysis :=
              {| Analysis.hateSpeech := hateSpeechResult;
                 Analysis.toxicity := toxicityResult;
                 Analysis.harassment := harassmentResult;
                 Analysis.profanity := profanityResult;
                 Analysis.sentiment := sentimentResult;
                 Analysis.context := contextAnalysis;
                 Analysis.intent := intentAnalysis;
                 Analysis.overallRisk := overallRisk;
                 Analysis.confidence := confidence;
                 Analysis.flaggedWords := extractFlaggedWords preprocessedText;
                 Analysis.suggestions := generateSuggestions overallRisk contextAnalysis;
                 Analysis.reasoning :=
                   generateReasoning hateSpeechResult toxicityResult
                     harassmentResult profanityResult sentimentResult |} |})
     (fun _ => Throw "Failed to analyze text content"),
   self').

End TextAnalysisService.

(** ** ImageAnalysisService

    The image sub-result comes from a JSON answer, so its levels and its
    overall risk are strings; the merged result has the same shape. *)

Module ImageAnalysisService.

Record Scored : Type := {
  score : Q;
  level : string;
  detected : bool
}.

Record ImageAnalysis : Type := {
  hateSpeech : Scored;
  toxicity : Scored;
  harassment : Scored;
  profanity : Scored;
  overallRisk : string;
  confidence : Q;
  flaggedWords : list string;
  suggestions : list string
}.

Definition getDefaultAnalysis : ImageAnalysis :=
  {| hateSpeech := {| score := 0; level := "low"; detected := false |};
     toxicity := {| score := 0; level := "low"; detected := false |};
     harassment := {| score := 0; level := "low"; detected := false |};
     profanity := {| score := 0; level := "low"; detected := false |};
     overallRisk := "safe";
     confidence := 50;
     flaggedWords := [];
     suggestions := [ "Unable to analyze image content - manual review recommended" ] |}.

Definition levelName (l : Level) : string :=
  match l with
  | low => "low"
  | medium => "medium"
  | high => "high"
  | critical => "critical"
  end.

Definition riskName (r : Risk) : string :=
  match r with
  | safe => "safe"
  | warning => "warning"
  | danger => "danger"
  | criticalRisk => "critical"
  end.

Definition getRiskLevel (score : Q) : Level :=
  if Num.geb score 80 then critical
  else if Num.geb score 60 then high
  else if Num.geb score 40 then medium
  else low.

Definition calculateOverallRisk (hateSpeech toxicity harassment profanity : Q) : Risk :=
  let maxScore := Num.max (Num.max (Num.max hateSpeech toxicity) harassment) profanity in
  let avgScore := (hateSpeech + toxicity + harassment + profanity) / 4 in
  if (Num.geb maxScore 80 || Num.geb avgScore 70)%bool then criticalRisk
  else if (Num.geb maxScore 60 || Num.geb avgScore 50)%bool then danger
  else if (Num.geb maxScore 40 || Num.geb avgScore 30)%bool then warning
  else safe.

(** One category of the merged result. *)
Definition combineCategory (image : Scored) (text : Category.t) : Scored :=
  {| score := Num.max (score image) (Category.score text);
     level := levelName (getRiskLevel (Num.max (score image) (Category.score text)));
     detected := (detected image || Category.detected text)%bool |}.

(** [textAnalysis] is [null] when the request has no description. *)
Definition combineImageAndTextAnalysis (imageAnalysis : ImageAnalysis)
    (textAnalysis : option Analysis.t) : ImageAnalysis :=
  match textAnalysis with
  | None => imageAnalysis
  | Some textAnalysis =>
      {| hateSpeech :=
           combineCategory (hateSpeech imageAnalysis) (Analysis.hateSpeech textAnalysis);
         toxicity :=
           combineCategory (toxicity imageAnalysis) (Analysis.toxicity textAnalysis);
         harassment :=
           combineCategory (harassment imageAnalysis) (Analysis.harassment textAnalysis);
         profanity :=
           combineCategory (profanity imageAnalysis) (Analysis.profanity textAnalysis);
         overallRisk :=
           riskName
             (calculateOverallRisk
                (Num.max (score (hateSpeech imageAnalysis))
                         (Category.score (Analysis.hateSpeech textAnalysis)))
                (Num.max (score (toxicity imageAnalysis))
                         (Category.score (Analysis.toxicity textAnalysis)))
                (Num.max (score (harassment imageAnalysis))
                         (Category.score (Analysis.harassment textAnalysis)))
                (Num.max (score (profanity imageAnalysis))
                         (Category.score (Analysis.profanity textAnalysis))));
         confidence :=
           Num.round ((confidence imageAnalysis + Analysis.confidence textAnalysis) / 2);
         flaggedWords :=
           (flaggedWords imageAnalysis ++ Analysis.flaggedWords textAnalysis)%list;
         suggestions :=
           (suggestions imageAnalysis ++ Analysis.suggestions textAnalysis)%list |}
  end.

(** The service object: the key read from the environment when the
    service is made. *)
Record t : Type := { openaiApiKey : string }.

Record ImageAnalysisRequest : Type := {
  imageUrl : string;
  description : option string
}.

(** [axios.post] to the vision service with the key, the image and the
    prompt built from the description, followed by [parseOpenAIResponse] on
    the content of the answer: the post throws (network, status, an answer
    without choices), or the parse gives an analysis (the default analysis
    when the answer holds no JSON). *)
Definition Vision : Type := string -> string -> option string -> exn ImageAnalysis.

Definition analyzeWithOpenAI (vision : Vision) (self : t) (imageUrl : string)
    (description : option string) : ImageAnalysis :=
  if String.eqb (openaiApiKey self) EmptyString then getDefaultAnalysis
  else
    match vision (openaiApiKey self) imageUrl description with
    | Ok analysis => analysis
    | Throw _ => getDefaultAnalysis
    end.

(** The description goes through a text service made for this call. *)
Definition analyzeImageDescription (env : Env) (description : string) : exn Analysis.t :=
  let textAnalysisService := TextAnalysisService.new env in
  result <- fst (TextAnalysisService.analyzeText env textAnalysisService
                   {| TextAnalysisService.text := description |}) ;;
  Ok (analysis result).

(** The result of [analyzeImage] without [id] and [metadata]. *)
Record ImageResult : Type := {
  imageContent : string;
  imageAnalysis : ImageAnalysis
}.

(** [request.description ? ... : null]: an empty description is no
    description. *)
Definition analyzeImage (env : Env) (vision : Vision) (self : t)
    (request : ImageAnalysisRequest) : exn ImageResult :=
  tryCatch
    (let fromImage :=
       analyzeWithOpenAI vision self (imageUrl request) (description request) in
     textAnalysis <-
       match description request with
       | Some (String c rest) =>
           fromText <- analyzeImageDescription env (String c rest) ;; Ok (Some fromText)
       | _ => Ok None
       end ;;
     let combinedAnalysis := combineImageAndTextAnalysis fromImage textAnalysis in
     Ok {| imageContent := imageUrl request; imageAnalysis := combinedAnalysis |})
    (fun _ => Throw "Failed to analyze image content").

End ImageAnalysisService.

(** ** Environments *)

(** [offline env]: the environment [env] with both classifier services out
    of reach, so that every call to them throws. *)
Definition offline (env : Env) : Env :=
  {| huggingface := fun _ => Throw "Network Error";
     perspective := fun _ => Throw "Network Error";
     badwordsList := badwordsList env;
     badwordsIsProfane := badwordsIsProfane env;
     wordMatches := wordMatches env;
     sqrt := sqrt env |}.

(** [withHate env h]: the environment [env] whose hate-speech classifier
    answers the score [h] for the label [HATE], whatever the text. *)
Definition withHate (env : Env) (h : Q) : Env :=
  {| huggingface := fun _ => Ok (Some h);
     perspective := perspective env;
     badwordsList := badwordsList env;
     badwordsIsProfane := badwordsIsProfane env;
     wordMatches := wordMatches env;
     sqrt := sqrt env |}.

(** [withToxicity env scores]: the environment [env] whose toxicity
    classifier answers the attribute scores [scores], whatever the text. *)
Definition withToxicity (env : Env) (scores : PerspectiveScores) : Env :=
  {| huggingface := huggingface env;
     perspective := fun _ => Ok (Some scores);
     badwordsList := badwordsList env;
     badwordsIsProfane := badwordsIsProfane env;
     wordMatches := wordMatches env;
     sqrt := sqrt env |}.

(** An environment for the examples: no network, a package word list that
    is empty, a text being profane when it contains a word of the list, no
    repeated words, and the integer square root in place of [Math.sqrt]. *)
Definition sampleEnv : Env :=
  {| huggingface := fun _ => Throw "Network Error";
     perspective := fun _ => Throw "Network Error";
     badwordsList := [];
     badwordsIsProfane := fun list text => List.existsb (Str.includes text) list;
     wordMatches := fun _ _ => O;
     sqrt := fun x => inject_Z (Z.sqrt (Qfloor x)) |}.

(** An answer of the vision service: nothing found, confidence 85. *)
Definition sampleImage : ImageAnalysisService.ImageAnalysis :=
  {| ImageAnalysisService.hateSpeech :=
       {| ImageAnalysisService.score := 0; ImageAnalysisService.level := "low";
          ImageAnalysisService.detected := false |};
     ImageAnalysisService.toxicity :=
       {| ImageAnalysisService.score := 0; ImageAnalysisService.level := "low";
          ImageAnalysisService.detected := false |};
     ImageAnalysisService.harassment :=
       {| ImageAnalysisService.score := 0; ImageAnalysisService.level := "low";
          ImageAnalysisService.detected := false |};
     ImageAnalysisService.profanity :=
       {| ImageAnalysisService.score := 0; ImageAnalysisService.level := "low";
          ImageAnalysisService.detected := false |};
     ImageAnalysisService.overallRisk := "safe";
     ImageAnalysisService.confidence := 85;
     ImageAnalysisService.flaggedWords := [];
     ImageAnalysisService.suggestions := [] |}.

(** ** What preprocessing leaves in a text *)

Definition wordOrSpace (c : ascii) : bool := (Char.isWord c || Char.isSpace c)%bool.

(** ** Orders on levels and risks *)

Definition levelRank (l : Level) : nat :=
  match l with
  | low => 0
  | medium => 1
  | high => 2
  | critical => 3
  end.

Definition riskRank (r : Risk) : nat :=
  match r with
  | safe => 0
  | warning => 1
  | danger => 2
  | criticalRisk => 3
  end.

(** ** The steps of a detector, as the specification names them *)

Module Steps.

(** How many patterns of a tier match. *)
Definition hits (patterns : list RegExp) (text : string) : nat :=
  List.length (List.filter (fun pattern => testFresh pattern text) patterns).

(** Tier accumulation: a fixed number of points for every match. *)
Definition tierPoints (patterns : list RegExp) (points : Q) (text : string) : Q :=
  Num.ofNat (hits patterns text) * points.

(** Merging the external score: it is adopted when strictly greater. *)
Definition adopt (external score : Q) : Q :=
  if Num.gtb external score then external else score.

(** Dampening and amplification: a factor applied under a condition. *)
Definition scaleIf (condition : bool) (factor score : Q) : Q :=
  if condition then score * factor else score.

(** Clamping, as the code does it: [Math.min(score, 100)]. *)
Definition clamp (score : Q) : Q := Num.min score 100.

(** The value of an external score; a call that threw would count 0. *)
Definition valueOf (outcome : exn Q) : Q :=
  match outcome with
  | Ok v => v
  | Throw _ => 0
  end.

Definition note (condition : bool) (message : string) : list string :=
  if condition then [message] else [].

Definition sarcastic (c : ContextAnalysis) : bool := (isSarcastic c || isIronic c)%bool.
Definition educational (c : ContextAnalysis) : bool := (isEducational c || isHistorical c)%bool.
Definition playful (c : ContextAnalysis) : bool := (isPlayful c || isFriendly c)%bool.
Definition hostile (i : IntentAnalysis) : bool := (isAggressive i || isHostile i)%bool.

(** *** Hate speech *)

Definition hateTiers (text : string) : Q :=
  tierPoints TextAnalysisService.directHate 40 text +
  tierPoints TextAnalysisService.indirectHate 25 text +
  tierPoints TextAnalysisService.dehumanizing 35 text.

Definition hateExternal (env : Env) (text : string) : Q :=
  valueOf (TextAnalysisService.getMLHateSpeechScore env text).

(** Dampening, then amplification, of a hate-speech score. *)
Definition hateAdjust (c : ContextAnalysis) (i : IntentAnalysis) (score : Q) : Q :=
  scaleIf (isThreatening i) 1.5
    (scaleIf (educational c) 0.2
       (scaleIf (sarcastic c) 0.3 score)).

(** The order of the specification: tiers, external merge, dampening,
    amplification, clamp. *)
Definition hateClaimed (env : Env) (text : string)
    (c : ContextAnalysis) (i : IntentAnalysis) : Q :=
  clamp (hateAdjust c i (adopt (hateExternal env text) (hateTiers text))).

(** The order with the external merge after the adjustments. *)
Definition hateMergedLast (env : Env) (text : string)
    (c : ContextAnalysis) (i : IntentAnalysis) : Q :=
  clamp (adopt (hateExternal env text) (hateAdjust c i (hateTiers text))).

(** The rule-based result: no external score at all. *)
Definition hateRuleBased (text : string)
    (c : ContextAnalysis) (i : IntentAnalysis) : Category.t :=
  let score := clamp (hateAdjust c i (hateTiers text)) in
  {| Category.score := score;
     Category.level := getRiskLevel score;
     Category.detected :=
       negb (Nat.eqb (hits TextAnalysisService.directHate text +
                      hits TextAnalysisService.indirectHate text +
                      hits TextAnalysisService.dehumanizing text) 0);
     Category.reasoning :=
       (List.repeat "Direct hate speech pattern detected"
                    (hits TextAnalysisService.directHate text) ++
        List.repeat "Indirect hate speech pattern detected"
                    (hits TextAnalysisService.indirectHate text) ++
        List.repeat "Dehumanizing language detected"
                    (hits TextAnalysisService.dehumanizing text) ++
        note (sarcastic c) "Score reduced due to sarcastic/ironic context" ++
        note (educational c) "Score reduced due to educational context" ++
        note (isThreatening i) "Score increased due to threatening intent")%list |}.

(** *** Toxicity *)

Definition clean (text : string) : string := Str.trim (Str.toLowerCase text).

(** The keyword and pattern tiers, which come before the external merge. *)
Definition toxicFirstTiers (self : ToxicityAnalyzer.t) (text : string) : Q :=
  ToxicityAnalyzer.analyzeKeywords self (clean text) +
  fst (ToxicityAnalyzer.analyzePatterns self (clean text)).

(** The sentiment and aggression tiers, which come after it. *)
Definition toxicLastTiers (text : string) : Q :=
  ToxicityAnalyzer.analyzeSentiment (clean text) +
  ToxicityAnalyzer.analyzeAggression (clean text).

Definition toxicExternal (env : Env) (text : string) : Q :=
  valueOf (ToxicityAnalyzer.getMLToxicityScore env (clean text)).

Definition toxicAdjust (c : ContextAnalysis) (i : IntentAnalysis) (score : Q) : Q :=
  scaleIf (hostile i) 1.3
    (scaleIf (playful c) 0.3
       (scaleIf (sarcastic c) 0.4 score)).

(** What the toxicity detector computes before the final clamp. *)
Definition toxicUnclamped (env : Env) (self : ToxicityAnalyzer.t) (text : string)
    (c : ContextAnalysis) (i : IntentAnalysis) : Q :=
  toxicAdjust c i
    (clamp (adopt (toxicExternal env text) (toxicFirstTiers self text)
            + toxicLastTiers text)).

Definition toxicRuleBased (self : ToxicityAnalyzer.t) (text : string)
    (c : ContextAnalysis) (i : IntentAnalysis) : Category.t :=
  let score :=
    toxicAdjust c i (clamp (toxicFirstTiers self text + toxicLastTiers text)) in
  {| Category.score := clamp score;
     Category.level := getRiskLevel score;
     Category.detected := Num.gtb score 40;
     Category.reasoning :=
       (note (sarcastic c) "Toxicity score reduced due to sarcastic context" ++
        note (playful c) "Toxicity score reduced due to playful context" ++
        note (hostile i) "Toxicity score increased due to aggressive intent")%list |}.

(** *** Harassment *)

Definition harassmentTiers (text : string) : Q :=
  tierPoints TextAnalysisService.directThreats 45 text +
  tierPoints TextAnalysisService.stalking 35 text +
  tierPoints TextAnalysisService.intimidation 25 text +
  tierPoints TextAnalysisService.cyberbullying 30 text.

Definition harassmentAdjust (c : ContextAnalysis) (i : IntentAnalysis) (score : Q) : Q :=
  scaleIf (isThreatening i) 1.4 (scaleIf (sarcastic c) 0.2 score).

(** *** Profanity *)

Definition profanityAdjust (c : ContextAnalysis) (score : Q) : Q :=
  scaleIf (educational c) 0.1
    (scaleIf (playful c) 0.4
       (scaleIf (sarcastic c) 0.3 score)).

End Steps.

(** Two category results are the same when their scores are equal as
    numbers and the other fields coincide. *)
Definition sameCategory (a b : Category.t) : Prop :=
  Category.score a == Category.score b /\
  Category.level a = Category.level b /\
  Category.detected a = Category.detected b /\
  Category.reasoning a = Category.reasoning b.

(** The text, the context and the intent that the detectors receive for a
    request. *)
Definition preprocessed (request : TextAnalysisService.TextAnalysisRequest) : string :=
  TextAnalysisService.preprocessText (TextAnalysisService.text request).

Definition contextOf (request : TextAnalysisService.TextAnalysisRequest) : ContextAnalysis :=
  ContextAnalyzer.analyze (preprocessed request).

Definition intentOf (request : TextAnalysisService.TextAnalysisRequest) : IntentAnalysis :=
  IntentAnalyzer.analyze (preprocessed request).

(** The categories other than hate speech, and other than toxicity, agree
    in two reports. *)
Definition sameBesidesHate (a b : Analysis.t) : Prop :=
  Analysis.toxicity a = Analysis.toxicity b /\
  Analysis.harassment a = Analysis.harassment b /\
  Analysis.profanity a = Analysis.profanity b /\
  Analysis.sentiment a = Analysis.sentiment b.

Definition sameBesidesToxicity (a b : Analysis.t) : Prop :=
  Analysis.hateSpeech a = Analysis.hateSpeech b /\
  Analysis.harassment a = Analysis.harassment b /\
  Analysis.profanity a = Analysis.profanity b /\
  Analysis.sentiment a = Analysis.sentiment b.

(** ** The merge of an image and a text sub-result, as the specification
    words it *)

Module Merge.

(** [merged] has the maximum of the two scores, the level of that maximum,
    and is detected when either sub-result is. *)
Definition category (image : ImageAnalysisService.Scored) (text : Category.t)
    (merged : ImageAnalysisService.Scored) : Prop :=
  ImageAnalysisService.score merged
  == Qmax (ImageAnalysisService.score image) (Category.score text) /\
  ImageAnalysisService.level merged
  = ImageAnalysisService.levelName
      (getRiskLevel (Qmax (ImageAnalysisService.score image) (Category.score text))) /\
  ImageAnalysisService.detected merged
  = (ImageAnalysisService.detected image || Category.detected text)%bool.

Definition average (a b : Q) : Q := (a + b) / 2.

(** [n] is the integer nearest to [x], the upper one of two. *)
Definition nearestInteger (x n : Q) : Prop :=
  (exists z : Z, n = inject_Z z) /\ x - (1 # 2) < n <= x + (1 # 2).

End Merge.

(** ** The risk aggregation, as the specification words it *)

Module Aggregation.

Definition weighted (hateSpeech toxicity harassment profanity sentiment : Q) : Q :=
  hateSpeech * 0.35 + harassment * 0.25 + toxicity * 0.20 +
  profanity * 0.15 + sentiment * 0.05.

Definition factor (condition : bool) (f : Q) : Q := if condition then f else 1.

Definition adjusted (weightedScore : Q)
    (c : ContextAnalysis) (i : IntentAnalysis) : Q :=
  weightedScore
  * factor (isSarcastic c || isIronic c) 0.4
  * factor (isEducational c || isHistorical c) 0.3
  * factor (isThreatening i || isAggressive i) 1.3.

Definition riskOf (adjustedScore : Q) : Risk :=
  if Qle_bool 70 adjustedScore then criticalRisk
  else if Qle_bool 50 adjustedScore then danger
  else if Qle_bool 30 adjustedScore then warning
  else safe.

(** The confidence without any clarity bonus. *)
Definition confidenceWithoutBonus (env : Env) (scores : list Q)
    (c : ContextAnalysis) : Q :=
  let n := Num.ofNat (List.length scores) in
  let avg := TextAnalysisService.sum scores / n in
  let variance :=
    fold_left (fun a b => a + (b - avg) * (b - avg)) scores 0 / n in
  let base := Num.max 0 (100 - sqrt env variance * 2) in
  let dampened :=
    Steps.scaleIf (isEducational c || isHistorical c) 0.8
      (Steps.scaleIf (isSarcastic c || isIronic c) 0.7 base) in
  Num.round (Num.min dampened 100).

End Aggregation.

(** ** Further notions for the statements about the text pipeline *)

(** The code units a preprocessed text is made of: [a-z], [0-9], [_] and
    the space. *)
Definition plainChar (c : ascii) : bool :=
  (Char.between 97 122 c || Char.isDigit c || N.eqb (Char.code c) 95
   || N.eqb (Char.code c) 32)%bool.

(** Not one of [A-Z]; and: white space only if the space itself. *)
Definition notCapital (c : ascii) : bool := negb (Char.between 65 90 c).

Definition blankIfSpace (c : ascii) : bool :=
  (negb (Char.isSpace c) || N.eqb (Char.code c) 32)%bool.

(** A text that does not start with white space. *)
Definition startsClean (s : string) : bool :=
  match s with
  | EmptyString => true
  | String c _ => negb (Char.isSpace c)
  end.

(** A text that neither starts nor ends with white space. *)
Definition trimmed (s : string) : Prop := Str.trim s = s.

Module Dead.

Definition allAscii : list ascii := List.map ascii_of_nat (List.seq 0 256).

(** No code unit allowed by [ok] is in the class [k]. *)
Definition avoids (ok : ascii -> bool) (ic : bool) (k : cls) : bool :=
  List.forallb (fun a => (negb (ok a) || negb (clsMatches ic k a))%bool) allAscii.

(** [demands ok ic r]: by its shape, every match of [r] has a code unit that
    [ok] does not allow. *)
Fixpoint demands (ok : ascii -> bool) (ic : bool) (r : regex) : bool :=
  match r with
  | Eps => false
  | Atom k => avoids ok ic k
  | Cat r1 r2 => (demands ok ic r1 || demands ok ic r2)%bool
  | Alt r1 r2 => (demands ok ic r1 && demands ok ic r2)%bool
  | Opt _ => false
  | Plus k => avoids ok ic k
  | Never => true
  end.

(** A continuation of the matcher that fails on every text made of [ok]
    code units. *)
Definition fails (ok : ascii -> bool) (cont : string -> option string) : Prop :=
  forall s, Str.forallb ok s = true -> cont s = None.

(** The expression object can never match a text made of [ok] code units. *)
Definition dead (ok : ascii -> bool) (re : RegExp) : bool :=
  demands ok (ignoreCase re) (source re).

End Dead.

(** The four patterns of the sources that have an apostrophe. *)
Definition dontBelong : RegExp := Eval vm_compute in
  literal "(blacks?|whites?|jews?|muslims?|gays?|women?|men)\s+don't\s+belong" "gi".

Definition cantHide : RegExp := Eval vm_compute in literal "you\s+can't\s+hide" "gi".

Definition cantStand : RegExp := Eval vm_compute in literal "i\s+can't\s+stand" "gi".

Definition letsFight : RegExp := Eval vm_compute in literal "let's\s+fight" "gi".

(** The last historical indicator. *)
Definition eraPattern : RegExp := Eval vm_compute in literal "era" "gi".

(** How many words of [words] are in the list [l]. *)
Definition countIn (l : list string) (words : list string) : nat :=
  List.length (List.filter (fun w => Str.mem w l) words).

(** The report of ["Nazi ideology: men are vermin."] with the classifiers
    out of reach, for the examples: hate speech at 75, the rest at 0. *)
Definition sampleReport : ContentAnalysisResult :=
  {| content := "Nazi ideology: men are vermin.";
     analysis :=
       {| Analysis.hateSpeech :=
            Category.Make 75 high true
              [ "Direct hate speech pattern detected"; "Dehumanizing language detected" ];
          Analysis.toxicity := Category.Make 0 low false [];
          Analysis.harassment := Category.Make 0 low false [];
          Analysis.profanity := Category.Make 0 low false [];
          Analysis.sentiment := Category.Make 0 low false [];
          Analysis.context :=
            {| isSarcastic := false; isIronic := false; isPlayful := false;
               isFriendly := false; isEducational := false; isHistorical := false;
               isFormal := false |};
          Analysis.intent :=
            {| isThreatening := false; isAggressive := false; isHostile := false;
               isClear := false; isConstructive := false |};
          Analysis.overallRisk := safe;
          Analysis.confidence := 40;
          Analysis.flaggedWords := [];
          Analysis.suggestions := [ "Content appears safe for publication" ];
          Analysis.reasoning :=
            [ "Direct hate speech pattern detected"; "Dehumanizing language detected" ] |} |}.

(** ** PluginHelpers (utils/helpers.ts) *)

(** [const { analysis: results } = analysis] *)
Definition analysis_of (report : ContentAnalysisResult) : Analysis.t := analysis report.

Module PluginHelpers.

(** The punctuation that [sanitizeText] leaves in place. *)
Definition punctuation : list ascii :=
  [ "@"; "#"; "."; ","; "!"; "?"; ";"; ":"; "("; ")"; "-" ]%char.

(** A code unit outside [[^\w\s@#.,!?;:()\-]]. *)
Definition kept (c : ascii) : bool :=
  (Char.isWord c || Char.isSpace c || List.existsb (Ascii.eqb c) punctuation)%bool.

(** [s.replace(/[^...]/g, '')] *)
Fixpoint remove (p : ascii -> bool) (s : string) : string :=
  match s with
  | EmptyString => EmptyString
  | String c s' => if p c then remove p s' else String c (remove p s')
  end.

Fixpoint take (n : nat) (s : string) : string :=
  match n, s with
  | O, _ => EmptyString
  | S _, EmptyString => EmptyString
  | S n', String c s' => String c (take n' s')
  end.

(** [s.substring(0, n)] *)
Definition substring0 (n : N) (s : string) : string := take (N.to_nat n) s.

Definition sanitizeText (text : string) : string :=
  substring0 10000
    (remove (fun c => negb (kept c))
       (Str.collapseSpaces false (Str.trim text))).

(** What a sanitized text is made of: word characters, the space and the
    punctuation above. *)
Definition sanitized (c : ascii) : bool :=
  (Char.isWord c || Ascii.eqb c " " || List.existsb (Ascii.eqb c) punctuation)%bool.

Definition getRiskLevel (score : Q) : Level :=
  if Num.geb score 80 then critical
  else if Num.geb score 60 then high
  else if Num.geb score 40 then medium
  else low.

Definition calculateOverallRisk (hateSpeech toxicity harassment profanity : Q) : Risk :=
  let maxScore := Num.max (Num.max (Num.max hateSpeech toxicity) harassment) profanity in
  let avgScore := (hateSpeech + toxicity + harassment + profanity) / 4 in
  if (Num.geb maxScore 80 || Num.geb avgScore 70)%bool then criticalRisk
  else if (Num.geb maxScore 60 || Num.geb avgScore 50)%bool then danger
  else if (Num.geb maxScore 40 || Num.geb avgScore 30)%bool then warning
  else safe.

Definition calculateConfidence (env : Env) (scores : list Q) : Q :=
  if Nat.eqb (List.length scores) 0 then 0
  else
    let length := Num.ofNat (List.length scores) in
    let avg := fold_left Qplus scores 0 / length in
    let variance :=
      fold_left (fun a b => a + (b - avg) * (b - avg)) scores 0 / length in
    let stdDev := sqrt env variance in
    let confidence := Num.max 0 (100 - stdDev * 2) in
    Num.round confidence.

Definition extractFlaggedWords (text : string) (flaggedPatterns : list string)
    : list string :=
  let words := Str.split (Str.toLowerCase text) in
  let flaggedWords :=
    List.filter
      (fun word =>
         List.existsb (fun pattern => Str.includes word (Str.toLowerCase pattern))
                      flaggedPatterns)
      words in
  Str.dedup flaggedWords.

Record Thresholds : Type := {
  hateSpeech : Q;
  toxicity : Q;
  harassment : Q;
  profanity : Q
}.

Record BlockDecision : Type := {
  shouldBlock : bool;
  reason : option string
}.

(** [reasons.join(', ')] *)
Definition join (reasons : list string) : string := String.concat ", " reasons.

(** The reasons, in the order the code pushes them. *)
Definition reasonsOf (results : Analysis.t) (thresholds : Thresholds) : list string :=
  let reasons : list string := [] in
  let reasons :=
    if Num.geb (Category.score (Analysis.hateSpeech results)) (hateSpeech thresholds)
    then push reasons "hate speech detected" else reasons in
  let reasons :=
    if Num.geb (Category.score (Analysis.toxicity results)) (toxicity thresholds)
    then push reasons "toxic content detected" else reasons in
  let reasons :=
    if Num.geb (Category.score (Analysis.harassment results)) (harassment thresholds)
    then push reasons "harassment detected" else reasons in
  let reasons :=
    if Num.geb (Category.score (Analysis.profanity results)) (profanity thresholds)
    then push reasons "profanity detected" else reasons in
  match Analysis.overallRisk results with
  | criticalRisk => push reasons "critical risk level"
  | _ => reasons
  end.

Definition isCritical (r : Risk) : bool :=
  match r with
  | criticalRisk => true
  | _ => false
  end.

Definition shouldBlockContent (analysis : ContentAnalysisResult) (thresholds : Thresholds)
    : BlockDecision :=
  let results := analysis_of analysis in
  let shouldBlock :=
    (Num.geb (Category.score (Analysis.hateSpeech results)) (hateSpeech thresholds)
     || Num.geb (Category.score (Analysis.toxicity results)) (toxicity thresholds)
     || Num.geb (Category.score (Analysis.harassment results)) (harassment thresholds)
     || Num.geb (Category.score (Analysis.profanity results)) (profanity thresholds)
     || isCritical (Analysis.overallRisk results))%bool in
  if negb shouldBlock then {| shouldBlock := false; reason := None |}
  else {| shouldBlock := true; reason := Some (join (reasonsOf results thresholds)) |}.

Inductive Action : Type := allow | review | block | warn.

(** [getModerationAction] on the four risk levels. *)
Definition getModerationAction (riskLevel : Risk) : Action * string :=
  match riskLevel with
  | safe => (allow, "Content appears safe for publication")
  | warning => (review, "Content may violate community guidelines and should be reviewed")
  | danger => (block, "Content likely violates guidelines and should be blocked")
  | criticalRisk =>
      (block, "Content contains critical violations and should be blocked immediately")
  end.

End PluginHelpers.

(** ** HateSpeechDetectionPlugin (the plugin interface) *)

Module HateSpeechDetectionPlugin.

Record EnabledFeatures : Type := {
  textAnalysis : bool;
  imageAnalysis : bool;
  realTimeAnalysis : bool
}.

Record PluginConfig : Type := {
  thresholds : PluginHelpers.Thresholds;
  enabledFeatures : EnabledFeatures;
  supportedLanguages : list string;
  customRules : option (list string)
}.

(** [Partial<PluginConfig>]: every property may be absent. *)
Record PartialConfig : Type := {
  thresholds' : option PluginHelpers.Thresholds;
  enabledFeatures' : option EnabledFeatures;
  supportedLanguages' : option (list string);
  customRules' : option (list string)
}.

Definition orElse {A : Type} (given : option A) (old : A) : A :=
  match given with
  | Some a => a
  | None => old
  end.

(** [{ ...config, ...newConfig }]: a property of [newConfig] that is present
    replaces the one of [config], whole. *)
Definition spread (config : PluginConfig) (newConfig : PartialConfig) : PluginConfig :=
  {| thresholds := orElse (thresholds' newConfig) (thresholds config);
     enabledFeatures := orElse (enabledFeatures' newConfig) (enabledFeatures config);
     supportedLanguages := orElse (supportedLanguages' newConfig) (supportedLanguages config);
     customRules :=
       match customRules' newConfig with
       | Some rules => Some rules
       | None => customRules config
       end |}.

Definition defaults : PluginConfig :=
  {| thresholds :=
       {| PluginHelpers.hateSpeech := 70;
          PluginHelpers.toxicity := 60;
          PluginHelpers.harassment := 65;
          PluginHelpers.profanity := 50 |};
     enabledFeatures :=
       {| textAnalysis := true; imageAnalysis := true; realTimeAnalysis := true |};
     supportedLanguages := [ "en"; "es"; "fr"; "de"; "it"; "pt"; "ru"; "zh"; "ja"; "ko" ];
     customRules := None |}.

(** The plugin object: its configuration (the HTTP client has no part in
    the functions below). *)
Record t : Type := { config : PluginConfig }.

Definition new (given : option PartialConfig) : t :=
  {| config :=
       match given with
       | Some partial => spread defaults partial
       | None => defaults
       end |}.

Definition updateConfig (self : t) (newConfig : PartialConfig) : t :=
  {| config := spread (config self) newConfig |}.

Definition getConfig (self : t) : PluginConfig := config self.

Record BlockDecision : Type := {
  shouldBlock : bool;
  reason : option string;
  riskLevel : Risk
}.

Definition shouldBlockContent (self : t) (analysis : ContentAnalysisResult)
    : BlockDecision :=
  let results := analysis_of analysis in
  let limits := thresholds (config self) in
  let shouldBlock :=
    (Num.geb (Category.score (Analysis.hateSpeech results)) (PluginHelpers.hateSpeech limits)
     || Num.geb (Category.score (Analysis.toxicity results)) (PluginHelpers.toxicity limits)
     || Num.geb (Category.score (Analysis.harassment results)) (PluginHelpers.harassment limits)
     || Num.geb (Category.score (Analysis.profanity results)) (PluginHelpers.profanity limits)
     || PluginHelpers.isCritical (Analysis.overallRisk results))%bool in
  let reason :=
    if shouldBlock
    then
      let reasons : list string := [] in
      let reasons :=
        if Num.geb (Category.score (Analysis.hateSpeech results))
                   (PluginHelpers.hateSpeech limits)
        then push reasons "hate speech detected" else reasons in
      let reasons :=
        if Num.geb (Category.score (Analysis.toxicity results))
                   (PluginHelpers.toxicity limits)
        then push reasons "toxic content detected" else reasons in
      let reasons :=
        if Num.geb (Category.score (Analysis.harassment results))
                   (PluginHelpers.harassment limits)
        then push reasons "harassment detected" else reasons in
      let reasons :=
        if Num.geb (Category.score (Analysis.profanity results))
                   (PluginHelpers.profanity limits)
        then push reasons "profanity detected" else reasons in
      let reasons :=
        if PluginHelpers.isCritical (Analysis.overallRisk results)
        then push reasons "critical risk level" else reasons in
      Some (PluginHelpers.join reasons)
    else None in
  {| shouldBlock := shouldBlock;
     reason := reason;
     riskLevel := Analysis.overallRisk results |}.

Record Recommendation : Type := {
  action : PluginHelpers.Action;
  message : string;
  suggestions : list string
}.

Definition getModerationRecommendations (analysis : ContentAnalysisResult)
    : Recommendation :=
  let results := analysis_of analysis in
  let (action, message) :=
    match Analysis.overallRisk results with
    | criticalRisk =>
        (PluginHelpers.block,
         "Content contains critical violations and should be blocked immediately")
    | danger =>
        (PluginHelpers.block,
         "Content contains dangerous violations and should be blocked")
    | warning =>
        (PluginHelpers.review,
         "Content may violate community guidelines and should be reviewed")
    | safe => (PluginHelpers.allow, "Content appears safe for publication")
    end in
  {| action := action;
     message := message;
     suggestions := Analysis.suggestions results |}.

End HateSpeechDetectionPlugin.

(** ** SocialMediaIntegration (plugin/IntegrationExamples.ts)

    The two results that [combineAnalyses] receives have come over HTTP;
    the properties it reads are those of [ImageAnalysis]: four categories
    with a score, a level and a flag, and the overall risk as a string. *)

Module SocialMediaIntegration.

(** [riskLevels[risk]]: a number for the four names, [undefined] or a
    property of [Object.prototype] otherwise, on which [>] is false. *)
Definition riskLevels (risk : string) : option nat :=
  if String.eqb risk "safe" then Some 0%nat
  else if String.eqb risk "warning" then Some 1%nat
  else if String.eqb risk "danger" then Some 2%nat
  else if String.eqb risk "critical" then Some 3%nat
  else None.

Definition getHigherRisk (risk1 risk2 : string) : string :=
  match riskLevels risk1, riskLevels risk2 with
  | Some a, Some b => if Nat.ltb b a then risk1 else risk2
  | _, _ => risk2
  end.

Definition combineCategory (text image : ImageAnalysisService.Scored)
    : ImageAnalysisService.Scored :=
  {| ImageAnalysisService.score :=
       Num.max (ImageAnalysisService.score text) (ImageAnalysisService.score image);
     ImageAnalysisService.level :=
       if Num.gtb (ImageAnalysisService.score text) (ImageAnalysisService.score image)
       then ImageAnalysisService.level text
       else ImageAnalysisService.level image;
     ImageAnalysisService.detected :=
       (ImageAnalysisService.detected text || ImageAnalysisService.detected image)%bool |}.



End SocialMediaIntegration.

(** ** RateLimiter (middleware/rateLimiter.ts)

    Times are milliseconds of [Date.now()], given to the functions; the
    store maps a key to its entry. *)

Module RateLimiter.

Local Open Scope Z_scope.

Record Entry : Type := { count : Z; resetTime : Z }.

Definition Store : Type := string -> option Entry.

Record t : Type := {
  store : Store;
  windowMs : Z;
  maxRequests : Z
}.

Definition new (windowMs maxRequests : Z) : t :=
  {| store := fun _ => None; windowMs := windowMs; maxRequests := maxRequests |}.

Definition generalRateLimiter : t := new (15 * 60 * 1000) 100.
Definition analysisRateLimiter : t := new (60 * 1000) 10.
Definition strictRateLimiter : t := new (60 * 1000) 5.

(** What [getKey] reads of a request; the empty string is falsy. *)
Record Request : Type := { ip : option string; remoteAddress : option string }.

Definition truthy (s : option string) : option string :=
  match s with
  | Some EmptyString => None
  | other => other
  end.

Definition getKey (req : Request) : string :=
  match truthy (ip req) with
  | Some k => k
  | None =>
      match truthy (remoteAddress req) with
      | Some k => k
      | None => "unknown"%string
      end
  end.

Definition put (st : Store) (key : string) (e : Entry) : Store :=
  fun k => if String.eqb k key then Some e else st k.

(** [cleanup]: every entry whose [resetTime] is before [now] is deleted. *)
Definition cleanup (now : Z) (self : t) : t :=
  {| store := fun k =>
       match store self k with
       | Some e => if resetTime e <? now then None else Some e
       | None => None
       end;
     windowMs := windowMs self;
     maxRequests := maxRequests self |}.

(** What the middleware does with the response: the headers, and either
    [next()] or the status 429 with [retryAfter]. *)
Inductive Outcome : Type :=
| Next
| TooManyRequests (retryAfter : Z).

Record Response : Type := {
  limitHeader : Z;
  remainingHeader : Z;
  resetHeader : Z;
  outcome : Outcome
}.

(** [Math.ceil(x / 1000)] for an integer [x]. *)
Definition ceilSeconds (x : Z) : Z := - ((- x) / 1000).

Definition middleware (self : t) (now : Z) (req : Request) : Response * t :=
  let key := getKey req in
  let entry :=
    match store self key with
    | Some e =>
        if resetTime e <? now
        then {| count := 1; resetTime := now + windowMs self |}
        else {| count := count e + 1; resetTime := resetTime e |}
    | None => {| count := 1; resetTime := now + windowMs self |}
    end in
  let self' :=
    {| store := put (store self) key entry;
       windowMs := windowMs self;
       maxRequests := maxRequests self |} in
  let remaining := Z.max 0 (maxRequests self - count entry) in
  let resetTimeSeconds := ceilSeconds (resetTime entry - now) in
  ({| limitHeader := maxRequests self;
      remainingHeader := remaining;
      resetHeader := resetTime entry;
      outcome :=
        if maxRequests self <? count entry
        then TooManyRequests resetTimeSeconds
        else Next |},
   self').

(** The requests of one client at the times [times], one after the other:
    the outcomes and the limiter afterwards. *)
Fixpoint serve (self : t) (req : Request) (times : list Z) : list Outcome * t :=
  match times with
  | [] => ([], self)
  | now :: rest =>
      let (response, self') := middleware self now req in
      let (outcomes, self'') := serve self' req rest in
      (outcome response :: outcomes, self'')
  end.

Definition passed (o : Outcome) : bool :=
  match o with
  | Next => true
  | TooManyRequests _ => false
  end.

End RateLimiter.
(** * Properties *)

(** ** The pattern literals *)

(** Every pattern of the sources is in the fragment that [parse] reads:
    no literal was replaced by [Never]. *)
Lemma pattern_literals_parse :
  List.forallb
    (fun re => match source re with Never => false | _ => true end)
    (ContextAnalyzer.sarcasmIndicators ++ ContextAnalyzer.ironyIndicators ++
     List.removelast ContextAnalyzer.playfulIndicators ++
     ContextAnalyzer.friendlyIndicators ++ ContextAnalyzer.educationalIndicators ++
     ContextAnalyzer.historicalIndicators ++ ContextAnalyzer.formalIndicators ++
     IntentAnalyzer.threatIndicators ++ IntentAnalyzer.aggressionIndicators ++
     IntentAnalyzer.hostilityIndicators ++ [IntentAnalyzer.punctuation] ++
     IntentAnalyzer.constructiveIndicators ++
     ToxicityAnalyzer.patternLiterals ++ ToxicityAnalyzer.negativePatterns ++
     ToxicityAnalyzer.aggressivePatterns ++
     ProfanityFilter.directedPatterns ++ [ProfanityFilter.shouting] ++
     TextAnalysisService.directHate ++ TextAnalysisService.indirectHate ++
     TextAnalysisService.dehumanizing ++ TextAnalysisService.directThreats ++
     TextAnalysisService.stalking ++ TextAnalysisService.intimidation ++
     TextAnalysisService.cyberbullying)%list
  = true.
Proof. vm_compute. reflexivity. Qed.

(** The matcher on some texts: a match anywhere, case ignored; a global
    expression resumes at [lastIndex] and resets it after a failure. *)
Example test_first_call :
  test (literal "you\s+suck" "gi") "hey You  SUCK!"
  = (true, setLastIndex (literal "you\s+suck" "gi") 13).
Proof. vm_compute. reflexivity. Qed.

Example test_second_call :
  test (setLastIndex (literal "you\s+suck" "gi") 13) "hey You  SUCK!"
  = (false, literal "you\s+suck" "gi").
Proof. vm_compute. reflexivity. Qed.

Example preprocessText_example :
  TextAnalysisService.preprocessText "  Hello,   how are you today? "
  = "hello  how are you today".
Proof. vm_compute. reflexivity. Qed.

Example split_example : Str.split " a  b " = [""; "a"; "b"; ""].
Proof. vm_compute. reflexivity. Qed.

(** ** Comparisons, [Math.min], [Math.max] and [Math.round] *)

Module NumFacts.

Lemma geb_true (a b : Q) : Num.geb a b = true <-> b <= a.
Proof. unfold Num.geb. apply Qle_bool_iff. Qed.

Lemma geb_false (a b : Q) : Num.geb a b = false <-> a < b.
Proof.
  unfold Num.geb. split; intro H.
  - apply Qnot_le_lt. intro L. apply Qle_bool_iff in L. congruence.
  - apply not_true_is_false. intro L. apply Qle_bool_iff in L. lra.
Qed.

Lemma ltb_true (a b : Q) : Num.ltb a b = true <-> a < b.
Proof.
  unfold Num.ltb. rewrite negb_true_iff. apply (geb_false a b).
Qed.

Lemma ltb_false (a b : Q) : Num.ltb a b = false <-> b <= a.
Proof.
  unfold Num.ltb. rewrite negb_false_iff. apply Qle_bool_iff.
Qed.

Lemma gtb_true (a b : Q) : Num.gtb a b = true <-> b < a.
Proof. apply (ltb_true b a). Qed.

Lemma gtb_false (a b : Q) : Num.gtb a b = false <-> a <= b.
Proof. apply (ltb_false b a). Qed.

Lemma geb_compat (a a' b : Q) : a == a' -> Num.geb a b = Num.geb a' b.
Proof.
  intro E. destruct (Num.geb a' b) eqn:G.
  - apply geb_true. apply geb_true in G. lra.
  - apply geb_false. apply geb_false in G. lra.
Qed.

Lemma min_spec (a b : Q) :
  (a <= b /\ Num.min a b = a) \/ (b < a /\ Num.min a b = b).
Proof.
  unfold Num.min. destruct (Num.ltb b a) eqn:L.
  - right. apply ltb_true in L. auto.
  - left. apply ltb_false in L. auto.
Qed.

Lemma max_spec (a b : Q) :
  (b <= a /\ Num.max a b = a) \/ (a < b /\ Num.max a b = b).
Proof.
  unfold Num.max. destruct (Num.ltb a b) eqn:L.
  - right. apply ltb_true in L. auto.
  - left. apply ltb_false in L. auto.
Qed.

Lemma min_le_r (a b : Q) : Num.min a b <= b.
Proof. destruct (min_spec a b) as [[H ->] | [H ->]]; lra. Qed.

Lemma min_le_l (a b : Q) : Num.min a b <= a.
Proof. destruct (min_spec a b) as [[H ->] | [H ->]]; lra. Qed.

Lemma min_glb (a b c : Q) : c <= a -> c <= b -> c <= Num.min a b.
Proof. intros. destruct (min_spec a b) as [[H1 ->] | [H1 ->]]; lra. Qed.

Lemma min_id (a b : Q) : a <= b -> Num.min a b = a.
Proof. intros. destruct (min_spec a b) as [[H1 ->] | [H1 E]]; [reflexivity | lra]. Qed.

Lemma min_mono (a a' b : Q) : a <= a' -> Num.min a b <= Num.min a' b.
Proof.
  intros. destruct (min_spec a b) as [[H1 ->] | [H1 ->]];
    destruct (min_spec a' b) as [[H2 ->] | [H2 ->]]; lra.
Qed.

Lemma min_compat (a a' b : Q) : a == a' -> Num.min a b == Num.min a' b.
Proof.
  intros. destruct (min_spec a b) as [[H1 ->] | [H1 ->]];
    destruct (min_spec a' b) as [[H2 ->] | [H2 ->]]; lra.
Qed.

Lemma max_id (a b : Q) : b <= a -> Num.max a b = a.
Proof. intros. destruct (max_spec a b) as [[H1 ->] | [H1 E]]; [reflexivity | lra]. Qed.

Lemma max_ge_l (a b : Q) : a <= Num.max a b.
Proof. destruct (max_spec a b) as [[H ->] | [H ->]]; lra. Qed.

Lemma max_ge_r (a b : Q) : b <= Num.max a b.
Proof. destruct (max_spec a b) as [[H ->] | [H ->]]; lra. Qed.

Lemma ofNat_nonneg (n : nat) : 0 <= Num.ofNat n.
Proof.
  unfold Num.ofNat. change 0 with (inject_Z 0). rewrite <- Zle_Qle. lia.
Qed.

(** [Math.round x] is the integer [z] with [x - 1/2 < z <= x + 1/2]. *)
Lemma round_spec (x : Q) :
  x - (1 # 2) < Num.round x /\ Num.round x <= x + (1 # 2).
Proof.
  unfold Num.round. split.
  - pose proof (Qlt_floor (x + (1 # 2))) as H.
    rewrite inject_Z_plus in H. change (inject_Z 1) with 1 in H. lra.
  - apply Qfloor_le.
Qed.

Lemma round_nonneg (x : Q) : 0 <= x -> 0 <= Num.round x.
Proof.
  intro H. unfold Num.round. change 0 with (inject_Z 0).
  rewrite <- Zle_Qle. change 0%Z with (Qfloor 0).
  apply Qfloor_resp_le. lra.
Qed.

End NumFacts.

(** ** Levels *)

Lemma getRiskLevel_cases (s : Q) :
  (s < 40 /\ getRiskLevel s = low) \/
  (40 <= s < 60 /\ getRiskLevel s = medium) \/
  (60 <= s < 80 /\ getRiskLevel s = high) \/
  (80 <= s /\ getRiskLevel s = critical).
Proof.
  unfold getRiskLevel.
  destruct (Num.geb s 80) eqn:H80; [apply NumFacts.geb_true in H80 | apply NumFacts.geb_false in H80].
  - right; right; right. split; [assumption | reflexivity].
  - destruct (Num.geb s 60) eqn:H60; [apply NumFacts.geb_true in H60 | apply NumFacts.geb_false in H60].
    + right; right; left. repeat split; assumption.
    + destruct (Num.geb s 40) eqn:H40; [apply NumFacts.geb_true in H40 | apply NumFacts.geb_false in H40].
      * right; left. repeat split; assumption.
      * left. split; [assumption | reflexivity].
Qed.

Lemma getRiskLevel_monotone (s s' : Q) :
  s <= s' -> (levelRank (getRiskLevel s) <= levelRank (getRiskLevel s'))%nat.
Proof.
  intro H.
  destruct (getRiskLevel_cases s) as [[A ->] | [[A ->] | [[A ->] | [A ->]]]];
    destruct (getRiskLevel_cases s') as [[B ->] | [[B ->] | [[B ->] | [B ->]]]];
    simpl; try lia; exfalso; lra.
Qed.

Lemma getRiskLevel_compat (s s' : Q) : s == s' -> getRiskLevel s = getRiskLevel s'.
Proof.
  intro E. unfold getRiskLevel.
  rewrite (NumFacts.geb_compat 80 E), (NumFacts.geb_compat 60 E),
    (NumFacts.geb_compat 40 E). reflexivity.
Qed.

(** C8.  The level of a score is monotone in the score, it has the
    breakpoints 40, 60 and 80 (so that 0 and 39 are low, 40 and 59 medium,
    60 and 79 high, 80 and 100 critical), and the toxicity analyzer's
    [getToxicityLevel] is the same function. *)
Theorem level_monotone_with_breakpoints :
  (forall s s' : Q,
      s <= s' -> (levelRank (getRiskLevel s) <= levelRank (getRiskLevel s'))%nat) /\
  getRiskLevel 0 = low /\ getRiskLevel 39 = low /\
  getRiskLevel 40 = medium /\ getRiskLevel 59 = medium /\
  getRiskLevel 60 = high /\ getRiskLevel 79 = high /\
  getRiskLevel 80 = critical /\ getRiskLevel 100 = critical /\
  (forall s : Q, ToxicityAnalyzer.getToxicityLevel s = getRiskLevel s).
Proof.
  split; [exact getRiskLevel_monotone |].
  repeat split; reflexivity.
Qed.

Lemma level_monotone_with_breakpoints_witness :
  39 <= 40 /\
  (levelRank (getRiskLevel 39) <= levelRank (getRiskLevel 40))%nat.
Proof.
  split.
  - unfold Qle; simpl; lia.
  - apply (proj1 level_monotone_with_breakpoints 39 40).
    unfold Qle; simpl; lia.
Defined.

(** ** The risk aggregator *)

Lemma riskOf_cases (a : Q) :
  (a < 30 /\ Aggregation.riskOf a = safe) \/
  (30 <= a < 50 /\ Aggregation.riskOf a = warning) \/
  (50 <= a < 70 /\ Aggregation.riskOf a = danger) \/
  (70 <= a /\ Aggregation.riskOf a = criticalRisk).
Proof.
  unfold Aggregation.riskOf.
  destruct (Qle_bool 70 a) eqn:H70;
    [apply NumFacts.geb_true in H70 | apply NumFacts.geb_false in H70].
  - right; right; right. split; [assumption | reflexivity].
  - destruct (Qle_bool 50 a) eqn:H50;
      [apply NumFacts.geb_true in H50 | apply NumFacts.geb_false in H50].
    + right; right; left. repeat split; assumption.
    + destruct (Qle_bool 30 a) eqn:H30;
        [apply NumFacts.geb_true in H30 | apply NumFacts.geb_false in H30].
      * right; left. repeat split; assumption.
      * left. split; [assumption | reflexivity].
Qed.

Lemma riskOf_monotone (a b : Q) :
  a <= b -> (riskRank (Aggregation.riskOf a) <= riskRank (Aggregation.riskOf b))%nat.
Proof.
  intro H.
  destruct (riskOf_cases a) as [[A ->] | [[A ->] | [[A ->] | [A ->]]]];
    destruct (riskOf_cases b) as [[B ->] | [[B ->] | [[B ->] | [B ->]]]];
    simpl; try lia; exfalso; lra.
Qed.

Lemma riskOf_compat (a b : Q) : a == b -> Aggregation.riskOf a = Aggregation.riskOf b.
Proof.
  intro E.
  destruct (riskOf_cases a) as [[A ->] | [[A ->] | [[A ->] | [A ->]]]];
    destruct (riskOf_cases b) as [[B ->] | [[B ->] | [[B ->] | [B ->]]]];
    try reflexivity; exfalso; lra.
Qed.

Lemma factor_positive (condition : bool) (f : Q) :
  0 < f -> 0 < Aggregation.factor condition f.
Proof. intro H. destruct condition; simpl; [assumption | lra]. Qed.

Lemma adjusted_monotone (w w' : Q) (c : ContextAnalysis) (i : IntentAnalysis) :
  w <= w' -> Aggregation.adjusted w c i <= Aggregation.adjusted w' c i.
Proof.
  intro H. unfold Aggregation.adjusted.
  assert (F1 := @factor_positive (isSarcastic c || isIronic c) 0.4 ltac:(lra)).
  assert (F2 := @factor_positive (isEducational c || isHistorical c) 0.3 ltac:(lra)).
  assert (F3 := @factor_positive (isThreatening i || isAggressive i) 1.3 ltac:(lra)).
  repeat (apply Qmult_le_compat_r; [| apply Qlt_le_weak; assumption]).
  assumption.
Qed.

(** The code's chain of conditional multiplications is the product of the
    three factors, and its chain of comparisons is [riskOf]. *)
Lemma overallRisk_riskOf (hs tox har prof sent : Q)
    (c : ContextAnalysis) (i : IntentAnalysis) :
  TextAnalysisService.calculateOverallRisk hs tox har prof sent c i
  = Aggregation.riskOf
      (Aggregation.adjusted (Aggregation.weighted hs tox har prof sent) c i).
Proof.
  unfold TextAnalysisService.calculateOverallRisk.
  match goal with
  | |- (if Num.geb ?a 70 then _ else _) = _ =>
      change (Aggregation.riskOf a = Aggregation.riskOf
        (Aggregation.adjusted (Aggregation.weighted hs tox har prof sent) c i))
  end.
  apply riskOf_compat.
  unfold Aggregation.adjusted, Aggregation.weighted, Aggregation.factor.
  destruct (isSarcastic c || isIronic c)%bool,
           (isEducational c || isHistorical c)%bool,
           (isThreatening i || isAggressive i)%bool; ring.
Qed.



Lemma overallRisk_monotone_all (hs hs' tox tox' har har' prof prof' sent sent' : Q)
    (c : ContextAnalysis) (i : IntentAnalysis) :
  hs <= hs' -> tox <= tox' -> har <= har' -> prof <= prof' -> sent <= sent' ->
  (riskRank (TextAnalysisService.calculateOverallRisk hs tox har prof sent c i)
   <= riskRank (TextAnalysisService.calculateOverallRisk hs' tox' har' prof' sent' c i))%nat.
Proof.
  intros. rewrite !overallRisk_riskOf.
  apply riskOf_monotone, adjusted_monotone.
  unfold Aggregation.weighted. lra.
Qed.

(** C7.  With the context and the intent fixed, raising one of the five
    category scores and keeping the other four never lowers the overall
    risk, in the order safe < warning < danger < critical. *)
Theorem overallRisk_monotone_in_each_score :
  forall (c : ContextAnalysis) (i : IntentAnalysis)
         (hs tox har prof sent raised : Q),
    let risk := fun a b c' d e =>
      riskRank (TextAnalysisService.calculateOverallRisk a b c' d e c i) in
    (hs <= raised -> (risk hs tox har prof sent <= risk raised tox har prof sent)%nat) /\
    (tox <= raised -> (risk hs tox har prof sent <= risk hs raised har prof sent)%nat) /\
    (har <= raised -> (risk hs tox har prof sent <= risk hs tox raised prof sent)%nat) /\
    (prof <= raised -> (risk hs tox har prof sent <= risk hs tox har raised sent)%nat) /\
    (sent <= raised -> (risk hs tox har prof sent <= risk hs tox har prof raised)%nat).
Proof.
  intros c i hs tox har prof sent raised risk. unfold risk.
  repeat split; intro H; apply overallRisk_monotone_all;
    solve [assumption | apply Qle_refl].
Qed.

Lemma overallRisk_monotone_in_each_score_witness :
  50 <= 90 /\
  (riskRank (TextAnalysisService.calculateOverallRisk 50 50 50 50 50
               (ContextAnalyzer.analyze "") (IntentAnalyzer.analyze ""))
   <= riskRank (TextAnalysisService.calculateOverallRisk 90 50 50 50 50
                  (ContextAnalyzer.analyze "") (IntentAnalyzer.analyze "")))%nat /\
  (riskRank (TextAnalysisService.calculateOverallRisk 50 50 50 50 50
               (ContextAnalyzer.analyze "") (IntentAnalyzer.analyze ""))
   <= riskRank (TextAnalysisService.calculateOverallRisk 50 90 50 50 50
                  (ContextAnalyzer.analyze "") (IntentAnalyzer.analyze "")))%nat /\
  (riskRank (TextAnalysisService.calculateOverallRisk 50 50 50 50 50
               (ContextAnalyzer.analyze "") (IntentAnalyzer.analyze ""))
   <= riskRank (TextAnalysisService.calculateOverallRisk 50 50 90 50 50
                  (ContextAnalyzer.analyze "") (IntentAnalyzer.analyze "")))%nat /\
  (riskRank (TextAnalysisService.calculateOverallRisk 50 50 50 50 50
               (ContextAnalyzer.analyze "") (IntentAnalyzer.analyze ""))
   <= riskRank (TextAnalysisService.calculateOverallRisk 50 50 50 90 50
                  (ContextAnalyzer.analyze "") (IntentAnalyzer.analyze "")))%nat /\
  (riskRank (TextAnalysisService.calculateOverallRisk 50 50 50 50 50
               (ContextAnalyzer.analyze "") (IntentAnalyzer.analyze ""))
   <= riskRank (TextAnalysisService.calculateOverallRisk 50 50 50 50 90
                  (ContextAnalyzer.analyze "") (IntentAnalyzer.analyze "")))%nat.
Proof.
  assert (H : 50 <= 90) by (unfold Qle; simpl; lia).
  destruct (overallRisk_monotone_in_each_score
              (ContextAnalyzer.analyze "") (IntentAnalyzer.analyze "")
              50 50 50 50 50 90) as (A & B & C & D & E).
  split; [exact H |].
  split; [exact (A H) |]. split; [exact (B H) |]. split; [exact (C H) |].
  split; [exact (D H) | exact (E H)].
Defined.

(** ** Tiers of patterns *)

Lemma iter_add (n : nat) (points s : Q) :
  Nat.iter n (fun x => x + points) s == s + Num.ofNat n * points.
Proof.
  induction n as [| n IH].
  - simpl. unfold Num.ofNat. simpl. ring.
  - simpl. rewrite IH. unfold Num.ofNat.
    rewrite Nat2Z.inj_succ, <- Z.add_1_r, inject_Z_plus.
    change (inject_Z 1) with 1. ring.
Qed.

Lemma tier_spec (patterns : list RegExp) (points : Q) (message text : string) :
  forall (score : Q) (detected : bool) (reasoning : list string),
    TextAnalysisService.tier patterns points message text (score, detected, reasoning)
    = (Nat.iter (Steps.hits patterns text) (fun x => x + points) score,
       (detected || negb (Nat.eqb (Steps.hits patterns text) 0))%bool,
       (reasoning ++ List.repeat message (Steps.hits patterns text))%list).
Proof.
  unfold TextAnalysisService.tier, Steps.hits.
  induction patterns as [| p ps IH]; intros score detected reasoning.
  - simpl. rewrite orb_false_r, app_nil_r. reflexivity.
  - simpl. destruct (testFresh p text) eqn:T.
    + rewrite IH. simpl List.length.
      rewrite Nat.iter_succ_r. unfold push.
      rewrite <- app_assoc. simpl. rewrite orb_true_r. reflexivity.
    + apply IH.
Qed.

Lemma tierPoints_nonneg (patterns : list RegExp) (points : Q) (text : string) :
  0 <= points -> 0 <= Steps.tierPoints patterns points text.
Proof.
  intro H. unfold Steps.tierPoints.
  apply Qmult_le_0_compat; [apply NumFacts.ofNat_nonneg | assumption].
Qed.

(** ** Steps *)

Lemma scaleIf_nonneg (condition : bool) (f s : Q) :
  0 <= f -> 0 <= s -> 0 <= Steps.scaleIf condition f s.
Proof.
  intros. unfold Steps.scaleIf. destruct condition; [| assumption].
  apply Qmult_le_0_compat; assumption.
Qed.

Lemma scaleIf_compat (condition : bool) (f s s' : Q) :
  s == s' -> Steps.scaleIf condition f s == Steps.scaleIf condition f s'.
Proof.
  intro E. unfold Steps.scaleIf. destruct condition; [rewrite E |]; auto with qarith.
Qed.

Lemma adopt_spec (external score : Q) :
  (external <= score /\ Steps.adopt external score = score) \/
  (score < external /\ Steps.adopt external score = external).
Proof.
  unfold Steps.adopt. destruct (Num.gtb external score) eqn:G.
  - right. apply NumFacts.gtb_true in G. auto.
  - left. apply NumFacts.gtb_false in G. auto.
Qed.

Lemma adopt_nonneg (external score : Q) :
  0 <= score -> 0 <= Steps.adopt external score.
Proof.
  intro H. destruct (adopt_spec external score) as [[L ->] | [L ->]]; lra.
Qed.

Lemma adopt_compat (external s s' : Q) :
  s == s' -> Steps.adopt external s == Steps.adopt external s'.
Proof.
  intro E.
  destruct (adopt_spec external s) as [[L ->] | [L ->]];
    destruct (adopt_spec external s') as [[L' ->] | [L' ->]]; lra.
Qed.

(** Nothing is adopted from an external score of 0. *)
Lemma adopt_zero (score : Q) : 0 <= score -> Steps.adopt 0 score = score.
Proof.
  intro H. destruct (adopt_spec 0 score) as [[L E] | [L E]]; [exact E | lra].
Qed.

Lemma clamp_range (s : Q) : 0 <= s -> 0 <= Steps.clamp s <= 100.
Proof.
  intro H. unfold Steps.clamp. split.
  - apply NumFacts.min_glb; lra.
  - apply NumFacts.min_le_r.
Qed.

Lemma clamp_compat (s s' : Q) : s == s' -> Steps.clamp s == Steps.clamp s'.
Proof. apply NumFacts.min_compat. Qed.

Lemma hateAdjust_nonneg (c : ContextAnalysis) (i : IntentAnalysis) (s : Q) :
  0 <= s -> 0 <= Steps.hateAdjust c i s.
Proof.
  intro H. unfold Steps.hateAdjust.
  repeat (apply scaleIf_nonneg; [lra |]). assumption.
Qed.

Lemma hateAdjust_compat (c : ContextAnalysis) (i : IntentAnalysis) (s s' : Q) :
  s == s' -> Steps.hateAdjust c i s == Steps.hateAdjust c i s'.
Proof.
  intro E. unfold Steps.hateAdjust. repeat apply scaleIf_compat. assumption.
Qed.

Lemma hateTiers_nonneg (text : string) : 0 <= Steps.hateTiers text.
Proof.
  unfold Steps.hateTiers.
  assert (H1 := @tierPoints_nonneg TextAnalysisService.directHate 40 text ltac:(lra)).
  assert (H2 := @tierPoints_nonneg TextAnalysisService.indirectHate 25 text ltac:(lra)).
  assert (H3 := @tierPoints_nonneg TextAnalysisService.dehumanizing 35 text ltac:(lra)).
  lra.
Qed.

(** ** The hate-speech detector *)

(** The classifier wrapper never throws: a failed or empty call counts 0. *)
Lemma getMLHateSpeechScore_ok (env : Env) (text : string) :
  TextAnalysisService.getMLHateSpeechScore env text = Ok (Steps.hateExternal env text).
Proof.
  unfold Steps.hateExternal, TextAnalysisService.getMLHateSpeechScore.
  destruct (huggingface env text) as [[h |] | e]; reflexivity.
Qed.

Lemma hateExternal_offline (env : Env) (text : string) :
  Steps.hateExternal (offline env) text = 0.
Proof. reflexivity. Qed.

Lemma hate_iter_tiers (text : string) :
  Nat.iter (Steps.hits TextAnalysisService.dehumanizing text) (fun x => x + 35)
    (Nat.iter (Steps.hits TextAnalysisService.indirectHate text) (fun x => x + 25)
       (Nat.iter (Steps.hits TextAnalysisService.directHate text) (fun x => x + 40) 0))
  == Steps.hateTiers text.
Proof.
  unfold Steps.hateTiers, Steps.tierPoints. rewrite !iter_add. ring.
Qed.

Lemma gtb_compat_r (a b b' : Q) : b == b' -> Num.gtb a b = Num.gtb a b'.
Proof.
  intro E. destruct (Num.gtb a b') eqn:G.
  - apply NumFacts.gtb_true. apply NumFacts.gtb_true in G. lra.
  - apply NumFacts.gtb_false. apply NumFacts.gtb_false in G. lra.
Qed.

Lemma gtb_compat_l (a a' b : Q) : a == a' -> Num.gtb a b = Num.gtb a' b.
Proof.
  intro E. destruct (Num.gtb a' b) eqn:G.
  - apply NumFacts.gtb_true. apply NumFacts.gtb_true in G. lra.
  - apply NumFacts.gtb_false. apply NumFacts.gtb_false in G. lra.
Qed.

(** What [analyzeHateSpeech] returns, field by field, in terms of the
    external score [ml] and the adjusted rule-based score. *)
Lemma analyzeHateSpeech_spec (env : Env) (text : string)
    (c : ContextAnalysis) (i : IntentAnalysis) :
  exists r : Category.t,
    TextAnalysisService.analyzeHateSpeech env text c i = Ok r /\
    Category.score r == Steps.hateMergedLast env text c i /\
    Category.level r = getRiskLevel (Category.score r) /\
    Category.detected r
    = (Category.detected (Steps.hateRuleBased text c i)
       || Num.gtb (Steps.hateExternal env text) 30)%bool /\
    Category.reasoning r
    = (Category.reasoning (Steps.hateRuleBased text c i) ++
       Steps.note (Num.gtb (Steps.hateExternal env text)
                     (Steps.hateAdjust c i (Steps.hateTiers text)))
                  "ML model detected higher hate speech score")%list.
Proof.
  unfold TextAnalysisService.analyzeHateSpeech.
  rewrite getMLHateSpeechScore_ok.
  repeat (rewrite tier_spec; cbv beta iota zeta).
  pose proof (hate_iter_tiers text) as E.
  set (acc := Nat.iter _ _ (Nat.iter _ _ (Nat.iter _ _ 0))) in *.
  set (ml := Steps.hateExternal env text).
  unfold Steps.hateMergedLast, Steps.hateRuleBased. fold ml.
  cbn [Category.detected Category.reasoning].
  unfold Steps.hateAdjust, Steps.sarcastic, Steps.educational.
  set (hd := Steps.hits TextAnalysisService.directHate text).
  set (hi := Steps.hits TextAnalysisService.indirectHate text).
  set (hh := Steps.hits TextAnalysisService.dehumanizing text).
  set (tiers := Steps.hateTiers text) in *.
  assert (D : ((false || negb (hd =? 0)%nat || negb (hi =? 0)%nat) || negb (hh =? 0)%nat)%bool
              = negb (hd + hi + hh =? 0)%nat).
  { destruct hd, hi, hh; reflexivity. }
  destruct (isSarcastic c || isIronic c)%bool,
           (isEducational c || isHistorical c)%bool,
           (isThreatening i);
    cbv beta iota zeta; unfold Steps.scaleIf, Steps.note, push;
    match goal with
    | |- context [Num.gtb ml ?x] =>
        match goal with
        | |- context [Steps.adopt ml ?y] =>
            assert (X : x == y) by (rewrite E; reflexivity);
            rewrite <- (gtb_compat_r ml X);
            destruct (Num.gtb ml x) eqn:G
        end
    end;
    (eexists; split; [reflexivity |]);
    cbn [Category.score Category.level Category.detected Category.reasoning];
    (split; [| split; [reflexivity | split]]);
    try (rewrite D; destruct (Num.gtb ml 30); rewrite ?orb_true_r, ?orb_false_r; reflexivity);
    try (simpl; rewrite <- ?app_assoc; simpl; rewrite ?app_nil_r; reflexivity).
  all: apply clamp_compat; unfold Steps.adopt;
    rewrite <- (gtb_compat_r ml X), G; solve [reflexivity | exact X].
Qed.

(** ** The toxicity detector *)

Lemma fold_left_invariant (A B : Type) (P : A -> Prop) (g : A -> B -> A) (l : list B) :
  (forall a b, P a -> P (g a b)) -> forall a, P a -> P (fold_left g l a).
Proof.
  intro Hg. induction l as [| b l IH]; intros a Ha; simpl.
  - exact Ha.
  - apply IH, Hg, Ha.
Qed.

Lemma analyzeKeywords_nonneg (self : ToxicityAnalyzer.t) (text : string) :
  0 <= ToxicityAnalyzer.analyzeKeywords self text.
Proof.
  unfold ToxicityAnalyzer.analyzeKeywords.
  apply NumFacts.min_glb; [| lra].
  apply (fold_left_invariant (fun s => 0 <= s)); [| lra].
  intros a b Ha. destruct (Str.includes text b); lra.
Qed.

Lemma testEach_nonneg (patterns : list RegExp) (text : string) :
  forall score, 0 <= score ->
    0 <= fst (ToxicityAnalyzer.testEach patterns text score).
Proof.
  induction patterns as [| p ps IH]; intros score H; simpl.
  - exact H.
  - destruct (test p text) as [hit p'].
    specialize (IH (if hit then score + 15 else score)).
    destruct (ToxicityAnalyzer.testEach ps text (if hit then score + 15 else score))
      as [s' ps'].
    simpl in *. apply IH. destruct hit; lra.
Qed.

Lemma analyzePatterns_nonneg (self : ToxicityAnalyzer.t) (text : string) :
  0 <= fst (ToxicityAnalyzer.analyzePatterns self text).
Proof.
  unfold ToxicityAnalyzer.analyzePatterns.
  pose proof (@testEach_nonneg (ToxicityAnalyzer.toxicityPatterns self) text 0 ltac:(lra)) as H.
  destruct (ToxicityAnalyzer.testEach (ToxicityAnalyzer.toxicityPatterns self) text 0)
    as [s ps].
  simpl in *. apply NumFacts.min_glb; lra.
Qed.

Lemma analyzeSentiment_nonneg (text : string) :
  0 <= ToxicityAnalyzer.analyzeSentiment text.
Proof.
  unfold ToxicityAnalyzer.analyzeSentiment.
  apply NumFacts.min_glb; [| lra].
  assert (H : 0 <= fold_left
            (fun score pattern => if testFresh pattern text then score + 10 else score)
            ToxicityAnalyzer.negativePatterns
            (fold_left (fun score word => if Str.includes text word then score + 5 else score)
                       ToxicityAnalyzer.negativeWords 0)).
  { apply (fold_left_invariant (fun s => 0 <= s)).
    - intros a b Ha. destruct (testFresh b text); lra.
    - apply (fold_left_invariant (fun s => 0 <= s)); [| lra].
      intros a b Ha. destruct (Str.includes text b); lra. }
  destruct (Nat.ltb 3 (Str.count (Ascii.eqb "!") text)),
           (Nat.ltb 3 (Str.count (Ascii.eqb "?") text)); lra.
Qed.

Lemma analyzeAggression_nonneg (text : string) :
  0 <= ToxicityAnalyzer.analyzeAggression text.
Proof.
  unfold ToxicityAnalyzer.analyzeAggression.
  apply NumFacts.min_glb; [| lra].
  apply (fold_left_invariant (fun s => 0 <= s)).
  - intros a b Ha. destruct (testFresh b text); lra.
  - apply (fold_left_invariant (fun s => 0 <= s)); [| lra].
    intros a b Ha. destruct (Str.includes text b); lra.
Qed.

Lemma toxicFirstTiers_nonneg (self : ToxicityAnalyzer.t) (text : string) :
  0 <= Steps.toxicFirstTiers self text.
Proof.
  unfold Steps.toxicFirstTiers.
  pose proof (analyzeKeywords_nonneg self (Steps.clean text)).
  pose proof (analyzePatterns_nonneg self (Steps.clean text)). lra.
Qed.

Lemma toxicLastTiers_nonneg (text : string) : 0 <= Steps.toxicLastTiers text.
Proof.
  unfold Steps.toxicLastTiers.
  pose proof (analyzeSentiment_nonneg (Steps.clean text)).
  pose proof (analyzeAggression_nonneg (Steps.clean text)). lra.
Qed.

Lemma getMLToxicityScore_ok (env : Env) (text : string) :
  ToxicityAnalyzer.getMLToxicityScore env (Steps.clean text)
  = Ok (Steps.toxicExternal env text).
Proof.
  unfold Steps.toxicExternal, ToxicityAnalyzer.getMLToxicityScore.
  destruct (perspective env (Steps.clean text)) as [[h |] | e]; reflexivity.
Qed.

Lemma toxicExternal_offline (env : Env) (text : string) :
  Steps.toxicExternal (offline env) text = 0.
Proof. reflexivity. Qed.

(** [ToxicityAnalyzer.analyze] returns a score, and leaves the analyzer as
    [analyzePatterns] did. *)
Lemma ToxicityAnalyzer_analyze_spec (env : Env) (self : ToxicityAnalyzer.t) (text : string) :
  exists v : Q,
    ToxicityAnalyzer.analyze env self text
    = (Ok v, snd (ToxicityAnalyzer.analyzePatterns self (Steps.clean text))) /\
    v == Steps.clamp (Steps.adopt (Steps.toxicExternal env text)
                                  (Steps.toxicFirstTiers self text)
                      + Steps.toxicLastTiers text).
Proof.
  unfold ToxicityAnalyzer.analyze. fold (Steps.clean text).
  rewrite getMLToxicityScore_ok.
  unfold Steps.toxicFirstTiers, Steps.toxicLastTiers.
  destruct (ToxicityAnalyzer.analyzePatterns self (Steps.clean text)) as [pat self'].
  cbn [fst snd bind tryCatch].
  eexists. split; [reflexivity |].
  apply clamp_compat.
  change (Num.max ?a ?b) with (Steps.adopt b a).
  rewrite (@adopt_compat (Steps.toxicExternal env text)
             (0 + ToxicityAnalyzer.analyzeKeywords self (Steps.clean text) + pat)
             (ToxicityAnalyzer.analyzeKeywords self (Steps.clean text) + pat)) by ring.
  ring.
Qed.

Lemma toxicAdjust_nonneg (c : ContextAnalysis) (i : IntentAnalysis) (s : Q) :
  0 <= s -> 0 <= Steps.toxicAdjust c i s.
Proof.
  intro H. unfold Steps.toxicAdjust.
  repeat (apply scaleIf_nonneg; [lra |]). assumption.
Qed.

Lemma toxicAdjust_compat (c : ContextAnalysis) (i : IntentAnalysis) (s s' : Q) :
  s == s' -> Steps.toxicAdjust c i s == Steps.toxicAdjust c i s'.
Proof.
  intro E. unfold Steps.toxicAdjust. repeat apply scaleIf_compat. assumption.
Qed.

Lemma analyzeToxicity_spec (env : Env) (self : TextAnalysisService.t) (text : string)
    (c : ContextAnalysis) (i : IntentAnalysis) :
  exists r : Category.t,
    TextAnalysisService.analyzeToxicity env self text c i
    = (Ok r,
       {| TextAnalysisService.profanityFilter := TextAnalysisService.profanityFilter self;
          TextAnalysisService.toxicityAnalyzer :=
            snd (ToxicityAnalyzer.analyzePatterns
                   (TextAnalysisService.toxicityAnalyzer self) (Steps.clean text)) |}) /\
    sameCategory r
      {| Category.score :=
           Steps.clamp (Steps.toxicUnclamped env (TextAnalysisService.toxicityAnalyzer self) text c i);
         Category.level :=
           getRiskLevel (Steps.toxicUnclamped env (TextAnalysisService.toxicityAnalyzer self) text c i);
         Category.detected :=
           Num.gtb (Steps.toxicUnclamped env (TextAnalysisService.toxicityAnalyzer self) text c i) 40;
         Category.reasoning :=
           Category.reasoning
             (Steps.toxicRuleBased (TextAnalysisService.toxicityAnalyzer self) text c i) |}.
Proof.
  unfold TextAnalysisService.analyzeToxicity.
  destruct (ToxicityAnalyzer_analyze_spec env (TextAnalysisService.toxicityAnalyzer self) text)
    as [v [-> Ev]].
  cbn [bind].
  unfold Steps.toxicUnclamped, Steps.toxicAdjust, Steps.toxicRuleBased, sameCategory.
  unfold Steps.sarcastic, Steps.playful, Steps.hostile.
  set (w := Steps.clamp _) in *.
  destruct (isSarcastic c || isIronic c)%bool,
           (isPlayful c || isFriendly c)%bool,
           (isAggressive i || isHostile i)%bool;
    cbv beta iota zeta; unfold Steps.scaleIf, Steps.note, push;
    (eexists; split; [reflexivity |]);
    cbn [Category.score Category.level Category.detected Category.reasoning];
    match goal with
    | |- Num.min ?x 100 == Steps.clamp ?y /\ _ =>
        assert (X : x == y) by (rewrite Ev; reflexivity)
    end;
    (split; [apply clamp_compat, X |]);
    (split; [apply getRiskLevel_compat, X |]);
    (split; [apply gtb_compat_l, X | reflexivity]).
Qed.

(** ** The harassment detector *)

Lemma harassmentTiers_nonneg (text : string) : 0 <= Steps.harassmentTiers text.
Proof.
  unfold Steps.harassmentTiers.
  assert (H1 := @tierPoints_nonneg TextAnalysisService.directThreats 45 text ltac:(lra)).
  assert (H2 := @tierPoints_nonneg TextAnalysisService.stalking 35 text ltac:(lra)).
  assert (H3 := @tierPoints_nonneg TextAnalysisService.intimidation 25 text ltac:(lra)).
  assert (H4 := @tierPoints_nonneg TextAnalysisService.cyberbullying 30 text ltac:(lra)).
  lra.
Qed.

Lemma harassmentAdjust_nonneg (c : ContextAnalysis) (i : IntentAnalysis) (s : Q) :
  0 <= s -> 0 <= Steps.harassmentAdjust c i s.
Proof.
  intro H. unfold Steps.harassmentAdjust.
  repeat (apply scaleIf_nonneg; [lra |]). assumption.
Qed.

Lemma analyzeHarassment_spec (text : string) (c : ContextAnalysis) (i : IntentAnalysis) :
  exists r : Category.t,
    TextAnalysisService.analyzeHarassment text c i = Ok r /\
    Category.score r
    == Steps.clamp (Steps.harassmentAdjust c i (Steps.harassmentTiers text)).
Proof.
  unfold TextAnalysisService.analyzeHarassment.
  repeat (rewrite tier_spec; cbv beta iota zeta).
  assert (E : Nat.iter (Steps.hits TextAnalysisService.cyberbullying text) (fun x => x + 30)
               (Nat.iter (Steps.hits TextAnalysisService.intimidation text) (fun x => x + 25)
                  (Nat.iter (Steps.hits TextAnalysisService.stalking text) (fun x => x + 35)
                     (Nat.iter (Steps.hits TextAnalysisService.directThreats text)
                        (fun x => x + 45) 0)))
              == Steps.harassmentTiers text).
  { unfold Steps.harassmentTiers, Steps.tierPoints. rewrite !iter_add. ring. }
  set (acc := Nat.iter _ _ (Nat.iter _ _ (Nat.iter _ _ (Nat.iter _ _ 0)))) in *.
  unfold Steps.harassmentAdjust, Steps.sarcastic.
  destruct (isSarcastic c || isIronic c)%bool, (isThreatening i);
    cbv beta iota zeta; unfold Steps.scaleIf;
    (eexists; split; [reflexivity |]); cbn [Category.score];
    apply clamp_compat; rewrite E; reflexivity.
Qed.

(** ** The profanity detector *)

Lemma calculateIntensityScore_nonneg (text : string) :
  0 <= ProfanityFilter.calculateIntensityScore text.
Proof.
  unfold ProfanityFilter.calculateIntensityScore.
  apply NumFacts.min_glb; [| lra].
  unfold ProfanityFilter.intensityMap. simpl.
  repeat match goal with
         | |- context [Str.includes text ?w] => destruct (Str.includes text w)
         end; lra.
Qed.

Lemma calculateContextScore_nonneg (env : Env) (self : ProfanityFilter.t) (text : string) :
  0 <= ProfanityFilter.calculateContextScore env self text.
Proof.
  unfold ProfanityFilter.calculateContextScore.
  apply NumFacts.min_glb; [| lra].
  assert (H : 0 <= fold_left
            (fun contextScore pattern =>
               if testFresh pattern text then contextScore + 10 else contextScore)
            ProfanityFilter.directedPatterns 0).
  { apply (fold_left_invariant (fun s => 0 <= s)); [| lra].
    intros a b Ha. destruct (testFresh b text); lra. }
  destruct (Str.isUpperCase text && ProfanityFilter.isProfane env self text)%bool,
           (testFresh ProfanityFilter.shouting text
            && ProfanityFilter.isProfane env self text)%bool; lra.
Qed.

(** The filter's score is returned, not thrown, and lies in [[0,100]]. *)
Lemma ProfanityFilter_analyze_spec (env : Env) (self : ProfanityFilter.t) (text : string) :
  exists v : Q,
    ProfanityFilter.analyze env self text = Ok v /\ 0 <= v <= 100.
Proof.
  unfold ProfanityFilter.analyze.
  destruct (negb _).
  - exists 0. split; [reflexivity | lra].
  - cbn [tryCatch]. eexists. split; [reflexivity |].
    split; [| apply NumFacts.min_le_r].
    apply NumFacts.min_glb; [| lra].
    pose proof (calculateIntensityScore_nonneg (Str.trim (Str.toLowerCase text))).
    pose proof (calculateContextScore_nonneg env self (Str.trim (Str.toLowerCase text))).
    match goal with
    | |- 0 <= 0 + 30 + Num.ofNat ?a * 10 + Num.ofNat ?b * 5 + _ + _ =>
        pose proof (NumFacts.ofNat_nonneg a); pose proof (NumFacts.ofNat_nonneg b)
    end.
    lra.
Qed.

Lemma profanityAdjust_nonneg (c : ContextAnalysis) (s : Q) :
  0 <= s -> 0 <= Steps.profanityAdjust c s.
Proof.
  intro H. unfold Steps.profanityAdjust.
  repeat (apply scaleIf_nonneg; [lra |]). assumption.
Qed.

Lemma analyzeProfanity_spec (env : Env) (self : TextAnalysisService.t) (text : string)
    (c : ContextAnalysis) :
  exists (r : Category.t) (v : Q),
    TextAnalysisService.analyzeProfanity env self text c = Ok r /\
    ProfanityFilter.analyze env (TextAnalysisService.profanityFilter self) text = Ok v /\
    0 <= v <= 100 /\
    Category.score r = Steps.clamp (Steps.profanityAdjust c v).
Proof.
  unfold TextAnalysisService.analyzeProfanity.
  destruct (ProfanityFilter_analyze_spec env (TextAnalysisService.profanityFilter self) text)
    as [v [E R]].
  rewrite E. cbn [bind].
  unfold Steps.profanityAdjust, Steps.sarcastic, Steps.playful, Steps.educational.
  destruct (isSarcastic c || isIronic c)%bool,
           (isPlayful c || isFriendly c)%bool,
           (isEducational c || isHistorical c)%bool;
    cbv beta iota zeta; unfold Steps.scaleIf;
    (eexists; exists v; split; [reflexivity |]);
    (split; [reflexivity |]); (split; [exact R | reflexivity]).
Qed.

(** ** The sentiment analyzer *)

Lemma sentiment_score_le_100 (text : string) :
  Category.score (SentimentAnalyzer.analyze text) <= 100.
Proof.
  unfold SentimentAnalyzer.analyze.
  destruct (fold_left SentimentAnalyzer.visit (Str.split text) (0, [])) as [s r].
  destruct (Nat.ltb 2 (Str.count (Ascii.eqb "!") text));
    cbn [Category.score]; apply NumFacts.min_le_r.
Qed.

(** ** Preprocessing and clarity *)

Lemma blankSpecials_wordOrSpace (s : string) :
  Str.forallb wordOrSpace (Str.blankSpecials s) = true.
Proof.
  unfold Str.blankSpecials. induction s as [| c s IH]; simpl.
  - reflexivity.
  - rewrite IH, andb_true_r. fold (wordOrSpace c).
    destruct (wordOrSpace c) eqn:W; [exact W | reflexivity].
Qed.

Lemma trimStart_forallb (p : ascii -> bool) (s : string) :
  Str.forallb p s = true -> Str.forallb p (Str.trimStart s) = true.
Proof.
  induction s as [| c s IH]; simpl; intro H.
  - reflexivity.
  - apply andb_true_iff in H. destruct H as [Hc Hs].
    destruct (Char.isSpace c).
    + apply IH, Hs.
    + simpl. rewrite Hc, Hs. reflexivity.
Qed.

Lemma trimEnd_forallb (p : ascii -> bool) (s : string) :
  Str.forallb p s = true -> Str.forallb p (Str.trimEnd s) = true.
Proof.
  induction s as [| c s IH]; simpl; intro H.
  - reflexivity.
  - apply andb_true_iff in H. destruct H as [Hc Hs].
    specialize (IH Hs).
    destruct (Str.trimEnd s) as [| d t].
    + destruct (Char.isSpace c); simpl; [reflexivity | rewrite Hc; reflexivity].
    + change (Str.forallb p (String c (String d t)) = true).
      simpl in *. rewrite Hc. exact IH.
Qed.

Lemma preprocessText_wordOrSpace (text : string) :
  Str.forallb wordOrSpace (TextAnalysisService.preprocessText text) = true.
Proof.
  unfold TextAnalysisService.preprocessText, Str.trim.
  apply trimEnd_forallb, trimStart_forallb, blankSpecials_wordOrSpace.
Qed.

(** No word character and no white space is one of [.], [!], [?]. *)
Lemma wordOrSpace_not_punctuation (c : ascii) :
  wordOrSpace c = true ->
  clsMatches (ignoreCase IntentAnalyzer.punctuation)
             (Cls false [IChar "."; IChar "!"; IChar "?"]) c = false.
Proof.
  destruct c as [[] [] [] [] [] [] [] []]; vm_compute; congruence.
Qed.

Lemma punctuation_absent (s : string) :
  Str.forallb wordOrSpace s = true ->
  testFresh IntentAnalyzer.punctuation s = false.
Proof.
  intro H. unfold testFresh, test. cbn [global IntentAnalyzer.punctuation].
  assert (N : search (ignoreCase IntentAnalyzer.punctuation)
                     (source IntentAnalyzer.punctuation) s = None).
  { induction s as [| c s IH].
    - reflexivity.
    - simpl in H. apply andb_true_iff in H. destruct H as [Hc Hs].
      cbn [source IntentAnalyzer.punctuation] in *.
      unfold search; fold search. unfold matchAt, run.
      rewrite (wordOrSpace_not_punctuation c Hc). apply IH, Hs. }
  rewrite N. reflexivity.
Qed.

Lemma detectClarity_preprocessed (text : string) :
  IntentAnalyzer.detectClarity (TextAnalysisService.preprocessText text) = false.
Proof.
  unfold IntentAnalyzer.detectClarity.
  rewrite (punctuation_absent _ (preprocessText_wordOrSpace text)).
  apply andb_false_r.
Qed.

(** ** The orchestrator *)

(** [analyzeText] never rejects: the four detectors that are promises
    resolve, and the report is assembled from their results. *)
Lemma analyzeText_ok (env : Env) (self : TextAnalysisService.t)
    (request : TextAnalysisService.TextAnalysisRequest) :
  exists (h t ha p : Category.t) (self' : TextAnalysisService.t),
    TextAnalysisService.analyzeHateSpeech env
      (TextAnalysisService.preprocessText (TextAnalysisService.text request))
      (ContextAnalyzer.analyze (TextAnalysisService.preprocessText (TextAnalysisService.text request)))
      (IntentAnalyzer.analyze (TextAnalysisService.preprocessText (TextAnalysisService.text request)))
    = Ok h /\
    TextAnalysisService.analyzeToxicity env self
      (TextAnalysisService.preprocessText (TextAnalysisService.text request))
      (ContextAnalyzer.analyze (TextAnalysisService.preprocessText (TextAnalysisService.text request)))
      (IntentAnalyzer.analyze (TextAnalysisService.preprocessText (TextAnalysisService.text request)))
    = (Ok t, self') /\
    TextAnalysisService.analyzeHarassment
      (TextAnalysisService.preprocessText (TextAnalysisService.text request))
      (ContextAnalyzer.analyze (TextAnalysisService.preprocessText (TextAnalysisService.text request)))
      (IntentAnalyzer.analyze (TextAnalysisService.preprocessText (TextAnalysisService.text request)))
    = Ok ha /\
    TextAnalysisService.analyzeProfanity env self
      (TextAnalysisService.preprocessText (TextAnalysisService.text request))
      (ContextAnalyzer.analyze (TextAnalysisService.preprocessText (TextAnalysisService.text request)))
    = Ok p /\
    exists r : ContentAnalysisResult,
      TextAnalysisService.analyzeText env self request = (Ok r, self') /\
      Analysis.hateSpeech (analysis r) = h /\
      Analysis.toxicity (analysis r) = t /\
      Analysis.harassment (analysis r) = ha /\
      Analysis.profanity (analysis r) = p /\
      Analysis.sentiment (analysis r)
      = SentimentAnalyzer.analyze
          (TextAnalysisService.preprocessText (TextAnalysisService.text request)) /\
      Analysis.context (analysis r)
      = ContextAnalyzer.analyze
          (TextAnalysisService.preprocessText (TextAnalysisService.text request)) /\
      Analysis.intent (analysis r)
      = IntentAnalyzer.analyze
          (TextAnalysisService.preprocessText (TextAnalysisService.text request)) /\
      Analysis.overallRisk (analysis r)
      = TextAnalysisService.calculateOverallRisk
          (Category.score h) (Category.score t) (Category.score ha) (Category.score p)
          (Category.score (Analysis.sentiment (analysis r)))
          (Analysis.context (analysis r)) (Analysis.intent (analysis r)) /\
      Analysis.confidence (analysis r)
      = TextAnalysisService.calculateConfidence env
          [ Category.score h; Category.score t; Category.score ha; Category.score p;
            Category.score (Analysis.sentiment (analysis r)) ]
          (Analysis.context (analysis r)) (Analysis.intent (analysis r)) /\
      Analysis.flaggedWords (analysis r)
      = TextAnalysisService.extractFlaggedWords
          (TextAnalysisService.preprocessText (TextAnalysisService.text request)).
Proof.
  set (pre := TextAnalysisService.preprocessText (TextAnalysisService.text request)).
  set (c := ContextAnalyzer.analyze pre).
  set (i := IntentAnalyzer.analyze pre).
  destruct (analyzeHateSpeech_spec env pre c i) as [h [Eh _]].
  destruct (analyzeToxicity_spec env self pre c i) as [t [Et _]].
  destruct (analyzeHarassment_spec pre c i) as [ha [Eha _]].
  destruct (analyzeProfanity_spec env self pre c) as [p [v [Ep _]]].
  exists h, t, ha, p. eexists.
  split; [exact Eh |]. split; [exact Et |]. split; [exact Eha |]. split; [exact Ep |].
  unfold TextAnalysisService.analyzeText. fold pre. fold c. fold i.
  rewrite Et, Eh, Eha, Ep. cbn [bind tryCatch].
  eexists. split; [reflexivity |].
  cbn [analysis Analysis.hateSpeech Analysis.toxicity Analysis.harassment
       Analysis.profanity Analysis.sentiment Analysis.context Analysis.intent
       Analysis.overallRisk Analysis.confidence Analysis.flaggedWords].
  repeat split.
Qed.

(** ** Claims about single analyses *)

(** C6.  Whatever the input of [analyzeText], the intent signal [isClear] of
    the report is false: the text that reaches the intent classifier has
    only word characters and white space, so it has none of [.], [!], [?].
    Hence the confidence of the report is the one computed without the
    clarity bonus of 1.1. *)
Theorem isClear_false_in_analyzeText :
  forall (env : Env) (self : TextAnalysisService.t)
         (request : TextAnalysisService.TextAnalysisRequest),
  exists (r : ContentAnalysisResult) (self' : TextAnalysisService.t),
    TextAnalysisService.analyzeText env self request = (Ok r, self') /\
    isClear (Analysis.intent (analysis r)) = false /\
    Analysis.confidence (analysis r)
    = Aggregation.confidenceWithoutBonus env
        [ Category.score (Analysis.hateSpeech (analysis r));
          Category.score (Analysis.toxicity (analysis r));
          Category.score (Analysis.harassment (analysis r));
          Category.score (Analysis.profanity (analysis r));
          Category.score (Analysis.sentiment (analysis r)) ]
        (Analysis.context (analysis r)).
Proof.
  intros env self request.
  destruct (analyzeText_ok env self request)
    as (h & t & ha & p & self' & _ & _ & _ & _ & r & E & Hh & Ht & Hha & Hp & Hs & Hc & Hi & _ & Hconf & _).
  exists r, self'. split; [exact E |].
  assert (Clear : isClear (Analysis.intent (analysis r)) = false).
  { rewrite Hi. apply detectClarity_preprocessed. }
  split; [exact Clear |].
  rewrite Hconf, Hh, Ht, Hha, Hp.
  unfold TextAnalysisService.calculateConfidence, Aggregation.confidenceWithoutBonus.
  rewrite Clear. reflexivity.
Qed.

(** The four detectors with rules have scores in [[0,100]], and the
    sentiment score is at most 100, whatever the input. *)
Lemma category_scores_range (env : Env) (self : TextAnalysisService.t)
    (request : TextAnalysisService.TextAnalysisRequest) :
  exists (r : ContentAnalysisResult) (self' : TextAnalysisService.t),
    TextAnalysisService.analyzeText env self request = (Ok r, self') /\
    0 <= Category.score (Analysis.hateSpeech (analysis r)) <= 100 /\
    0 <= Category.score (Analysis.toxicity (analysis r)) <= 100 /\
    0 <= Category.score (Analysis.harassment (analysis r)) <= 100 /\
    0 <= Category.score (Analysis.profanity (analysis r)) <= 100 /\
    Category.score (Analysis.sentiment (analysis r)) <= 100.
Proof.
  destruct (analyzeText_ok env self request)
    as (h & t & ha & p & self' & Eh & Et & Eha & Ep & r & E & Hh & Ht & Hha & Hp & Hs & _).
  exists r, self'. split; [exact E |].
  set (pre := TextAnalysisService.preprocessText (TextAnalysisService.text request)) in *.
  set (c := ContextAnalyzer.analyze pre) in *.
  set (i := IntentAnalyzer.analyze pre) in *.
  rewrite Hh, Ht, Hha, Hp, Hs.
  repeat split.
  - destruct (analyzeHateSpeech_spec env pre c i) as (h' & Eh' & S & _).
    rewrite Eh in Eh'. injection Eh' as <-. rewrite S.
    apply clamp_range, adopt_nonneg, hateAdjust_nonneg, hateTiers_nonneg.
  - destruct (analyzeHateSpeech_spec env pre c i) as (h' & Eh' & S & _).
    rewrite Eh in Eh'. injection Eh' as <-. rewrite S.
    apply clamp_range, adopt_nonneg, hateAdjust_nonneg, hateTiers_nonneg.
  - destruct (analyzeToxicity_spec env self pre c i) as (t' & Et' & S & _).
    rewrite Et in Et'. injection Et' as <-. rewrite S. cbn [Category.score].
    apply clamp_range, toxicAdjust_nonneg, clamp_range.
    pose proof (adopt_nonneg (Steps.toxicExternal env pre)
                  (toxicFirstTiers_nonneg (TextAnalysisService.toxicityAnalyzer self) pre)).
    pose proof (toxicLastTiers_nonneg pre). lra.
  - destruct (analyzeToxicity_spec env self pre c i) as (t' & Et' & S & _).
    rewrite Et in Et'. injection Et' as <-. rewrite S. cbn [Category.score].
    apply clamp_range, toxicAdjust_nonneg, clamp_range.
    pose proof (adopt_nonneg (Steps.toxicExternal env pre)
                  (toxicFirstTiers_nonneg (TextAnalysisService.toxicityAnalyzer self) pre)).
    pose proof (toxicLastTiers_nonneg pre). lra.
  - destruct (analyzeHarassment_spec pre c i) as (ha' & Eha' & S).
    rewrite Eha in Eha'. injection Eha' as <-. rewrite S.
    apply clamp_range, harassmentAdjust_nonneg, harassmentTiers_nonneg.
  - destruct (analyzeHarassment_spec pre c i) as (ha' & Eha' & S).
    rewrite Eha in Eha'. injection Eha' as <-. rewrite S.
    apply clamp_range, harassmentAdjust_nonneg, harassmentTiers_nonneg.
  - destruct (analyzeProfanity_spec env self pre c) as (p' & v & Ep' & _ & R & S).
    rewrite Ep in Ep'. injection Ep' as <-. rewrite S.
    apply clamp_range, profanityAdjust_nonneg, R.
  - destruct (analyzeProfanity_spec env self pre c) as (p' & v & Ep' & _ & R & S).
    rewrite Ep in Ep'. injection Ep' as <-. rewrite S.
    apply clamp_range, profanityAdjust_nonneg, R.
  - apply sentiment_score_le_100.
Qed.

(** C1.  The sentiment score is not kept above 0: for the text [good], one
    positive word, the report has the sentiment score -10, in every
    environment and every state of the service.  (The sentiment analyzer
    bounds its sum by [Math.min(score, 100)] only.) *)
Theorem sentiment_score_negative_for_good :
  forall (env : Env) (self : TextAnalysisService.t),
  exists (r : ContentAnalysisResult) (self' : TextAnalysisService.t),
    TextAnalysisService.analyzeText env self {| TextAnalysisService.text := "good" |}
    = (Ok r, self') /\
    Category.score (Analysis.sentiment (analysis r)) = -10 /\
    Category.score (Analysis.sentiment (analysis r)) < 0.
Proof.
  intros env self.
  destruct (analyzeText_ok env self {| TextAnalysisService.text := "good" |})
    as (h & t & ha & p & self' & _ & _ & _ & _ & r & E & _ & _ & _ & _ & Hs & _).
  exists r, self'. split; [exact E |].
  rewrite Hs. split; [vm_compute; reflexivity | vm_compute; reflexivity].
Qed.

(** C4.  For the text [I hate all people of this race] and the classifier
    out of reach, no pattern of the direct-hate tier matches, and the report
    has hate speech not detected, with score 0. *)
Theorem hate_scenario_undetected_offline :
  forall (env : Env) (self : TextAnalysisService.t),
  exists (r : ContentAnalysisResult) (self' : TextAnalysisService.t),
    TextAnalysisService.analyzeText (offline env) self
      {| TextAnalysisService.text := "I hate all people of this race" |}
    = (Ok r, self') /\
    Steps.hits TextAnalysisService.directHate
      (TextAnalysisService.preprocessText "I hate all people of this race") = O /\
    Category.detected (Analysis.hateSpeech (analysis r)) = false /\
    Category.score (Analysis.hateSpeech (analysis r)) == 0.
Proof.
  intros env self.
  destruct (analyzeText_ok (offline env) self
              {| TextAnalysisService.text := "I hate all people of this race" |})
    as (h & t & ha & p & self' & Eh & _ & _ & _ & r & E & Hh & _).
  exists r, self'. split; [exact E |].
  split; [vm_compute; reflexivity |].
  rewrite Hh. vm_compute in Eh. injection Eh as <-.
  split; reflexivity.
Qed.

(** ** Repeated analyses *)

(** C3.  Two calls of [analyzeText] on one service with the same text give
    different reports.  For the text [I will kill you. Go away, shut up!]
    and the classifiers out of reach, the first call on a new service finds
    toxicity 45 (detected), the second toxicity 15 (not detected), in every
    environment; in the sample environment the overall risk is [warning]
    the first time and [safe] the second.  The patterns [go\s+away] and
    [shut\s+up] of the toxicity analyzer are global expressions kept in a
    field: the first call leaves their [lastIndex] behind the match, and the
    second call searches from there. *)
Theorem repeated_analysis_differs :
  (forall env : Env,
      exists (r1 r2 : ContentAnalysisResult) (self1 self2 : TextAnalysisService.t),
        TextAnalysisService.analyzeText (offline env)
          (TextAnalysisService.new (offline env))
          {| TextAnalysisService.text := "I will kill you. Go away, shut up!" |}
        = (Ok r1, self1) /\
        TextAnalysisService.analyzeText (offline env) self1
          {| TextAnalysisService.text := "I will kill you. Go away, shut up!" |}
        = (Ok r2, self2) /\
        Category.score (Analysis.toxicity (analysis r1)) == 45 /\
        Category.detected (Analysis.toxicity (analysis r1)) = true /\
        Category.score (Analysis.toxicity (analysis r2)) == 15 /\
        Category.detected (Analysis.toxicity (analysis r2)) = false) /\
  (exists (r1 r2 : ContentAnalysisResult) (self1 self2 : TextAnalysisService.t),
      TextAnalysisService.analyzeText sampleEnv (TextAnalysisService.new sampleEnv)
        {| TextAnalysisService.text := "I will kill you. Go away, shut up!" |}
      = (Ok r1, self1) /\
      TextAnalysisService.analyzeText sampleEnv self1
        {| TextAnalysisService.text := "I will kill you. Go away, shut up!" |}
      = (Ok r2, self2) /\
      Analysis.overallRisk (analysis r1) = warning /\
      Analysis.overallRisk (analysis r2) = safe).
Proof.
  split.
  - intro env.
    destruct (analyzeText_ok (offline env) (TextAnalysisService.new (offline env))
                {| TextAnalysisService.text := "I will kill you. Go away, shut up!" |})
      as (h1 & t1 & ha1 & p1 & self1 & _ & Et1 & _ & _ & r1 & E1 & _ & Ht1 & _).
    vm_compute in Et1. injection Et1 as <- <-.
    match type of E1 with
    | _ = (_, ?s) =>
        destruct (analyzeText_ok (offline env) s
                    {| TextAnalysisService.text := "I will kill you. Go away, shut up!" |})
          as (h2 & t2 & ha2 & p2 & self2 & _ & Et2 & _ & _ & r2 & E2 & _ & Ht2 & _)
    end.
    vm_compute in Et2. injection Et2 as <- <-.
    eexists r1, r2, _, _.
    split; [exact E1 |]. split; [exact E2 |].
    rewrite Ht1, Ht2. repeat split; reflexivity.
  - eexists _, _, _, _.
    split; [vm_compute; reflexivity |].
    split; [vm_compute; reflexivity |].
    split; reflexivity.
Qed.

(** ** Failure of a classifier *)

Lemma hateExternal_down (env : Env) (text : string) :
  (forall t, exists e, huggingface env t = Throw e) -> Steps.hateExternal env text = 0.
Proof.
  intro H. unfold Steps.hateExternal, TextAnalysisService.getMLHateSpeechScore.
  destruct (H text) as [e ->]. reflexivity.
Qed.

Lemma toxicExternal_down (env : Env) (text : string) :
  (forall t, exists e, perspective env t = Throw e) -> Steps.toxicExternal env text = 0.
Proof.
  intro H. unfold Steps.toxicExternal, ToxicityAnalyzer.getMLToxicityScore.
  destruct (H (Steps.clean text)) as [e ->]. reflexivity.
Qed.

Lemma hate_falls_back (env : Env) (text : string) (c : ContextAnalysis)
    (i : IntentAnalysis) (r : Category.t) :
  Steps.hateExternal env text = 0 ->
  TextAnalysisService.analyzeHateSpeech env text c i = Ok r ->
  sameCategory r (Steps.hateRuleBased text c i).
Proof.
  intros Z E.
  destruct (analyzeHateSpeech_spec env text c i) as (r' & E' & S & L & D & R).
  rewrite E in E'. injection E' as <-.
  pose proof (hateAdjust_nonneg c i (hateTiers_nonneg text)) as N.
  unfold Steps.hateMergedLast in S. rewrite Z in S, D, R.
  rewrite (adopt_zero N) in S.
  unfold sameCategory. repeat split.
  - exact S.
  - rewrite L. apply getRiskLevel_compat. exact S.
  - rewrite D. change (Num.gtb 0 30) with false. apply orb_false_r.
  - rewrite R. apply NumFacts.gtb_false in N. rewrite N. apply app_nil_r.
Qed.

Lemma toxicity_falls_back (env : Env) (self : TextAnalysisService.t) (text : string)
    (c : ContextAnalysis) (i : IntentAnalysis) (r : Category.t)
    (self' : TextAnalysisService.t) :
  Steps.toxicExternal env text = 0 ->
  TextAnalysisService.analyzeToxicity env self text c i = (Ok r, self') ->
  sameCategory r (Steps.toxicRuleBased (TextAnalysisService.toxicityAnalyzer self) text c i).
Proof.
  intros Z E.
  destruct (analyzeToxicity_spec env self text c i) as (r' & E' & S & L & D & R).
  rewrite E in E'. injection E' as <- _.
  cbn [Category.score Category.level Category.detected Category.reasoning] in S, L, D, R.
  unfold Steps.toxicUnclamped in S, L, D. rewrite Z in S, L, D.
  rewrite (adopt_zero (toxicFirstTiers_nonneg (TextAnalysisService.toxicityAnalyzer self) text))
    in S, L, D.
  unfold sameCategory, Steps.toxicRuleBased.
  cbn [Category.score Category.level Category.detected Category.reasoning].
  repeat split; assumption.
Qed.

(** C9.  When the call to a classifier throws, [analyzeText] still returns a
    report; the category of that classifier has the rule-based result; and
    the other categories are what they are when the classifier answers
    (whatever it answers).  This holds for the hate-speech classifier and
    for the toxicity classifier. *)
Theorem classifier_failure_falls_back :
  forall (env : Env) (self : TextAnalysisService.t)
         (request : TextAnalysisService.TextAnalysisRequest),
    ((forall t, exists e, huggingface env t = Throw e) ->
     exists (r : ContentAnalysisResult) (self' : TextAnalysisService.t),
       TextAnalysisService.analyzeText env self request = (Ok r, self') /\
       sameCategory (Analysis.hateSpeech (analysis r))
         (Steps.hateRuleBased (preprocessed request) (contextOf request) (intentOf request)) /\
       forall h : Q,
       exists r0 : ContentAnalysisResult,
         TextAnalysisService.analyzeText (withHate env h) self request = (Ok r0, self') /\
         sameBesidesHate (analysis r) (analysis r0)) /\
    ((forall t, exists e, perspective env t = Throw e) ->
     exists (r : ContentAnalysisResult) (self' : TextAnalysisService.t),
       TextAnalysisService.analyzeText env self request = (Ok r, self') /\
       sameCategory (Analysis.toxicity (analysis r))
         (Steps.toxicRuleBased (TextAnalysisService.toxicityAnalyzer self)
            (preprocessed request) (contextOf request) (intentOf request)) /\
       forall scores : PerspectiveScores,
       exists r0 : ContentAnalysisResult,
         TextAnalysisService.analyzeText (withToxicity env scores) self request
         = (Ok r0, self') /\
         sameBesidesToxicity (analysis r) (analysis r0)).
Proof.
  intros env self request.
  destruct (analyzeText_ok env self request)
    as (h & t & ha & p & self' & Eh & Et & Eha & Ep & r & E & Hh & Ht & Hha & Hp & Hs & _).
  fold (preprocessed request) in *. fold (contextOf request) in *.
  fold (intentOf request) in *.
  split; intro Down; exists r, self'; (split; [exact E |]).
  - split.
    + rewrite Hh. apply (hate_falls_back env _ _ _ (hateExternal_down env _ Down) Eh).
    + intro x.
      destruct (analyzeText_ok (withHate env x) self request)
        as (h0 & t0 & ha0 & p0 & self0 & _ & Et0 & Eha0 & Ep0 & r0 & E0
            & _ & Ht0 & Hha0 & Hp0 & Hs0 & _).
      fold (preprocessed request) in *. fold (contextOf request) in *.
      fold (intentOf request) in *.
      change (TextAnalysisService.analyzeToxicity (withHate env x))
        with (TextAnalysisService.analyzeToxicity env) in Et0.
      change (TextAnalysisService.analyzeProfanity (withHate env x))
        with (TextAnalysisService.analyzeProfanity env) in Ep0.
      rewrite Et in Et0. injection Et0 as <- <-.
      rewrite Eha in Eha0. injection Eha0 as <-.
      rewrite Ep in Ep0. injection Ep0 as <-.
      exists r0. split; [exact E0 |].
      unfold sameBesidesHate. rewrite Ht, Ht0, Hha, Hha0, Hp, Hp0, Hs, Hs0.
      repeat split.
  - split.
    + rewrite Ht. apply (toxicity_falls_back env self _ _ _ (toxicExternal_down env _ Down) Et).
    + intro x.
      destruct (analyzeText_ok (withToxicity env x) self request)
        as (h0 & t0 & ha0 & p0 & self0 & Eh0 & Et0 & Eha0 & Ep0 & r0 & E0
            & Hh0 & _ & Hha0 & Hp0 & Hs0 & _).
      fold (preprocessed request) in *. fold (contextOf request) in *.
      fold (intentOf request) in *.
      change (TextAnalysisService.analyzeHateSpeech (withToxicity env x))
        with (TextAnalysisService.analyzeHateSpeech env) in Eh0.
      change (TextAnalysisService.analyzeProfanity (withToxicity env x))
        with (TextAnalysisService.analyzeProfanity env) in Ep0.
      rewrite Eh in Eh0. injection Eh0 as <-.
      rewrite Eha in Eha0. injection Eha0 as <-.
      rewrite Ep in Ep0. injection Ep0 as <-.
      assert (self0 = self') as ->.
      { destruct (analyzeToxicity_spec env self (preprocessed request)
                    (contextOf request) (intentOf request)) as (x1 & X1 & _).
        destruct (analyzeToxicity_spec (withToxicity env x) self (preprocessed request)
                    (contextOf request) (intentOf request)) as (x2 & X2 & _).
        rewrite Et in X1. rewrite Et0 in X2.
        injection X1 as _ ->. injection X2 as _ ->. reflexivity. }
      exists r0. split; [exact E0 |].
      unfold sameBesidesToxicity. rewrite Hh, Hh0, Hha, Hha0, Hp, Hp0, Hs, Hs0.
      repeat split.
Qed.

Lemma classifier_failure_falls_back_witness :
  (forall t : string, exists e, huggingface sampleEnv t = Throw e) /\
  (forall t : string, exists e, perspective sampleEnv t = Throw e) /\
  exists (r : ContentAnalysisResult) (self' : TextAnalysisService.t),
    TextAnalysisService.analyzeText sampleEnv (TextAnalysisService.new sampleEnv)
      {| TextAnalysisService.text := "men are scum, go away" |} = (Ok r, self') /\
    sameCategory (Analysis.hateSpeech (analysis r))
      (Steps.hateRuleBased
         (preprocessed {| TextAnalysisService.text := "men are scum, go away" |})
         (contextOf {| TextAnalysisService.text := "men are scum, go away" |})
         (intentOf {| TextAnalysisService.text := "men are scum, go away" |})) /\
    sameCategory (Analysis.toxicity (analysis r))
      (Steps.toxicRuleBased
         (TextAnalysisService.toxicityAnalyzer (TextAnalysisService.new sampleEnv))
         (preprocessed {| TextAnalysisService.text := "men are scum, go away" |})
         (contextOf {| TextAnalysisService.text := "men are scum, go away" |})
         (intentOf {| TextAnalysisService.text := "men are scum, go away" |})).
Proof.
  assert (H1 : forall t : string, exists e, huggingface sampleEnv t = Throw e).
  { intro t. eexists. reflexivity. }
  assert (H2 : forall t : string, exists e, perspective sampleEnv t = Throw e).
  { intro t. eexists. reflexivity. }
  split; [exact H1 |]. split; [exact H2 |].
  destruct (classifier_failure_falls_back sampleEnv (TextAnalysisService.new sampleEnv)
              {| TextAnalysisService.text := "men are scum, go away" |}) as [A B].
  destruct (A H1) as (r & self' & E & S & _).
  destruct (B H2) as (r' & self'' & E' & S' & _).
  rewrite E in E'. injection E' as <- <-.
  exists r, self'. split; [exact E |]. split; [exact S | exact S'].
Defined.

(** ** The order of the steps *)

(** C2, as stated, fails: with the hate-speech classifier answering 0.2
    (20 points) on the sarcastic text [yeah right, I hate all men], the
    order of the specification merges 20 into the 40 points of the tier and
    then dampens to 12, while [analyzeHateSpeech] dampens the 40 points to
    12 and then adopts the 20. *)
Lemma hate_order_counterexample :
  exists r : Category.t,
    TextAnalysisService.analyzeHateSpeech (withHate sampleEnv 0.2)
      (preprocessed {| TextAnalysisService.text := "yeah right, I hate all men" |})
      (contextOf {| TextAnalysisService.text := "yeah right, I hate all men" |})
      (intentOf {| TextAnalysisService.text := "yeah right, I hate all men" |})
    = Ok r /\
    Category.score r == 20 /\
    Steps.hateClaimed (withHate sampleEnv 0.2)
      (preprocessed {| TextAnalysisService.text := "yeah right, I hate all men" |})
      (contextOf {| TextAnalysisService.text := "yeah right, I hate all men" |})
      (intentOf {| TextAnalysisService.text := "yeah right, I hate all men" |})
    == 12 /\
    ~ Category.score r
      == Steps.hateClaimed (withHate sampleEnv 0.2)
           (preprocessed {| TextAnalysisService.text := "yeah right, I hate all men" |})
           (contextOf {| TextAnalysisService.text := "yeah right, I hate all men" |})
           (intentOf {| TextAnalysisService.text := "yeah right, I hate all men" |}).
Proof.
  eexists. split; [vm_compute; reflexivity |].
  split; [vm_compute; reflexivity |].
  split; [vm_compute; reflexivity |].
  vm_compute. discriminate.
Qed.

(** C2, amended.  Every detector takes its steps in a fixed order, on the
    running score:
    - hate speech: tiers, dampening (0.3, then 0.2), amplification (1.5),
      then the external merge, then the clamp;
    - toxicity: the keyword and pattern tiers, the external merge, the
      sentiment and aggression tiers, a clamp, dampening (0.4, then 0.3),
      amplification (1.3), the clamp;
    - harassment: tiers, dampening (0.2), amplification (1.4), the clamp;
    - profanity: the score of the filter, dampening (0.3, 0.4, 0.1), the
      clamp. *)
Theorem detector_step_order :
  forall (env : Env) (self : TextAnalysisService.t) (text : string)
         (c : ContextAnalysis) (i : IntentAnalysis),
    (exists r : Category.t,
        TextAnalysisService.analyzeHateSpeech env text c i = Ok r /\
        Category.score r
        == Steps.clamp
             (Steps.adopt (Steps.hateExternal env text)
                (Steps.scaleIf (isThreatening i) 1.5
                   (Steps.scaleIf (isEducational c || isHistorical c) 0.2
                      (Steps.scaleIf (isSarcastic c || isIronic c) 0.3
                         (Steps.hateTiers text)))))) /\
    (exists (r : Category.t) (self' : TextAnalysisService.t),
        TextAnalysisService.analyzeToxicity env self text c i = (Ok r, self') /\
        Category.score r
        == Steps.clamp
             (Steps.scaleIf (isAggressive i || isHostile i) 1.3
                (Steps.scaleIf (isPlayful c || isFriendly c) 0.3
                   (Steps.scaleIf (isSarcastic c || isIronic c) 0.4
                      (Steps.clamp
                         (Steps.adopt (Steps.toxicExternal env text)
                            (Steps.toxicFirstTiers
                               (TextAnalysisService.toxicityAnalyzer self) text)
                          + Steps.toxicLastTiers text)))))) /\
    (exists r : Category.t,
        TextAnalysisService.analyzeHarassment text c i = Ok r /\
        Category.score r
        == Steps.clamp
             (Steps.scaleIf (isThreatening i) 1.4
                (Steps.scaleIf (isSarcastic c || isIronic c) 0.2
                   (Steps.harassmentTiers text)))) /\
    (exists (r : Category.t) (filterScore : Q),
        TextAnalysisService.analyzeProfanity env self text c = Ok r /\
        ProfanityFilter.analyze env (TextAnalysisService.profanityFilter self) text
        = Ok filterScore /\
        Category.score r
        == Steps.clamp
             (Steps.scaleIf (isEducational c || isHistorical c) 0.1
                (Steps.scaleIf (isPlayful c || isFriendly c) 0.4
                   (Steps.scaleIf (isSarcastic c || isIronic c) 0.3 filterScore)))).
Proof.
  intros env self text c i. repeat split.
  - destruct (analyzeHateSpeech_spec env text c i) as (r & E & S & _).
    exists r. split; [exact E | exact S].
  - destruct (analyzeToxicity_spec env self text c i) as (r & E & S & _).
    eexists r, _. split; [exact E | exact S].
  - destruct (analyzeHarassment_spec text c i) as (r & E & S).
    exists r. split; [exact E | exact S].
  - destruct (analyzeProfanity_spec env self text c) as (r & v & E & F & _ & S).
    exists r, v. split; [exact E |]. split; [exact F |]. rewrite S. reflexivity.
Qed.

(** ** The merge of image and text sub-results *)

Lemma max_Qmax (a b : Q) : Num.max a b == Qmax a b.
Proof.
  destruct (NumFacts.max_spec a b) as [[L ->] | [L ->]].
  - symmetry. apply Q.max_l. exact L.
  - symmetry. apply Q.max_r. apply Qlt_le_weak. exact L.
Qed.

Lemma combineCategory_merged (image : ImageAnalysisService.Scored) (text : Category.t) :
  Merge.category image text (ImageAnalysisService.combineCategory image text).
Proof.
  unfold Merge.category, ImageAnalysisService.combineCategory.
  cbn [ImageAnalysisService.score ImageAnalysisService.level ImageAnalysisService.detected].
  split; [apply max_Qmax |]. split; [| reflexivity].
  f_equal. change ImageAnalysisService.getRiskLevel with getRiskLevel.
  apply getRiskLevel_compat, max_Qmax.
Qed.

(** C10, as stated, fails on the confidence: the sample image answer has
    confidence 85, the text [A picture of a sunset] has confidence 100, and
    the merged confidence is 93, not the average 92.5. *)
Lemma merged_confidence_counterexample :
  exists (r : ContentAnalysisResult) (self' : TextAnalysisService.t),
    TextAnalysisService.analyzeText sampleEnv (TextAnalysisService.new sampleEnv)
      {| TextAnalysisService.text := "A picture of a sunset" |} = (Ok r, self') /\
    Analysis.confidence (analysis r) == 100 /\
    ImageAnalysisService.confidence
      (ImageAnalysisService.combineImageAndTextAnalysis sampleImage (Some (analysis r)))
    == 93 /\
    ~ ImageAnalysisService.confidence
        (ImageAnalysisService.combineImageAndTextAnalysis sampleImage (Some (analysis r)))
      == Merge.average (ImageAnalysisService.confidence sampleImage)
                       (Analysis.confidence (analysis r)).
Proof.
  eexists _, _. split; [vm_compute; reflexivity |].
  split; [vm_compute; reflexivity |].
  split; [vm_compute; reflexivity |].
  vm_compute. discriminate.
Qed.

(** C10, amended.  In the merge of an image sub-result with a text
    sub-result, every category (hate speech, toxicity, harassment,
    profanity) has the maximum of the two scores, the level of that maximum
    and the disjunction of the two [detected] flags; the confidence is the
    average of the two confidences rounded to the nearest integer. *)
Theorem merge_takes_maximum_and_rounded_average :
  forall (image : ImageAnalysisService.ImageAnalysis) (text : Analysis.t),
    Merge.category (ImageAnalysisService.hateSpeech image) (Analysis.hateSpeech text)
      (ImageAnalysisService.hateSpeech
         (ImageAnalysisService.combineImageAndTextAnalysis image (Some text))) /\
    Merge.category (ImageAnalysisService.toxicity image) (Analysis.toxicity text)
      (ImageAnalysisService.toxicity
         (ImageAnalysisService.combineImageAndTextAnalysis image (Some text))) /\
    Merge.category (ImageAnalysisService.harassment image) (Analysis.harassment text)
      (ImageAnalysisService.harassment
         (ImageAnalysisService.combineImageAndTextAnalysis image (Some text))) /\
    Merge.category (ImageAnalysisService.profanity image) (Analysis.profanity text)
      (ImageAnalysisService.profanity
         (ImageAnalysisService.combineImageAndTextAnalysis image (Some text))) /\
    Merge.nearestInteger
      (Merge.average (ImageAnalysisService.confidence image) (Analysis.confidence text))
      (ImageAnalysisService.confidence
         (ImageAnalysisService.combineImageAndTextAnalysis image (Some text))).
Proof.
  intros image text.
  cbn [ImageAnalysisService.combineImageAndTextAnalysis
       ImageAnalysisService.hateSpeech ImageAnalysisService.toxicity
       ImageAnalysisService.harassment ImageAnalysisService.profanity
       ImageAnalysisService.confidence].
  repeat (split; [apply combineCategory_merged |]).
  unfold Merge.nearestInteger, Merge.average. split.
  - eexists. reflexivity.
  - apply NumFacts.round_spec.
Qed.

(** * Further properties of the text pipeline *)

(** ** The shape of a preprocessed text *)

Lemma str_forallb_map (p : ascii -> bool) (f : ascii -> ascii) (s : string) :
  (forall c, p (f c) = true) -> Str.forallb p (Str.map f s) = true.
Proof.
  intro H. induction s as [| c s IH]; simpl.
  - reflexivity.
  - rewrite H, IH. reflexivity.
Qed.

Lemma str_forallb_impl (p q : ascii -> bool) (s : string) :
  (forall c, p c = true -> q c = true) ->
  Str.forallb p s = true -> Str.forallb q s = true.
Proof.
  intro H. induction s as [| c s IH]; simpl; intro A.
  - reflexivity.
  - apply andb_true_iff in A. destruct A as [A1 A2].
    rewrite (H c A1), (IH A2). reflexivity.
Qed.

Lemma toLower_notCapital (c : ascii) : notCapital (Char.toLower c) = true.
Proof. destruct c as [[] [] [] [] [] [] [] []]; vm_compute; reflexivity. Qed.

Lemma collapseSpaces_forallb (p : ascii -> bool) (s : string) :
  p " "%char = true -> Str.forallb p s = true ->
  forall inRun,
    Str.forallb (fun c => (p c && blankIfSpace c)%bool) (Str.collapseSpaces inRun s) = true.
Proof.
  intros Hsp. induction s as [| c s IH]; simpl; intros H inRun.
  - reflexivity.
  - apply andb_true_iff in H. destruct H as [Hc Hs].
    destruct (Char.isSpace c) eqn:Sp.
    + destruct inRun; simpl.
      * apply IH, Hs.
      * rewrite Hsp, (IH Hs). reflexivity.
    + simpl. rewrite Hc, (IH Hs). unfold blankIfSpace. rewrite Sp. reflexivity.
Qed.

Lemma blank_plain (c : ascii) :
  (notCapital c && blankIfSpace c)%bool = true ->
  plainChar (if (Char.isWord c || Char.isSpace c)%bool then c else " "%char) = true.
Proof. destruct c as [[] [] [] [] [] [] [] []]; vm_compute; congruence. Qed.

Lemma blankSpecials_plain (s : string) :
  Str.forallb (fun c => (notCapital c && blankIfSpace c)%bool) s = true ->
  Str.forallb plainChar (Str.blankSpecials s) = true.
Proof.
  unfold Str.blankSpecials. induction s as [| c s IH]; simpl; intro H.
  - reflexivity.
  - apply andb_true_iff in H. destruct H as [Hc Hs].
    rewrite (blank_plain c Hc), (IH Hs). reflexivity.
Qed.

Lemma trim_forallb (p : ascii -> bool) (s : string) :
  Str.forallb p s = true -> Str.forallb p (Str.trim s) = true.
Proof. intro H. apply trimEnd_forallb, trimStart_forallb, H. Qed.

Lemma trimStart_startsClean (s : string) : startsClean (Str.trimStart s) = true.
Proof.
  induction s as [| c s IH]; simpl.
  - reflexivity.
  - destruct (Char.isSpace c) eqn:Sp; [exact IH | simpl; rewrite Sp; reflexivity].
Qed.

Lemma trimStart_clean (s : string) : startsClean s = true -> Str.trimStart s = s.
Proof.
  destruct s as [| c s]; simpl; intro H.
  - reflexivity.
  - apply negb_true_iff in H. rewrite H. reflexivity.
Qed.

Lemma trimEnd_startsClean (s : string) :
  startsClean s = true -> startsClean (Str.trimEnd s) = true.
Proof.
  destruct s as [| c s]; simpl; intro H.
  - reflexivity.
  - destruct (Str.trimEnd s).
    + apply negb_true_iff in H. rewrite H. simpl. rewrite H. reflexivity.
    + simpl. exact H.
Qed.

Lemma trimEnd_idempotent (s : string) : Str.trimEnd (Str.trimEnd s) = Str.trimEnd s.
Proof.
  induction s as [| c s IH]; simpl.
  - reflexivity.
  - destruct (Str.trimEnd s) as [| d t] eqn:E.
    + destruct (Char.isSpace c) eqn:Sp; simpl; [reflexivity | rewrite Sp; reflexivity].
    + change (Str.trimEnd (String c (String d t)) = String c (String d t)).
      simpl. simpl in IH. rewrite IH. reflexivity.
Qed.

Lemma trim_idempotent (s : string) : Str.trim (Str.trim s) = Str.trim s.
Proof.
  unfold Str.trim.
  rewrite (trimStart_clean _ (trimEnd_startsClean _ (trimStart_startsClean s))).
  apply trimEnd_idempotent.
Qed.

(** X1.  A preprocessed text has only the code units [a-z], [0-9], [_] and
    the space, and has no white space at its ends: whatever the request,
    capitals, punctuation, apostrophes, tabs and line ends are gone before
    any classifier or detector sees the text. *)
Theorem preprocessText_plain_and_trimmed :
  forall text : string,
    Str.forallb plainChar (TextAnalysisService.preprocessText text) = true /\
    trimmed (TextAnalysisService.preprocessText text).
Proof.
  intro text. unfold TextAnalysisService.preprocessText. split.
  - apply trim_forallb, blankSpecials_plain.
    apply collapseSpaces_forallb; [reflexivity |].
    apply trim_forallb. unfold Str.toLowerCase.
    apply str_forallb_map, toLower_notCapital.
  - unfold trimmed. apply trim_idempotent.
Qed.

(** ** Patterns that cannot match a preprocessed text *)

Lemma in_allAscii (a : ascii) : In a Dead.allAscii.
Proof.
  unfold Dead.allAscii. rewrite <- (ascii_nat_embedding a).
  apply in_map, in_seq. pose proof (nat_ascii_bounded a). lia.
Qed.

Lemma avoids_sound (ok : ascii -> bool) (ic : bool) (k : cls) (a : ascii) :
  Dead.avoids ok ic k = true -> ok a = true -> clsMatches ic k a = false.
Proof.
  unfold Dead.avoids. rewrite forallb_forall. intros H Ha.
  specialize (H a (in_allAscii a)). rewrite Ha in H. simpl in H.
  apply negb_true_iff. exact H.
Qed.

Section DeadPatterns.

Variable ok : ascii -> bool.
Variable ic : bool.

Lemma many_fails (k : cls) (cont : string -> option string) :
  Dead.fails ok cont -> Dead.fails ok (fun s => many ic k s cont).
Proof.
  intros Hc s. induction s as [| a s IH]; simpl; intro H.
  - apply Hc. reflexivity.
  - pose proof H as H'. apply andb_true_iff in H'. destruct H' as [_ Hs].
    destruct (clsMatches ic k a).
    + rewrite (IH Hs). apply Hc. exact H.
    + apply Hc. exact H.
Qed.

Lemma run_fails (r : regex) :
  forall cont, Dead.fails ok cont -> Dead.fails ok (fun s => run ic r s cont).
Proof.
  induction r as [| k | r1 IH1 r2 IH2 | r1 IH1 r2 IH2 | r1 IH1 | k |];
    intros cont Hc s H; simpl.
  - apply Hc, H.
  - destruct s as [| a s]; [reflexivity |].
    simpl in H. apply andb_true_iff in H. destruct H as [_ Hs].
    destruct (clsMatches ic k a); [apply Hc, Hs | reflexivity].
  - apply (IH1 (fun s' => run ic r2 s' cont)); [| exact H].
    apply IH2, Hc.
  - rewrite (IH1 cont Hc s H). apply (IH2 cont Hc s H).
  - rewrite (IH1 cont Hc s H). apply Hc, H.
  - destruct s as [| a s]; [reflexivity |].
    simpl in H. apply andb_true_iff in H. destruct H as [_ Hs].
    destruct (clsMatches ic k a); [apply (many_fails k Hc), Hs | reflexivity].
  - reflexivity.
Qed.

Lemma run_demands (r : regex) :
  Dead.demands ok ic r = true ->
  forall cont s, Str.forallb ok s = true -> run ic r s cont = None.
Proof.
  induction r as [| k | r1 IH1 r2 IH2 | r1 IH1 r2 IH2 | r1 IH1 | k |];
    simpl; intros D cont s H; try discriminate.
  - destruct s as [| a s]; [reflexivity |].
    simpl in H. apply andb_true_iff in H. destruct H as [Ha _].
    rewrite (avoids_sound ok ic k a D Ha). reflexivity.
  - apply orb_true_iff in D. destruct D as [D | D].
    + apply IH1; assumption.
    + apply (run_fails r1 (cont := fun s' => run ic r2 s' cont)); [| exact H].
      intros s' H'. apply IH2; assumption.
  - apply andb_true_iff in D. destruct D as [D1 D2].
    rewrite (IH1 D1 cont s H). apply (IH2 D2 cont s H).
  - destruct s as [| a s]; [reflexivity |].
    simpl in H. apply andb_true_iff in H. destruct H as [Ha _].
    rewrite (avoids_sound ok ic k a D Ha). reflexivity.
  - reflexivity.
Qed.

Lemma search_demands (r : regex) (s : string) :
  Dead.demands ok ic r = true -> Str.forallb ok s = true -> search ic r s = None.
Proof.
  intro D. induction s as [| a s IH]; intro H.
  - simpl. unfold matchAt. rewrite (run_demands r D Some EmptyString H). reflexivity.
  - simpl. unfold matchAt. rewrite (run_demands r D Some (String a s) H).
    simpl in H. apply andb_true_iff in H. destruct H as [_ Hs]. apply IH, Hs.
Qed.

End DeadPatterns.

Lemma drop_forallb (p : ascii -> bool) (n : nat) :
  forall s, Str.forallb p s = true -> Str.forallb p (Str.drop n s) = true.
Proof.
  induction n as [| n IH]; intros s H.
  - destruct s; exact H.
  - destruct s as [| c s]; simpl.
    + reflexivity.
    + simpl in H. apply andb_true_iff in H. destruct H as [_ Hs]. apply IH, Hs.
Qed.

(** An expression whose shape demands a code unit that the text cannot
    have fails, whatever its [lastIndex]. *)
Lemma dead_never_matches (ok : ascii -> bool) (re : RegExp) (s : string) :
  Dead.dead ok re = true -> Str.forallb ok s = true -> testFresh re s = false.
Proof.
  unfold Dead.dead, testFresh, test. intros D H.
  destruct (global re).
  - destruct (Nat.ltb (String.length s) (lastIndex re)); [reflexivity |].
    rewrite (search_demands ok (ignoreCase re) (source re) _ D
               (drop_forallb ok (lastIndex re) s H)).
    reflexivity.
  - rewrite (search_demands ok (ignoreCase re) (source re) s D H). reflexivity.
Qed.

Lemma toLower_wordOrSpace (c : ascii) :
  wordOrSpace c = true -> wordOrSpace (Char.toLower c) = true.
Proof. destruct c as [[] [] [] [] [] [] [] []]; vm_compute; congruence. Qed.

Lemma toLowerCase_wordOrSpace (s : string) :
  Str.forallb wordOrSpace s = true ->
  Str.forallb wordOrSpace (Str.toLowerCase s) = true.
Proof.
  unfold Str.toLowerCase. induction s as [| c s IH]; simpl; intro H.
  - reflexivity.
  - apply andb_true_iff in H. destruct H as [Hc Hs].
    rewrite (toLower_wordOrSpace c Hc), (IH Hs). reflexivity.
Qed.

(** The text that the toxicity analyzer and the profanity filter clean for
    themselves is again made of word characters and white space. *)
Lemma clean_preprocessed_wordOrSpace (text : string) :
  Str.forallb wordOrSpace (Steps.clean (TextAnalysisService.preprocessText text)) = true.
Proof.
  unfold Steps.clean.
  apply trim_forallb, toLowerCase_wordOrSpace, preprocessText_wordOrSpace.
Qed.

(** X2.  The four patterns written with an apostrophe are in the tables of
    the detectors (indirect hate, intimidation, negative sentiment and
    aggression of the toxicity analyzer), and none of them ever matches
    inside [analyzeText]: preprocessing has replaced every apostrophe by a
    space before the detectors run. *)
Theorem apostrophe_patterns_never_match :
  In dontBelong TextAnalysisService.indirectHate /\
  In cantHide TextAnalysisService.intimidation /\
  In cantStand ToxicityAnalyzer.negativePatterns /\
  In letsFight ToxicityAnalyzer.aggressivePatterns /\
  forall text : string,
    testFresh dontBelong (TextAnalysisService.preprocessText text) = false /\
    testFresh cantHide (TextAnalysisService.preprocessText text) = false /\
    testFresh cantStand (Steps.clean (TextAnalysisService.preprocessText text)) = false /\
    testFresh letsFight (Steps.clean (TextAnalysisService.preprocessText text)) = false.
Proof.
  split; [vm_compute; tauto |].
  split; [vm_compute; tauto |].
  split; [vm_compute; tauto |].
  split; [vm_compute; tauto |].
  intro text.
  pose proof (preprocessText_wordOrSpace text) as P.
  pose proof (clean_preprocessed_wordOrSpace text) as C.
  repeat split; apply (dead_never_matches wordOrSpace); solve [vm_compute; reflexivity | assumption].
Qed.

(** ** Punctuation and sentiment inside [analyzeText] *)

Lemma count_none (ok p : ascii -> bool) (s : string) :
  (forall c, ok c = true -> p c = false) ->
  Str.forallb ok s = true -> Str.count p s = O.
Proof.
  intro H. induction s as [| c s IH]; simpl; intro A.
  - reflexivity.
  - apply andb_true_iff in A. destruct A as [Ac As].
    rewrite (H c Ac). apply IH, As.
Qed.

Lemma wordOrSpace_not_exclamation (c : ascii) :
  wordOrSpace c = true -> Ascii.eqb "!" c = false.
Proof. destruct c as [[] [] [] [] [] [] [] []]; vm_compute; congruence. Qed.

Lemma wordOrSpace_not_question (c : ascii) :
  wordOrSpace c = true -> Ascii.eqb "?" c = false.
Proof. destruct c as [[] [] [] [] [] [] [] []]; vm_compute; congruence. Qed.

(** X3.  Inside [analyzeText] no exclamation mark and no question mark is
    left to count: the counts that feed the intensity bonus of the sentiment
    analyzer and the punctuation bonuses of [analyzeSentiment] in the
    toxicity analyzer are 0, and the pattern [\w+!{2,}] of the profanity
    filter never matches. *)
Theorem punctuation_signals_never_fire :
  forall text : string,
    Str.count (Ascii.eqb "!") (TextAnalysisService.preprocessText text) = O /\
    Str.count (Ascii.eqb "!") (Steps.clean (TextAnalysisService.preprocessText text)) = O /\
    Str.count (Ascii.eqb "?") (Steps.clean (TextAnalysisService.preprocessText text)) = O /\
    testFresh ProfanityFilter.shouting
      (Steps.clean (TextAnalysisService.preprocessText text)) = false.
Proof.
  intro text.
  pose proof (preprocessText_wordOrSpace text) as P.
  pose proof (clean_preprocessed_wordOrSpace text) as C.
  split; [apply (count_none wordOrSpace _ _ wordOrSpace_not_exclamation P) |].
  split; [apply (count_none wordOrSpace _ _ wordOrSpace_not_exclamation C) |].
  split; [apply (count_none wordOrSpace _ _ wordOrSpace_not_question C) |].
  apply (dead_never_matches wordOrSpace); [vm_compute; reflexivity | exact C].
Qed.

Lemma ofNat_succ (n : nat) : Num.ofNat (S n) == Num.ofNat n + 1.
Proof.
  unfold Num.ofNat. rewrite Nat2Z.inj_succ, <- Z.add_1_r, inject_Z_plus.
  reflexivity.
Qed.

(** The loop over the words: 15 points for every negative word, 10 points
    off for every positive word, one message for each. *)
Lemma visit_fold (words : list string) :
  forall (score : Q) (reasoning : list string),
    fst (fold_left SentimentAnalyzer.visit words (score, reasoning))
    == score + 15 * Num.ofNat (countIn SentimentAnalyzer.negativeWords words)
             - 10 * Num.ofNat (countIn SentimentAnalyzer.positiveWords words) /\
    forall m, In m (snd (fold_left SentimentAnalyzer.visit words (score, reasoning))) ->
              In m reasoning \/ m = "Positive sentiment detected"
              \/ m = "Negative sentiment detected".
Proof.
  unfold countIn.
  induction words as [| w ws IH]; intros score reasoning.
  - simpl. split; [unfold Num.ofNat; simpl; ring | auto].
  - cbn [fold_left List.filter].
    unfold SentimentAnalyzer.visit at 2 4.
    destruct (Str.mem w SentimentAnalyzer.positiveWords) eqn:P;
      destruct (Str.mem w SentimentAnalyzer.negativeWords) eqn:N;
      cbn [List.length];
      match goal with
      | |- context [fold_left SentimentAnalyzer.visit ws (?s, ?r)] =>
          destruct (IH s r) as [E M]
      end;
      (split;
       [ rewrite E, ?ofNat_succ; ring
       | intros m Hm; destruct (M m Hm) as [H | H]; [| auto];
         unfold push in H; rewrite ?in_app_iff in H; simpl in H; intuition ]).
Qed.

Lemma gtb_min_100 (s t : Q) : t < 100 -> Num.gtb (Num.min s 100) t = Num.gtb s t.
Proof.
  intro H. destruct (NumFacts.min_spec s 100) as [[L ->] | [L ->]]; [reflexivity |].
  rewrite (proj2 (NumFacts.gtb_true 100 t) H).
  symmetry. apply NumFacts.gtb_true. lra.
Qed.

Lemma getRiskLevel_min_100 (s : Q) : getRiskLevel (Num.min s 100) = getRiskLevel s.
Proof.
  destruct (NumFacts.min_spec s 100) as [[L ->] | [L ->]]; [reflexivity |].
  destruct (getRiskLevel_cases s) as [[A ->] | [[A ->] | [[A ->] | [A ->]]]];
    solve [reflexivity | exfalso; lra].
Qed.

(** X4.  In every report the sentiment score is [min(15 N - 10 P, 100)],
    where [N] and [P] count the words of the preprocessed text that are in
    the negative and in the positive list; exclamation marks play no role,
    and sentiment is detected only when there are at least two negative
    words. *)
Theorem sentiment_counts_words :
  forall (env : Env) (self : TextAnalysisService.t)
         (request : TextAnalysisService.TextAnalysisRequest),
  exists (r : ContentAnalysisResult) (self' : TextAnalysisService.t),
    TextAnalysisService.analyzeText env self request = (Ok r, self') /\
    Category.score (Analysis.sentiment (analysis r))
    == Num.min
         (15 * Num.ofNat (countIn SentimentAnalyzer.negativeWords
                            (Str.split (preprocessed request)))
          - 10 * Num.ofNat (countIn SentimentAnalyzer.positiveWords
                              (Str.split (preprocessed request))))
         100 /\
    (Category.detected (Analysis.sentiment (analysis r)) = true ->
     (2 <= countIn SentimentAnalyzer.negativeWords (Str.split (preprocessed request)))%nat).
Proof.
  intros env self request.
  destruct (analyzeText_ok env self request)
    as (h & t & ha & p & self' & _ & _ & _ & _ & r & E & _ & _ & _ & _ & Hs & _).
  exists r, self'. split; [exact E |].
  rewrite Hs. unfold SentimentAnalyzer.analyze.
  rewrite (count_none wordOrSpace _ _ wordOrSpace_not_exclamation
             (preprocessText_wordOrSpace (TextAnalysisService.text request))).
  fold (preprocessed request).
  change (Nat.ltb 2 0) with false. cbv iota.
  destruct (visit_fold (Str.split (preprocessed request)) 0 []) as [F _].
  destruct (fold_left SentimentAnalyzer.visit (Str.split (preprocessed request)) (0, []))
    as [s m].
  cbn [fst] in F. cbn [Category.score Category.detected].
  set (N := countIn SentimentAnalyzer.negativeWords (Str.split (preprocessed request))) in *.
  set (P := countIn SentimentAnalyzer.positiveWords (Str.split (preprocessed request))) in *.
  split.
  - apply NumFacts.min_compat. rewrite F. ring.
  - intro D. apply NumFacts.gtb_true in D. rewrite F in D.
    pose proof (NumFacts.ofNat_nonneg P) as HP.
    destruct (Nat.le_gt_cases 2 N) as [G | G]; [exact G | exfalso].
    assert (HN : Num.ofNat N <= 1).
    { unfold Num.ofNat. change 1 with (inject_Z 1). rewrite <- Zle_Qle. lia. }
    lra.
Qed.

Lemma sentiment_counts_words_witness :
  exists (r : ContentAnalysisResult) (self' : TextAnalysisService.t),
    TextAnalysisService.analyzeText sampleEnv (TextAnalysisService.new sampleEnv)
      {| TextAnalysisService.text := "A bad, awful day!" |} = (Ok r, self') /\
    Category.detected (Analysis.sentiment (analysis r)) = true /\
    (2 <= countIn SentimentAnalyzer.negativeWords
            (Str.split (preprocessed {| TextAnalysisService.text := "A bad, awful day!" |})))%nat.
Proof.
  destruct (sentiment_counts_words sampleEnv (TextAnalysisService.new sampleEnv)
              {| TextAnalysisService.text := "A bad, awful day!" |})
    as (r & self' & E & _ & D).
  exists r, self'. split; [exact E |].
  assert (T : Category.detected (Analysis.sentiment (analysis r)) = true).
  { vm_compute in E. injection E as <- _. reflexivity. }
  split; [exact T | exact (D T)].
Defined.

(** ** Flagged words and the reasoning trace *)

Lemma mem_In (x : string) (l : list string) : Str.mem x l = true <-> In x l.
Proof.
  unfold Str.mem. rewrite existsb_exists. split.
  - intros [y [Hy E]]. apply String.eqb_eq in E. subst. exact Hy.
  - intro H. exists x. split; [exact H | apply String.eqb_refl].
Qed.

Lemma dedupFrom_In (l : list string) :
  forall seen x, In x (Str.dedupFrom seen l) <-> In x l /\ ~ In x seen.
Proof.
  induction l as [| y l IH]; intros seen x; simpl.
  - tauto.
  - destruct (Str.mem y seen) eqn:M.
    + apply mem_In in M. rewrite IH. split.
      * intros [A B]. auto.
      * intros [[A | A] B]; [subst; contradiction | auto].
    + assert (N : ~ In y seen).
      { intro A. apply mem_In in A. congruence. }
      simpl. rewrite IH. simpl. split.
      * intros [A | [A B]]; [subst; auto | split; [auto | tauto]].
      * intros [[A | A] B]; [auto |].
        destruct (string_dec y x) as [-> | D]; [auto | right; split; [exact A |]].
        intros [F | F]; [contradiction | contradiction].
Qed.

Lemma dedupFrom_NoDup (l : list string) : forall seen, NoDup (Str.dedupFrom seen l).
Proof.
  induction l as [| y l IH]; intro seen; simpl.
  - constructor.
  - destruct (Str.mem y seen).
    + apply IH.
    + constructor; [| apply IH].
      rewrite dedupFrom_In. simpl. tauto.
Qed.

Lemma dedup_In (l : list string) (x : string) : In x (Str.dedup l) <-> In x l.
Proof. unfold Str.dedup. rewrite dedupFrom_In. simpl. tauto. Qed.

Lemma dedup_NoDup (l : list string) : NoDup (Str.dedup l).
Proof. apply dedupFrom_NoDup. Qed.

(** X5.  [extractFlaggedWords] returns, without duplicates, exactly the
    words of the text (its pieces between white space) that contain one of
    the eight keywords as a substring. *)
Theorem extractFlaggedWords_exact :
  forall text : string,
    NoDup (TextAnalysisService.extractFlaggedWords text) /\
    forall w : string,
      In w (TextAnalysisService.extractFlaggedWords text) <->
      In w (Str.split text) /\
      exists keyword, In keyword TextAnalysisService.allKeywords /\
                      Str.includes w keyword = true.
Proof.
  intro text. unfold TextAnalysisService.extractFlaggedWords. split.
  - apply dedup_NoDup.
  - intro w. rewrite dedup_In, filter_In, existsb_exists. tauto.
Qed.

(** X6.  The reasoning trace of a report has no duplicates and holds
    exactly the messages of the hate-speech, toxicity, harassment and
    profanity results; the messages of the sentiment result are left out. *)
Theorem generateReasoning_exact :
  forall (hateSpeech toxicity harassment profanity sentiment : Category.t),
    NoDup (TextAnalysisService.generateReasoning
             hateSpeech toxicity harassment profanity sentiment) /\
    forall m : string,
      In m (TextAnalysisService.generateReasoning
              hateSpeech toxicity harassment profanity sentiment) <->
      In m (Category.reasoning hateSpeech) \/ In m (Category.reasoning toxicity) \/
      In m (Category.reasoning harassment) \/ In m (Category.reasoning profanity).
Proof.
  intros h t ha p s. unfold TextAnalysisService.generateReasoning. split.
  - apply dedup_NoDup.
  - intro m. rewrite dedup_In, !in_app_iff. tauto.
Qed.

Lemma extractFlaggedWords_exact_witness :
  (In "haters" (Str.split "haters gonna hate") /\
   exists keyword, In keyword TextAnalysisService.allKeywords /\
                   Str.includes "haters" keyword = true) /\
  In "haters" (TextAnalysisService.extractFlaggedWords "haters gonna hate").
Proof.
  assert (H : In "haters" (Str.split "haters gonna hate") /\
              exists keyword, In keyword TextAnalysisService.allKeywords /\
                              Str.includes "haters" keyword = true).
  { split; [left; reflexivity |].
    exists "hate". split; [left; reflexivity | reflexivity]. }
  split; [exact H |].
  exact (proj2 (proj2 (extractFlaggedWords_exact "haters gonna hate") "haters") H).
Defined.

Lemma generateReasoning_exact_witness :
  In "Direct hate speech pattern detected"
     (Category.reasoning (Analysis.hateSpeech (analysis_of sampleReport))) /\
  In "Direct hate speech pattern detected"
     (TextAnalysisService.generateReasoning
        (Analysis.hateSpeech (analysis_of sampleReport))
        (Analysis.toxicity (analysis_of sampleReport))
        (Analysis.harassment (analysis_of sampleReport))
        (Analysis.profanity (analysis_of sampleReport))
        (Analysis.sentiment (analysis_of sampleReport))).
Proof.
  assert (H : In "Direct hate speech pattern detected"
                 (Category.reasoning (Analysis.hateSpeech (analysis_of sampleReport))))
    by (left; reflexivity).
  split; [exact H |].
  apply (proj2 (generateReasoning_exact
                  (Analysis.hateSpeech (analysis_of sampleReport))
                  (Analysis.toxicity (analysis_of sampleReport))
                  (Analysis.harassment (analysis_of sampleReport))
                  (Analysis.profanity (analysis_of sampleReport))
                  (Analysis.sentiment (analysis_of sampleReport)))).
  left. exact H.
Defined.

(** ** Confidence, levels and detection flags of a report *)

Lemma round_le_integer (x : Q) (n : Z) : x <= inject_Z n -> Num.round x <= inject_Z n.
Proof.
  intro H. unfold Num.round. rewrite <- Zle_Qle.
  assert (L : (Qfloor (x + (1 # 2)) < n + 1)%Z).
  { rewrite Zlt_Qlt. apply Qle_lt_trans with (x + (1 # 2)); [apply Qfloor_le |].
    rewrite inject_Z_plus. change (inject_Z 1) with 1. lra. }
  lia.
Qed.


Lemma scaleIf_pos (condition : bool) (f s : Q) :
  0 < f -> 0 < s -> 0 < Steps.scaleIf condition f s.
Proof. intros. unfold Steps.scaleIf. destruct condition; nra. Qed.

Lemma scaleIf_zero (condition : bool) (f s : Q) :
  s == 0 -> Steps.scaleIf condition f s == 0.
Proof. intro E. unfold Steps.scaleIf. destruct condition; rewrite E; ring. Qed.

Lemma ofNat_pos (n : nat) : (0 < n)%nat -> 1 <= Num.ofNat n.
Proof.
  intro H. unfold Num.ofNat. change 1 with (inject_Z 1). rewrite <- Zle_Qle. lia.
Qed.

(** The harassment result, field by field. *)
Lemma analyzeHarassment_fields (text : string) (c : ContextAnalysis) (i : IntentAnalysis) :
  exists r : Category.t,
    TextAnalysisService.analyzeHarassment text c i = Ok r /\
    Category.score r
    == Steps.clamp (Steps.harassmentAdjust c i (Steps.harassmentTiers text)) /\
    Category.level r = getRiskLevel (Category.score r) /\
    Category.detected r
    = negb (Nat.eqb (Steps.hits TextAnalysisService.directThreats text +
                     Steps.hits TextAnalysisService.stalking text +
                     Steps.hits TextAnalysisService.intimidation text +
                     Steps.hits TextAnalysisService.cyberbullying text) 0).
Proof.
  destruct (analyzeHarassment_spec text c i) as (r & E & S).
  exists r. split; [exact E |]. split; [exact S |].
  revert E. unfold TextAnalysisService.analyzeHarassment.
  repeat (rewrite tier_spec; cbv beta iota zeta).
  set (h1 := Steps.hits TextAnalysisService.directThreats text).
  set (h2 := Steps.hits TextAnalysisService.stalking text).
  set (h3 := Steps.hits TextAnalysisService.intimidation text).
  set (h4 := Steps.hits TextAnalysisService.cyberbullying text).
  assert (D : ((((false || negb (h1 =? 0)%nat) || negb (h2 =? 0)%nat)
                || negb (h3 =? 0)%nat) || negb (h4 =? 0)%nat)%bool
              = negb (h1 + h2 + h3 + h4 =? 0)%nat).
  { destruct h1, h2, h3, h4; reflexivity. }
  destruct (isSarcastic c || isIronic c)%bool, (isThreatening i);
    cbv beta iota zeta; intro E; injection E as <-;
    cbn [Category.score Category.level Category.detected];
    (split; [reflexivity | exact D]).
Qed.

(** The harassment score is positive exactly when a pattern matched. *)
Lemma harassment_positive (text : string) (c : ContextAnalysis) (i : IntentAnalysis) :
  Num.gtb (Steps.clamp (Steps.harassmentAdjust c i (Steps.harassmentTiers text))) 0
  = negb (Nat.eqb (Steps.hits TextAnalysisService.directThreats text +
                   Steps.hits TextAnalysisService.stalking text +
                   Steps.hits TextAnalysisService.intimidation text +
                   Steps.hits TextAnalysisService.cyberbullying text) 0).
Proof.
  unfold Steps.clamp. rewrite gtb_min_100 by lra.
  unfold Steps.harassmentTiers, Steps.tierPoints, Steps.harassmentAdjust.
  set (h1 := Steps.hits TextAnalysisService.directThreats text).
  set (h2 := Steps.hits TextAnalysisService.stalking text).
  set (h3 := Steps.hits TextAnalysisService.intimidation text).
  set (h4 := Steps.hits TextAnalysisService.cyberbullying text).
  pose proof (NumFacts.ofNat_nonneg h1). pose proof (NumFacts.ofNat_nonneg h2).
  pose proof (NumFacts.ofNat_nonneg h3). pose proof (NumFacts.ofNat_nonneg h4).
  destruct (Nat.eqb_spec (h1 + h2 + h3 + h4) 0) as [Z | Z]; simpl.
  - apply NumFacts.gtb_false.
    assert (h1 = O /\ h2 = O /\ h3 = O /\ h4 = O) as (-> & -> & -> & ->) by lia.
    match goal with
    | |- Steps.scaleIf ?a ?f (Steps.scaleIf ?b ?g ?t) <= 0 =>
        assert (T : t == 0) by (unfold Num.ofNat; simpl; ring);
        pose proof (scaleIf_zero a f (scaleIf_zero b g T)) as X
    end.
    lra.
  - apply NumFacts.gtb_true.
    repeat (apply scaleIf_pos; [lra |]).
    assert (P : (0 < h1 \/ 0 < h2 \/ 0 < h3 \/ 0 < h4)%nat) by lia.
    destruct P as [P | [P | [P | P]]]; apply ofNat_pos in P; lra.
Qed.

(** The profanity result, field by field. *)
Lemma analyzeProfanity_fields (env : Env) (self : TextAnalysisService.t) (text : string)
    (c : ContextAnalysis) :
  exists (r : Category.t) (v : Q),
    TextAnalysisService.analyzeProfanity env self text c = Ok r /\
    ProfanityFilter.analyze env (TextAnalysisService.profanityFilter self) text = Ok v /\
    0 <= v <= 100 /\
    Category.score r = Steps.clamp (Steps.profanityAdjust c v) /\
    Category.level r = getRiskLevel (Steps.profanityAdjust c v) /\
    Category.detected r = Num.gtb (Steps.profanityAdjust c v) 25.
Proof.
  unfold TextAnalysisService.analyzeProfanity.
  destruct (ProfanityFilter_analyze_spec env (TextAnalysisService.profanityFilter self) text)
    as [v [E R]].
  rewrite E. cbn [bind].
  unfold Steps.profanityAdjust, Steps.sarcastic, Steps.playful, Steps.educational.
  destruct (isSarcastic c || isIronic c)%bool,
           (isPlayful c || isFriendly c)%bool,
           (isEducational c || isHistorical c)%bool;
    cbv beta iota zeta; unfold Steps.scaleIf;
    (eexists; exists v; split; [reflexivity |]);
    (split; [reflexivity |]); (split; [exact R |]);
    cbn [Category.score Category.level Category.detected]; repeat split.
Qed.

(** The sentiment result in terms of its sum before [Math.min]. *)
Lemma sentiment_fields (text : string) :
  exists s : Q,
    Category.score (SentimentAnalyzer.analyze text) = Num.min s 100 /\
    Category.level (SentimentAnalyzer.analyze text) = getRiskLevel s /\
    Category.detected (SentimentAnalyzer.analyze text) = Num.gtb s 20.
Proof.
  unfold SentimentAnalyzer.analyze.
  destruct (fold_left SentimentAnalyzer.visit (Str.split text) (0, [])) as [s r].
  destruct (Nat.ltb 2 (Str.count (Ascii.eqb "!") text));
    eexists; cbn [Category.score Category.level Category.detected]; repeat split.
Qed.

(** X8.  In every report, each of the five categories has the level of its
    own score: critical from 80, high from 60, medium from 40, low below
    (although the toxicity, profanity and sentiment detectors take the
    level before they bound the score by 100). *)
Theorem report_levels_follow_scores :
  forall (env : Env) (self : TextAnalysisService.t)
         (request : TextAnalysisService.TextAnalysisRequest),
  exists (r : ContentAnalysisResult) (self' : TextAnalysisService.t),
    TextAnalysisService.analyzeText env self request = (Ok r, self') /\
    Category.level (Analysis.hateSpeech (analysis r))
    = getRiskLevel (Category.score (Analysis.hateSpeech (analysis r))) /\
    Category.level (Analysis.toxicity (analysis r))
    = getRiskLevel (Category.score (Analysis.toxicity (analysis r))) /\
    Category.level (Analysis.harassment (analysis r))
    = getRiskLevel (Category.score (Analysis.harassment (analysis r))) /\
    Category.level (Analysis.profanity (analysis r))
    = getRiskLevel (Category.score (Analysis.profanity (analysis r))) /\
    Category.level (Analysis.sentiment (analysis r))
    = getRiskLevel (Category.score (Analysis.sentiment (analysis r))).
Proof.
  intros env self request.
  destruct (analyzeText_ok env self request)
    as (h & t & ha & p & self' & Eh & Et & Eha & Ep & r & E & Hh & Ht & Hha & Hp & Hs & _).
  exists r, self'. split; [exact E |].
  set (pre := TextAnalysisService.preprocessText (TextAnalysisService.text request)) in *.
  set (c := ContextAnalyzer.analyze pre) in *.
  set (i := IntentAnalyzer.analyze pre) in *.
  rewrite Hh, Ht, Hha, Hp, Hs. repeat split.
  - destruct (analyzeHateSpeech_spec env pre c i) as (h' & Eh' & _ & L & _).
    rewrite Eh in Eh'. injection Eh' as <-. exact L.
  - destruct (analyzeToxicity_spec env self pre c i) as (t' & Et' & S & L & _).
    rewrite Et in Et'. injection Et' as <-.
    cbn [Category.score Category.level] in S, L.
    rewrite L. rewrite (getRiskLevel_compat S). unfold Steps.clamp.
    symmetry. apply getRiskLevel_min_100.
  - destruct (analyzeHarassment_fields pre c i) as (ha' & Eha' & _ & L & _).
    rewrite Eha in Eha'. injection Eha' as <-. exact L.
  - destruct (analyzeProfanity_fields env self pre c) as (p' & v & Ep' & _ & _ & S & L & _).
    rewrite Ep in Ep'. injection Ep' as <-.
    rewrite L, S. unfold Steps.clamp. symmetry. apply getRiskLevel_min_100.
  - destruct (sentiment_fields pre) as (s & S & L & _).
    rewrite L, S. symmetry. apply getRiskLevel_min_100.
Qed.

(** X9.  In every report the detection flags follow the scores: toxicity
    is detected exactly when its score is above 40, profanity above 25,
    sentiment above 20, harassment above 0 (that is, when one of its
    patterns matched); and detected hate speech has a positive score. *)
Theorem report_detection_follows_scores :
  forall (env : Env) (self : TextAnalysisService.t)
         (request : TextAnalysisService.TextAnalysisRequest),
  exists (r : ContentAnalysisResult) (self' : TextAnalysisService.t),
    TextAnalysisService.analyzeText env self request = (Ok r, self') /\
    Category.detected (Analysis.toxicity (analysis r))
    = Num.gtb (Category.score (Analysis.toxicity (analysis r))) 40 /\
    Category.detected (Analysis.profanity (analysis r))
    = Num.gtb (Category.score (Analysis.profanity (analysis r))) 25 /\
    Category.detected (Analysis.sentiment (analysis r))
    = Num.gtb (Category.score (Analysis.sentiment (analysis r))) 20 /\
    Category.detected (Analysis.harassment (analysis r))
    = Num.gtb (Category.score (Analysis.harassment (analysis r))) 0 /\
    (Category.detected (Analysis.hateSpeech (analysis r)) = true ->
     0 < Category.score (Analysis.hateSpeech (analysis r))).
Proof.
  intros env self request.
  destruct (analyzeText_ok env self request)
    as (h & t & ha & p & self' & Eh & Et & Eha & Ep & r & E & Hh & Ht & Hha & Hp & Hs & _).
  exists r, self'. split; [exact E |].
  set (pre := TextAnalysisService.preprocessText (TextAnalysisService.text request)) in *.
  set (c := ContextAnalyzer.analyze pre) in *.
  set (i := IntentAnalyzer.analyze pre) in *.
  rewrite Hh, Ht, Hha, Hp, Hs. repeat split.
  - destruct (analyzeToxicity_spec env self pre c i) as (t' & Et' & S & _ & D & _).
    rewrite Et in Et'. injection Et' as <-.
    cbn [Category.score Category.detected] in S, D.
    rewrite D, (gtb_compat_l 40 S). unfold Steps.clamp.
    symmetry. apply gtb_min_100. lra.
  - destruct (analyzeProfanity_fields env self pre c) as (p' & v & Ep' & _ & _ & S & _ & D).
    rewrite Ep in Ep'. injection Ep' as <-.
    rewrite D, S. unfold Steps.clamp. symmetry. apply gtb_min_100. lra.
  - destruct (sentiment_fields pre) as (s & S & _ & D).
    rewrite D, S. symmetry. apply gtb_min_100. lra.
  - destruct (analyzeHarassment_fields pre c i) as (ha' & Eha' & S & _ & D).
    rewrite Eha in Eha'. injection Eha' as <-.
    rewrite D, (gtb_compat_l 0 S). symmetry. apply harassment_positive.
  - destruct (analyzeHateSpeech_spec env pre c i) as (h' & Eh' & S & _ & D & _).
    rewrite Eh in Eh'. injection Eh' as <-.
    intro T. rewrite T in D. rewrite S.
    unfold Steps.hateMergedLast, Steps.clamp.
    pose proof (hateAdjust_nonneg c i (hateTiers_nonneg pre)) as N.
    assert (P : 0 < Steps.adopt (Steps.hateExternal env pre)
                      (Steps.hateAdjust c i (Steps.hateTiers pre))).
    { symmetry in D. apply orb_true_iff in D. destruct D as [D | D].
      - cbn [Steps.hateRuleBased Category.detected] in D.
        apply negb_true_iff, Nat.eqb_neq in D.
        assert (Q0 : 0 < Steps.hateAdjust c i (Steps.hateTiers pre)).
        { unfold Steps.hateAdjust. repeat (apply scaleIf_pos; [lra |]).
          unfold Steps.hateTiers, Steps.tierPoints.
          pose proof (NumFacts.ofNat_nonneg (Steps.hits TextAnalysisService.directHate pre)).
          pose proof (NumFacts.ofNat_nonneg (Steps.hits TextAnalysisService.indirectHate pre)).
          pose proof (NumFacts.ofNat_nonneg (Steps.hits TextAnalysisService.dehumanizing pre)).
          assert (P : (0 < Steps.hits TextAnalysisService.directHate pre
                       \/ 0 < Steps.hits TextAnalysisService.indirectHate pre
                       \/ 0 < Steps.hits TextAnalysisService.dehumanizing pre)%nat) by lia.
          destruct P as [P | [P | P]]; apply ofNat_pos in P; lra. }
        destruct (adopt_spec (Steps.hateExternal env pre)
                    (Steps.hateAdjust c i (Steps.hateTiers pre))) as [[_ ->] | [L ->]]; lra.
      - apply NumFacts.gtb_true in D.
        destruct (adopt_spec (Steps.hateExternal env pre)
                    (Steps.hateAdjust c i (Steps.hateTiers pre))) as [[L ->] | [L ->]]; lra. }
    destruct (NumFacts.min_spec
                (Steps.adopt (Steps.hateExternal env pre)
                   (Steps.hateAdjust c i (Steps.hateTiers pre))) 100) as [[_ ->] | [_ ->]]; lra.
Qed.

Lemma report_detection_follows_scores_witness :
  exists (r : ContentAnalysisResult) (self' : TextAnalysisService.t),
    TextAnalysisService.analyzeText sampleEnv (TextAnalysisService.new sampleEnv)
      {| TextAnalysisService.text := "Men are scum." |} = (Ok r, self') /\
    Category.detected (Analysis.hateSpeech (analysis r)) = true /\
    0 < Category.score (Analysis.hateSpeech (analysis r)).
Proof.
  destruct (report_detection_follows_scores sampleEnv (TextAnalysisService.new sampleEnv)
              {| TextAnalysisService.text := "Men are scum." |})
    as (r & self' & E & _ & _ & _ & _ & D).
  exists r, self'. split; [exact E |].
  assert (T : Category.detected (Analysis.hateSpeech (analysis r)) = true).
  { vm_compute in E. injection E as <- _. reflexivity. }
  split; [exact T | exact (D T)].
Defined.

(** ** Bounds on the scores and on the overall risk *)

(** X10.  In every report the hate-speech, toxicity, harassment and
    profanity scores lie between 0 and 100, and the sentiment score is at
    most 100, whatever the classifiers answer (a negative answer, or one
    above 100, included) and whatever the state of the service. *)
Theorem report_scores_in_range :
  forall (env : Env) (self : TextAnalysisService.t)
         (request : TextAnalysisService.TextAnalysisRequest),
  exists (r : ContentAnalysisResult) (self' : TextAnalysisService.t),
    TextAnalysisService.analyzeText env self request = (Ok r, self') /\
    0 <= Category.score (Analysis.hateSpeech (analysis r)) <= 100 /\
    0 <= Category.score (Analysis.toxicity (analysis r)) <= 100 /\
    0 <= Category.score (Analysis.harassment (analysis r)) <= 100 /\
    0 <= Category.score (Analysis.profanity (analysis r)) <= 100 /\
    Category.score (Analysis.sentiment (analysis r)) <= 100.
Proof. exact category_scores_range. Qed.

Lemma overallRisk_below (bound : Q) (hs tox har prof sent : Q)
    (c : ContextAnalysis) (i : IntentAnalysis) :
  Aggregation.adjusted (Aggregation.weighted hs tox har prof sent) c i <= bound ->
  (bound < 50 ->
   TextAnalysisService.calculateOverallRisk hs tox har prof sent c i = safe \/
   TextAnalysisService.calculateOverallRisk hs tox har prof sent c i = warning) /\
  (bound < 70 ->
   TextAnalysisService.calculateOverallRisk hs tox har prof sent c i <> criticalRisk).
Proof.
  intro H. rewrite overallRisk_riskOf.
  destruct (riskOf_cases
              (Aggregation.adjusted (Aggregation.weighted hs tox har prof sent) c i))
    as [[A ->] | [[A ->] | [[A ->] | [A ->]]]];
    split; intro B; try (left; reflexivity); try (right; reflexivity);
    try discriminate; exfalso; lra.
Qed.

(** X11.  With the five scores at most 100, a sarcastic or ironic context
    keeps the overall risk below critical, and an educational or historical
    context keeps it at safe or warning, whatever the scores and the
    intent. *)
Theorem context_caps_overall_risk :
  forall (hs tox har prof sent : Q) (c : ContextAnalysis) (i : IntentAnalysis),
    hs <= 100 -> tox <= 100 -> har <= 100 -> prof <= 100 -> sent <= 100 ->
    ((isSarcastic c || isIronic c)%bool = true ->
     TextAnalysisService.calculateOverallRisk hs tox har prof sent c i <> criticalRisk) /\
    ((isEducational c || isHistorical c)%bool = true ->
     TextAnalysisService.calculateOverallRisk hs tox har prof sent c i = safe \/
     TextAnalysisService.calculateOverallRisk hs tox har prof sent c i = warning).
Proof.
  intros hs tox har prof sent c i H1 H2 H3 H4 H5.
  assert (W : Aggregation.weighted hs tox har prof sent <= 100).
  { unfold Aggregation.weighted. lra. }
  set (w := Aggregation.weighted hs tox har prof sent) in *.
  split; intro S.
  - apply (overallRisk_below (bound := 52)); [| lra].
    unfold Aggregation.adjusted, Aggregation.factor. fold w. rewrite S.
    destruct (isEducational c || isHistorical c)%bool,
             (isThreatening i || isAggressive i)%bool;
      destruct (Qlt_le_dec w 0); nra.
  - apply (overallRisk_below (bound := 39)); [| lra].
    unfold Aggregation.adjusted, Aggregation.factor. fold w. rewrite S.
    destruct (isSarcastic c || isIronic c)%bool,
             (isThreatening i || isAggressive i)%bool;
      destruct (Qlt_le_dec w 0); nra.
Qed.

Lemma context_caps_overall_risk_witness :
  100 <= 100 /\
  (isEducational (ContextAnalyzer.analyze "in fact they said so")
   || isHistorical (ContextAnalyzer.analyze "in fact they said so"))%bool = true /\
  (TextAnalysisService.calculateOverallRisk 100 100 100 100 100
     (ContextAnalyzer.analyze "in fact they said so")
     (IntentAnalyzer.analyze "in fact they said so") = safe \/
   TextAnalysisService.calculateOverallRisk 100 100 100 100 100
     (ContextAnalyzer.analyze "in fact they said so")
     (IntentAnalyzer.analyze "in fact they said so") = warning) /\
  (isSarcastic (ContextAnalyzer.analyze "yeah right")
   || isIronic (ContextAnalyzer.analyze "yeah right"))%bool = true /\
  TextAnalysisService.calculateOverallRisk 100 100 100 100 100
    (ContextAnalyzer.analyze "yeah right") (IntentAnalyzer.analyze "yeah right")
  <> criticalRisk.
Proof.
  assert (H : 100 <= 100) by (unfold Qle; simpl; lia).
  assert (E : (isEducational (ContextAnalyzer.analyze "in fact they said so")
               || isHistorical (ContextAnalyzer.analyze "in fact they said so"))%bool = true)
    by (vm_compute; reflexivity).
  assert (S : (isSarcastic (ContextAnalyzer.analyze "yeah right")
               || isIronic (ContextAnalyzer.analyze "yeah right"))%bool = true)
    by (vm_compute; reflexivity).
  split; [exact H |]. split; [exact E |].
  split; [exact (proj2 (@context_caps_overall_risk 100 100 100 100 100
                          (ContextAnalyzer.analyze "in fact they said so")
                          (IntentAnalyzer.analyze "in fact they said so") H H H H H) E) |].
  split; [exact S |].
  exact (proj1 (@context_caps_overall_risk 100 100 100 100 100
                  (ContextAnalyzer.analyze "yeah right")
                  (IntentAnalyzer.analyze "yeah right") H H H H H) S).
Defined.

(** ** The historical indicator [era] *)

Lemma some_In (patterns : list RegExp) (re : RegExp) (s : string) :
  In re patterns -> testFresh re s = true -> some patterns s = true.
Proof.
  intros I T. unfold some. apply existsb_exists. exists re. auto.
Qed.

Lemma era_prefix_matches (s : string) :
  String.prefix "era" s = true ->
  exists rest, matchAt (ignoreCase eraPattern) (source eraPattern) s = Some rest.
Proof.
  destruct s as [| a [| b [| c t]]]; cbn [String.prefix]; intro H; try discriminate.
  - destruct (ascii_dec "e" a); discriminate.
  - destruct (ascii_dec "e" a); [destruct (ascii_dec "r" b) |]; discriminate.
  - destruct (ascii_dec "e" a) as [<- |]; [| discriminate].
    destruct (ascii_dec "r" b) as [<- |]; [| discriminate].
    destruct (ascii_dec "a" c) as [<- |]; [| discriminate].
    exists t. reflexivity.
Qed.

Lemma era_found (s : string) :
  Str.includes s "era" = true -> testFresh eraPattern s = true.
Proof.
  intro H.
  assert (F : exists rest, search (ignoreCase eraPattern) (source eraPattern) s = Some rest).
  { induction s as [| a s IH].
    - simpl in H. discriminate.
    - unfold Str.includes in H; fold Str.includes in H.
      apply orb_true_iff in H. destruct H as [H | H].
      + destruct (era_prefix_matches _ H) as [rest M].
        exists rest. unfold search; fold search. rewrite M. reflexivity.
      + destruct (IH H) as [rest M].
        unfold search; fold search.
        destruct (matchAt (ignoreCase eraPattern) (source eraPattern) (String a s)) as [x |];
          [exists x; reflexivity | exists rest; exact M]. }
  destruct F as [rest F].
  unfold testFresh, test. cbn [global eraPattern lastIndex].
  change (Nat.ltb (String.length s) 0) with false. cbv iota.
  replace (Str.drop 0 s) with s by (destruct s; reflexivity).
  cbn [ignoreCase source eraPattern] in *. rewrite F. reflexivity.
Qed.

(** X12.  A text whose preprocessed form contains the letters [era]
    anywhere, inside a word too ([several], [camera], [operation]), is
    taken as historical, and the overall risk of its report is safe or
    warning whatever the detectors found. *)
Theorem era_makes_historical_and_caps_risk :
  forall (env : Env) (self : TextAnalysisService.t)
         (request : TextAnalysisService.TextAnalysisRequest),
    Str.includes (preprocessed request) "era" = true ->
    exists (r : ContentAnalysisResult) (self' : TextAnalysisService.t),
      TextAnalysisService.analyzeText env self request = (Ok r, self') /\
      isHistorical (Analysis.context (analysis r)) = true /\
      (Analysis.overallRisk (analysis r) = safe \/
       Analysis.overallRisk (analysis r) = warning).
Proof.
  intros env self request H.
  destruct (category_scores_range env self request)
    as (r & self' & E & [_ R1] & [_ R2] & [_ R3] & [_ R4] & R5).
  destruct (analyzeText_ok env self request)
    as (h & t & ha & p & self0 & _ & _ & _ & _ & r0 & E0
        & Hh & Ht & Hha & Hp & Hs & Hc & Hi & Hrisk & _).
  rewrite E in E0. injection E0 as <- <-.
  exists r, self'. split; [exact E |].
  assert (Hist : isHistorical (Analysis.context (analysis r)) = true).
  { rewrite Hc. cbn [ContextAnalyzer.analyze isHistorical].
    unfold ContextAnalyzer.detectHistorical.
    apply (some_In ContextAnalyzer.historicalIndicators eraPattern);
      [vm_compute; tauto | apply era_found, H]. }
  split; [exact Hist |].
  rewrite Hrisk. subst h t ha p.
  apply (overallRisk_below (bound := 39)); [| lra].
  unfold Aggregation.adjusted, Aggregation.factor. rewrite Hist, orb_true_r.
  set (w := Aggregation.weighted _ _ _ _ _).
  assert (W : w <= 100) by (unfold w, Aggregation.weighted; lra).
  destruct (isSarcastic (Analysis.context (analysis r))
            || isIronic (Analysis.context (analysis r)))%bool,
           (isThreatening (Analysis.intent (analysis r))
            || isAggressive (Analysis.intent (analysis r)))%bool;
    destruct (Qlt_le_dec w 0); nra.
Qed.

Lemma era_makes_historical_and_caps_risk_witness :
  Str.includes (preprocessed {| TextAnalysisService.text := "I will kill you, several times" |})
               "era" = true /\
  exists (r : ContentAnalysisResult) (self' : TextAnalysisService.t),
    TextAnalysisService.analyzeText sampleEnv (TextAnalysisService.new sampleEnv)
      {| TextAnalysisService.text := "I will kill you, several times" |} = (Ok r, self') /\
    isHistorical (Analysis.context (analysis r)) = true /\
    (Analysis.overallRisk (analysis r) = safe \/
     Analysis.overallRisk (analysis r) = warning).
Proof.
  assert (H : Str.includes
                (preprocessed {| TextAnalysisService.text := "I will kill you, several times" |})
                "era" = true) by (vm_compute; reflexivity).
  split; [exact H |].
  exact (era_makes_historical_and_caps_risk sampleEnv (TextAnalysisService.new sampleEnv)
           {| TextAnalysisService.text := "I will kill you, several times" |} H).
Defined.

(** ** What a classifier can do to a score *)

Lemma adopt_ge (external score : Q) : score <= Steps.adopt external score.
Proof. destruct (adopt_spec external score) as [[L ->] | [L ->]]; lra. Qed.

Lemma clamp_monotone (s s' : Q) : s <= s' -> Steps.clamp s <= Steps.clamp s'.
Proof. apply NumFacts.min_mono. Qed.

Lemma scaleIf_monotone (condition : bool) (f s s' : Q) :
  0 <= f -> s <= s' -> Steps.scaleIf condition f s <= Steps.scaleIf condition f s'.
Proof. intros. unfold Steps.scaleIf. destruct condition; nra. Qed.

Lemma toxicAdjust_monotone (c : ContextAnalysis) (i : IntentAnalysis) (s s' : Q) :
  s <= s' -> Steps.toxicAdjust c i s <= Steps.toxicAdjust c i s'.
Proof.
  intro H. unfold Steps.toxicAdjust.
  repeat (apply scaleIf_monotone; [lra |]). exact H.
Qed.

(** X13.  An answer of a classifier never lowers a score: the hate-speech
    score and the toxicity score of a detector run with any environment are
    at least the scores of the same run with the classifiers out of reach,
    and the toxicity analyzer is left in the same state. *)
Theorem classifier_never_lowers :
  forall (env : Env) (self : TextAnalysisService.t) (text : string)
         (c : ContextAnalysis) (i : IntentAnalysis),
    (exists r r0 : Category.t,
        TextAnalysisService.analyzeHateSpeech env text c i = Ok r /\
        TextAnalysisService.analyzeHateSpeech (offline env) text c i = Ok r0 /\
        Category.score r0 <= Category.score r) /\
    (exists (r r0 : Category.t) (self' : TextAnalysisService.t),
        TextAnalysisService.analyzeToxicity env self text c i = (Ok r, self') /\
        TextAnalysisService.analyzeToxicity (offline env) self text c i = (Ok r0, self') /\
        Category.score r0 <= Category.score r).
Proof.
  intros env self text c i. split.
  - destruct (analyzeHateSpeech_spec env text c i) as (r & E & S & _).
    destruct (analyzeHateSpeech_spec (offline env) text c i) as (r0 & E0 & S0 & _).
    exists r, r0. split; [exact E |]. split; [exact E0 |].
    rewrite S, S0. unfold Steps.hateMergedLast. rewrite hateExternal_offline.
    rewrite (adopt_zero (hateAdjust_nonneg c i (hateTiers_nonneg text))).
    apply clamp_monotone, adopt_ge.
  - destruct (analyzeToxicity_spec env self text c i) as (r & E & S & _).
    destruct (analyzeToxicity_spec (offline env) self text c i) as (r0 & E0 & S0 & _).
    eexists r, r0, _. split; [exact E |]. split; [exact E0 |].
    rewrite S, S0. cbn [Category.score]. unfold Steps.toxicUnclamped.
    rewrite toxicExternal_offline.
    rewrite (adopt_zero (toxicFirstTiers_nonneg (TextAnalysisService.toxicityAnalyzer self) text)).
    apply clamp_monotone, toxicAdjust_monotone, clamp_monotone.
    pose proof (adopt_ge (Steps.toxicExternal env text)
                  (Steps.toxicFirstTiers (TextAnalysisService.toxicityAnalyzer self) text)).
    lra.
Qed.

(** ** The profanity filter *)



(** * The callers of the analysis *)

(** ** Block decisions *)

Lemma concat_nonempty (sep : string) (l : list string) :
  l <> [] -> (forall x, In x l -> x <> EmptyString) ->
  String.concat sep l <> EmptyString.
Proof.
  destruct l as [| x [| y l]]; intros N H.
  - contradiction.
  - simpl. apply H. left. reflexivity.
  - simpl. specialize (H x (or_introl eq_refl)).
    destruct x; [contradiction | discriminate].
Qed.

Lemma reasonsOf_messages (results : Analysis.t) (limits : PluginHelpers.Thresholds) :
  forall x, In x (PluginHelpers.reasonsOf results limits) -> x <> EmptyString.
Proof.
  intro x. unfold PluginHelpers.reasonsOf, push.
  destruct (Num.geb _ (PluginHelpers.hateSpeech limits)),
           (Num.geb _ (PluginHelpers.toxicity limits)),
           (Num.geb _ (PluginHelpers.harassment limits)),
           (Num.geb _ (PluginHelpers.profanity limits)),
           (Analysis.overallRisk results); simpl;
    intuition (subst; discriminate).
Qed.

(** X15.  The plugin's [shouldBlockContent] and the helper's, given the
    thresholds of the plugin, take the same decision with the same reason.
    The content is blocked exactly when one of the four scores reaches its
    threshold or the overall risk is critical; a block always has a reason,
    which is not empty, and there is no reason without a block. *)
Theorem shouldBlockContent_agree :
  forall (self : HateSpeechDetectionPlugin.t) (analysis : ContentAnalysisResult),
    let results := analysis_of analysis in
    let limits := HateSpeechDetectionPlugin.thresholds (HateSpeechDetectionPlugin.config self) in
    let plugin := HateSpeechDetectionPlugin.shouldBlockContent self analysis in
    let helper := PluginHelpers.shouldBlockContent analysis limits in
    HateSpeechDetectionPlugin.shouldBlock plugin = PluginHelpers.shouldBlock helper /\
    HateSpeechDetectionPlugin.reason plugin = PluginHelpers.reason helper /\
    (HateSpeechDetectionPlugin.shouldBlock plugin = true <->
     PluginHelpers.hateSpeech limits <= Category.score (Analysis.hateSpeech results) \/
     PluginHelpers.toxicity limits <= Category.score (Analysis.toxicity results) \/
     PluginHelpers.harassment limits <= Category.score (Analysis.harassment results) \/
     PluginHelpers.profanity limits <= Category.score (Analysis.profanity results) \/
     Analysis.overallRisk results = criticalRisk) /\
    (if HateSpeechDetectionPlugin.shouldBlock plugin
     then exists text, HateSpeechDetectionPlugin.reason plugin = Some text /\
                       text <> EmptyString
     else HateSpeechDetectionPlugin.reason plugin = None).
Proof.
  intros self analysis results limits plugin helper.
  assert (R : forall b1 b2 b3 b4 : bool,
             (let reasons : list string := [] in
              let reasons := if b1 then push reasons "hate speech detected" else reasons in
              let reasons := if b2 then push reasons "toxic content detected" else reasons in
              let reasons := if b3 then push reasons "harassment detected" else reasons in
              let reasons := if b4 then push reasons "profanity detected" else reasons in
              let reasons :=
                if PluginHelpers.isCritical (Analysis.overallRisk results)
                then push reasons "critical risk level" else reasons in
              reasons)
             = (let reasons : list string := [] in
                let reasons := if b1 then push reasons "hate speech detected" else reasons in
                let reasons := if b2 then push reasons "toxic content detected" else reasons in
                let reasons := if b3 then push reasons "harassment detected" else reasons in
                let reasons := if b4 then push reasons "profanity detected" else reasons in
                match Analysis.overallRisk results with
                | criticalRisk => push reasons "critical risk level"
                | _ => reasons
                end)).
  { intros. destruct (Analysis.overallRisk results); reflexivity. }
  assert (B : HateSpeechDetectionPlugin.shouldBlock plugin = PluginHelpers.shouldBlock helper).
  { unfold plugin, helper, HateSpeechDetectionPlugin.shouldBlockContent,
      PluginHelpers.shouldBlockContent. fold results. fold limits.
    cbn [HateSpeechDetectionPlugin.shouldBlock].
    destruct (_ || _ || _ || _ || _)%bool; reflexivity. }
  assert (E : HateSpeechDetectionPlugin.reason plugin = PluginHelpers.reason helper).
  { unfold plugin, helper, HateSpeechDetectionPlugin.shouldBlockContent,
      PluginHelpers.shouldBlockContent, PluginHelpers.reasonsOf.
    fold results. fold limits. cbn [HateSpeechDetectionPlugin.reason].
    destruct (_ || _ || _ || _ || _)%bool; cbn [negb PluginHelpers.reason];
      [| reflexivity].
    f_equal. f_equal. apply R. }
  split; [exact B |]. split; [exact E |]. split.
  - unfold plugin, HateSpeechDetectionPlugin.shouldBlockContent.
    fold results. fold limits. cbn [HateSpeechDetectionPlugin.shouldBlock].
    rewrite !orb_true_iff, !NumFacts.geb_true.
    assert (C : PluginHelpers.isCritical (Analysis.overallRisk results) = true
                <-> Analysis.overallRisk results = criticalRisk).
    { destruct (Analysis.overallRisk results); simpl; split; congruence. }
    rewrite C. tauto.
  - rewrite E, B. unfold helper, PluginHelpers.shouldBlockContent.
    fold results.
    destruct (_ || _ || _ || _ || _)%bool eqn:D; cbn [negb PluginHelpers.shouldBlock
                                                      PluginHelpers.reason];
      [| reflexivity].
    eexists. split; [reflexivity |].
    apply concat_nonempty; [| apply reasonsOf_messages].
    unfold PluginHelpers.reasonsOf, push.
    destruct (Num.geb _ (PluginHelpers.hateSpeech limits)),
             (Num.geb _ (PluginHelpers.toxicity limits)),
             (Num.geb _ (PluginHelpers.harassment limits)),
             (Num.geb _ (PluginHelpers.profanity limits)),
             (Analysis.overallRisk results); simpl in *; congruence.
Qed.

Lemma shouldBlockContent_agree_witness :
  PluginHelpers.hateSpeech
    (HateSpeechDetectionPlugin.thresholds
       (HateSpeechDetectionPlugin.config (HateSpeechDetectionPlugin.new None)))
  <= Category.score (Analysis.hateSpeech (analysis_of sampleReport)) /\
  HateSpeechDetectionPlugin.shouldBlock
    (HateSpeechDetectionPlugin.shouldBlockContent
       (HateSpeechDetectionPlugin.new None) sampleReport) = true.
Proof.
  assert (H : PluginHelpers.hateSpeech
                (HateSpeechDetectionPlugin.thresholds
                   (HateSpeechDetectionPlugin.config (HateSpeechDetectionPlugin.new None)))
              <= Category.score (Analysis.hateSpeech (analysis_of sampleReport)))
    by (vm_compute; discriminate).
  split; [exact H |].
  destruct (shouldBlockContent_agree (HateSpeechDetectionPlugin.new None) sampleReport)
    as (_ & _ & I & _).
  apply (proj2 I). left. exact H.
Defined.

(** ** Combining a text and an image result in the integration *)

Lemma riskLevels_riskName (r : Risk) :
  SocialMediaIntegration.riskLevels (ImageAnalysisService.riskName r) = Some (riskRank r).
Proof. destruct r; reflexivity. Qed.

(** X16.  [getHigherRisk] on two of the four risk names returns the one of
    higher rank (the second when they are equal); when the second argument
    is not one of the four names it is returned as it is, whatever the
    first: a critical first risk is lost against an unknown second one. *)
Theorem getHigherRisk_spec :
  (forall r1 r2 : Risk,
      SocialMediaIntegration.getHigherRisk
        (ImageAnalysisService.riskName r1) (ImageAnalysisService.riskName r2)
      = ImageAnalysisService.riskName (if Nat.ltb (riskRank r2) (riskRank r1) then r1 else r2)) /\
  (forall risk1 risk2 : string,
      SocialMediaIntegration.riskLevels risk2 = None ->
      SocialMediaIntegration.getHigherRisk risk1 risk2 = risk2).
Proof.
  split.
  - intros r1 r2. unfold SocialMediaIntegration.getHigherRisk.
    rewrite !riskLevels_riskName. destruct (Nat.ltb (riskRank r2) (riskRank r1)); reflexivity.
  - intros risk1 risk2 H. unfold SocialMediaIntegration.getHigherRisk. rewrite H.
    destruct (SocialMediaIntegration.riskLevels risk1); reflexivity.
Qed.

Lemma getHigherRisk_spec_witness :
  SocialMediaIntegration.riskLevels "high" = None /\
  SocialMediaIntegration.getHigherRisk "critical" "high" = "high".
Proof.
  assert (H : SocialMediaIntegration.riskLevels "high" = None) by reflexivity.
  split; [exact H |].
  exact (proj2 getHigherRisk_spec "critical" "high" H).
Defined.

Lemma levelName_injective (a b : Level) :
  ImageAnalysisService.levelName a = ImageAnalysisService.levelName b -> a = b.
Proof. destruct a, b; simpl; intro H; solve [reflexivity | discriminate]. Qed.




(** ** The overall risk of the image service and of the helpers *)

(** The rule of [calculateOverallRisk] read as a rank: the largest score
    against 80/60/40, or the mean against 70/50/30. *)
Lemma imageRisk_cases (h t r p : Q) :
  let m := Num.max (Num.max (Num.max h t) r) p in
  let a := (h + t + r + p) / 4 in
  (ImageAnalysisService.calculateOverallRisk h t r p = criticalRisk /\ (80 <= m \/ 70 <= a)) \/
  (ImageAnalysisService.calculateOverallRisk h t r p = danger /\
   m < 80 /\ a < 70 /\ (60 <= m \/ 50 <= a)) \/
  (ImageAnalysisService.calculateOverallRisk h t r p = warning /\
   m < 60 /\ a < 50 /\ (40 <= m \/ 30 <= a)) \/
  (ImageAnalysisService.calculateOverallRisk h t r p = safe /\ m < 40 /\ a < 30).
Proof.
  intros m a. unfold ImageAnalysisService.calculateOverallRisk. fold m a.
  destruct (Num.geb m 80) eqn:M80; destruct (Num.geb a 70) eqn:A70;
    destruct (Num.geb m 60) eqn:M60; destruct (Num.geb a 50) eqn:A50;
    destruct (Num.geb m 40) eqn:M40; destruct (Num.geb a 30) eqn:A30;
    cbn [orb];
    repeat match goal with
           | H : Num.geb _ _ = true |- _ => apply NumFacts.geb_true in H
           | H : Num.geb _ _ = false |- _ => apply NumFacts.geb_false in H
           end;
    try (exfalso; lra);
    first [ left; split; [reflexivity | lra]
          | right; left; split; [reflexivity | lra]
          | right; right; left; split; [reflexivity | lra]
          | right; right; right; split; [reflexivity | lra] ].
Qed.

Lemma max_monotone (a a' b b' : Q) :
  a <= a' -> b <= b' -> Num.max a b <= Num.max a' b'.
Proof.
  intros Ha Hb.
  pose proof (NumFacts.max_spec a b) as [[_ E] | [_ E]]; rewrite E;
    [eapply Qle_trans; [exact Ha | apply NumFacts.max_ge_l]
    | eapply Qle_trans; [exact Hb | apply NumFacts.max_ge_r]].
Qed.

Lemma imageRisk_monotone (h h' t t' r r' p p' : Q) :
  h <= h' -> t <= t' -> r <= r' -> p <= p' ->
  (riskRank (ImageAnalysisService.calculateOverallRisk h t r p)
   <= riskRank (ImageAnalysisService.calculateOverallRisk h' t' r' p'))%nat.
Proof.
  intros Hh Ht Hr Hp.
  assert (M : Num.max (Num.max (Num.max h t) r) p
              <= Num.max (Num.max (Num.max h' t') r') p')
    by (repeat apply max_monotone; assumption).
  assert (A : (h + t + r + p) / 4 <= (h' + t' + r' + p') / 4)
    by (unfold Qdiv; apply Qmult_le_compat_r; [lra | discriminate]).
  destruct (imageRisk_cases h t r p) as [[E F] | [[E F] | [[E F] | [E F]]]];
    destruct (imageRisk_cases h' t' r' p') as [[E' _] | [[E' F'] | [[E' F'] | [E' F']]]];
    rewrite E, E'; cbn [riskRank]; try lia; exfalso; cbv zeta in *; lra.
Qed.

Lemma imageRisk_covers_level (h t r p s : Q) :
  s <= Num.max (Num.max (Num.max h t) r) p ->
  (levelRank (ImageAnalysisService.getRiskLevel s)
   <= riskRank (ImageAnalysisService.calculateOverallRisk h t r p))%nat.
Proof.
  intro S.
  change (ImageAnalysisService.getRiskLevel s) with (getRiskLevel s).
  destruct (getRiskLevel_cases s) as [[F E] | [[F E] | [[F E] | [F E]]]];
    destruct (imageRisk_cases h t r p) as [[E' _] | [[E' F'] | [[E' F'] | [E' F']]]];
    rewrite E, E'; cbn [riskRank levelRank]; try lia; exfalso; cbv zeta in *; lra.
Qed.

Lemma imageRisk_covers_each (h t r p s : Q) :
  In s [h; t; r; p] ->
  (levelRank (ImageAnalysisService.getRiskLevel s)
   <= riskRank (ImageAnalysisService.calculateOverallRisk h t r p))%nat.
Proof.
  intros [<- | [<- | [<- | [<- | []]]]]; apply imageRisk_covers_level.
  - eapply Qle_trans; [| apply NumFacts.max_ge_l].
    eapply Qle_trans; [| apply NumFacts.max_ge_l]. apply NumFacts.max_ge_l.
  - eapply Qle_trans; [| apply NumFacts.max_ge_l].
    eapply Qle_trans; [| apply NumFacts.max_ge_l]. apply NumFacts.max_ge_r.
  - eapply Qle_trans; [| apply NumFacts.max_ge_l]. apply NumFacts.max_ge_r.
  - apply NumFacts.max_ge_r.
Qed.

(** X18.  The overall risk of the image service, which the helpers compute
    by the same rule, never drops when a score grows, and it is at least
    the level of every one of the four scores: a score at a critical
    level makes the risk critical, a high one at least danger, a medium one
    at least warning. *)
Theorem image_overallRisk_monotone_and_covering :
  forall h h' t t' r r' p p' : Q,
    h <= h' -> t <= t' -> r <= r' -> p <= p' ->
    PluginHelpers.calculateOverallRisk h t r p
    = ImageAnalysisService.calculateOverallRisk h t r p /\
    (riskRank (ImageAnalysisService.calculateOverallRisk h t r p)
     <= riskRank (ImageAnalysisService.calculateOverallRisk h' t' r' p'))%nat /\
    (forall s, In s [h'; t'; r'; p'] ->
       (levelRank (ImageAnalysisService.getRiskLevel s)
        <= riskRank (ImageAnalysisService.calculateOverallRisk h' t' r' p'))%nat).
Proof.
  intros h h' t t' r r' p p' Hh Ht Hr Hp.
  split; [reflexivity |].
  split; [apply imageRisk_monotone; assumption |].
  intros s Hs. apply imageRisk_covers_each, Hs.
Qed.

Lemma image_overallRisk_monotone_and_covering_witness :
  (riskRank (ImageAnalysisService.calculateOverallRisk 10 20 30 35)
   <= riskRank (ImageAnalysisService.calculateOverallRisk 10 20 30 85))%nat.
Proof.
  apply (@image_overallRisk_monotone_and_covering 10 10 20 20 30 30 35 85);
    vm_compute; discriminate.
Defined.

(** X19.  Merging with the analysis of the description never hides what
    either side found: every merged score is at least the image's and the
    text's, and the merged overall risk is at least the risk of the image's
    four scores, at least the risk of the text's four scores, and at least
    the level of every merged category. *)
Theorem merge_never_lowers :
  forall (imageAnalysis : ImageAnalysisService.ImageAnalysis) (textAnalysis : Analysis.t),
    let merged :=
      ImageAnalysisService.combineImageAndTextAnalysis imageAnalysis (Some textAnalysis) in
    let scoresOf (a : ImageAnalysisService.ImageAnalysis) :=
      map ImageAnalysisService.score
          [ ImageAnalysisService.hateSpeech a; ImageAnalysisService.toxicity a;
            ImageAnalysisService.harassment a; ImageAnalysisService.profanity a ] in
    let textScores :=
      map Category.score
          [ Analysis.hateSpeech textAnalysis; Analysis.toxicity textAnalysis;
            Analysis.harassment textAnalysis; Analysis.profanity textAnalysis ] in
    let riskOfScores (l : list Q) :=
      ImageAnalysisService.calculateOverallRisk
        (nth 0 l 0) (nth 1 l 0) (nth 2 l 0) (nth 3 l 0) in
    Forall2 Qle (scoresOf imageAnalysis) (scoresOf merged) /\
    Forall2 Qle textScores (scoresOf merged) /\
    ImageAnalysisService.overallRisk merged
    = ImageAnalysisService.riskName (riskOfScores (scoresOf merged)) /\
    (riskRank (riskOfScores (scoresOf imageAnalysis))
     <= riskRank (riskOfScores (scoresOf merged)))%nat /\
    (riskRank (riskOfScores textScores) <= riskRank (riskOfScores (scoresOf merged)))%nat /\
    (forall s, In s (scoresOf merged) ->
       (levelRank (ImageAnalysisService.getRiskLevel s)
        <= riskRank (riskOfScores (scoresOf merged)))%nat).
Proof.
  intros imageAnalysis textAnalysis. cbv zeta.
  cbn [ImageAnalysisService.combineImageAndTextAnalysis map nth
       ImageAnalysisService.hateSpeech ImageAnalysisService.toxicity
       ImageAnalysisService.harassment ImageAnalysisService.profanity
       ImageAnalysisService.overallRisk ImageAnalysisService.combineCategory
       ImageAnalysisService.score].
  repeat split.
  - repeat constructor; apply NumFacts.max_ge_l.
  - repeat constructor; apply NumFacts.max_ge_r.
  - apply imageRisk_monotone; apply NumFacts.max_ge_l.
  - apply imageRisk_monotone; apply NumFacts.max_ge_r.
  - intros s Hs.
    apply imageRisk_covers_each, Hs.
Qed.

Lemma merge_never_lowers_witness :
  In 75 (map ImageAnalysisService.score
           [ ImageAnalysisService.hateSpeech
               (ImageAnalysisService.combineImageAndTextAnalysis
                  ImageAnalysisService.getDefaultAnalysis (Some (analysis_of sampleReport))) ]) /\
  (levelRank (ImageAnalysisService.getRiskLevel 75) <= 2)%nat.
Proof.
  split; [left; reflexivity |].
  destruct (merge_never_lowers ImageAnalysisService.getDefaultAnalysis (analysis_of sampleReport))
    as (_ & _ & _ & _ & _ & H).
  apply (H 75). left. reflexivity.
Defined.

(** ** The rate limiter *)

Section RateLimiterFacts.

Local Open Scope Z_scope.

Import RateLimiter.

(** The entry of a client after a request at [now]. *)
Lemma middleware_store (self : t) (now : Z) (req : Request) (k : string) :
  store (snd (middleware self now req)) k
  = if String.eqb k (getKey req)
    then store (snd (middleware self now req)) (getKey req)
    else store self k.
Proof.
  destruct (String.eqb k (getKey req)) eqn:E.
  - apply String.eqb_eq in E. subst k. reflexivity.
  - unfold middleware. cbn [snd store]. unfold put. rewrite E. reflexivity.
Qed.

Lemma middleware_fresh (self : t) (now : Z) (req : Request) :
  (forall e, store self (getKey req) = Some e -> resetTime e < now) ->
  store (snd (middleware self now req)) (getKey req)
  = Some {| count := 1; resetTime := now + windowMs self |} /\
  outcome (fst (middleware self now req))
  = if maxRequests self <? 1
    then TooManyRequests (ceilSeconds (now + windowMs self - now))
    else Next.
Proof.
  intro H. unfold middleware. cbn [snd fst store outcome]. unfold put.
  rewrite String.eqb_refl.
  destruct (store self (getKey req)) as [e |] eqn:E.
  - specialize (H e eq_refl). apply Z.ltb_lt in H. rewrite H. split; reflexivity.
  - split; reflexivity.
Qed.

Lemma middleware_live (self : t) (now : Z) (req : Request) (e : Entry) :
  store self (getKey req) = Some e -> now <= resetTime e ->
  store (snd (middleware self now req)) (getKey req)
  = Some {| count := count e + 1; resetTime := resetTime e |} /\
  outcome (fst (middleware self now req))
  = if maxRequests self <? count e + 1
    then TooManyRequests (ceilSeconds (resetTime e - now))
    else Next.
Proof.
  intros E H. unfold middleware. cbn [snd fst store outcome]. unfold put.
  rewrite String.eqb_refl, E.
  assert (F : (resetTime e <? now) = false) by (apply Z.ltb_ge; exact H).
  rewrite F. split; reflexivity.
Qed.

Lemma middleware_config (self : t) (now : Z) (req : Request) :
  maxRequests (snd (middleware self now req)) = maxRequests self /\
  windowMs (snd (middleware self now req)) = windowMs self.
Proof. split; reflexivity. Qed.

Lemma serve_cons (self : t) (req : Request) (now : Z) (rest : list Z) :
  fst (serve self req (now :: rest))
  = outcome (fst (middleware self now req))
    :: fst (serve (snd (middleware self now req)) req rest).
Proof.
  cbn [serve]. destruct (middleware self now req) as [response self'].
  cbn [fst snd]. destruct (serve self' req rest) as [outcomes self'']. reflexivity.
Qed.

(** The requests of a client inside a window that is open. *)
Lemma serve_live (times : list Z) :
  forall (self : t) (req : Request) (e : Entry),
    store self (getKey req) = Some e ->
    Forall (fun now => now <= resetTime e) times ->
    map passed (fst (serve self req times))
    = map (fun k => count e + Z.of_nat k <=? maxRequests self)
          (seq 1 (List.length times)).
Proof.
  induction times as [| now rest IH]; intros self req e E H.
  - reflexivity.
  - inversion H as [| ? ? Hnow Hrest]; subst.
    destruct (@middleware_live self now req e E Hnow) as [S O].
    rewrite serve_cons. cbn [map List.length seq]. f_equal.
    + rewrite O. change (Z.of_nat 1) with 1.
      destruct (maxRequests self <? count e + 1) eqn:L; cbn [passed]; symmetry.
      * apply Z.leb_gt. apply Z.ltb_lt in L. exact L.
      * apply Z.leb_le. apply Z.ltb_ge in L. exact L.
    + rewrite (IH _ req _ S) by exact Hrest.
      cbn [count resetTime]. rewrite <- (seq_shift (List.length rest) 1), map_map.
      apply map_ext. intro k.
      destruct (middleware_config self now req) as [-> _].
      f_equal. lia.
Qed.

(** X20.  A client with no open window who sends requests inside one
    window (each at a time not after the first time plus [windowMs])
    gets its k-th request through exactly when k is at most
    [maxRequests]; the order and the spacing of the times play no role. *)
Theorem burst_passes_up_to_maxRequests :
  forall (self : t) (req : Request) (first : Z) (rest : list Z),
    (forall e, store self (getKey req) = Some e -> resetTime e < first) ->
    Forall (fun now => now <= first + windowMs self) rest ->
    map passed (fst (serve self req (first :: rest)))
    = map (fun k => Z.of_nat k <=? maxRequests self) (seq 1 (S (List.length rest))).
Proof.
  intros self req first rest Hnone Hrest.
  destruct (@middleware_fresh self first req Hnone) as [S O].
  rewrite serve_cons. cbn [map List.length seq]. f_equal.
  - rewrite O. change (Z.of_nat 1) with 1.
    destruct (maxRequests self <? 1) eqn:L; cbn [passed]; symmetry.
    + apply Z.leb_gt. apply Z.ltb_lt in L. exact L.
    + apply Z.leb_le. apply Z.ltb_ge in L. exact L.
  - rewrite (@serve_live rest _ req _ S) by exact Hrest.
    cbn [count]. rewrite <- (seq_shift (List.length rest) 1), map_map.
    apply map_ext. intro k.
    destruct (middleware_config self first req) as [-> _].
    f_equal. lia.
Qed.

Lemma burst_passes_up_to_maxRequests_witness :
  map passed
      (fst (serve strictRateLimiter {| ip := Some "10.0.0.7"%string; remoteAddress := None |}
                  [0; 10; 20; 30; 40; 50; 60000]))
  = [true; true; true; true; true; false; false].
Proof.
  apply (@burst_passes_up_to_maxRequests strictRateLimiter
           {| ip := Some "10.0.0.7"%string; remoteAddress := None |}
           0 [10; 20; 30; 40; 50; 60000]).
  - intros e H. discriminate H.
  - repeat constructor; vm_compute; discriminate.
Defined.

(** X21.  Clients with different keys do not see each other: a request of
    one client changes neither the answer to a later request of another
    (headers included) nor the entry of any other key, and two requests of
    different clients leave the same store in either order. *)
Theorem clients_are_independent :
  forall (self : t) (now1 now2 : Z) (req1 req2 : Request),
    getKey req1 <> getKey req2 ->
    fst (middleware (snd (middleware self now1 req1)) now2 req2)
    = fst (middleware self now2 req2) /\
    (forall k, k <> getKey req1 ->
               store (snd (middleware self now1 req1)) k = store self k) /\
    (forall k, store (snd (middleware (snd (middleware self now1 req1)) now2 req2)) k
               = store (snd (middleware (snd (middleware self now2 req2)) now1 req1)) k).
Proof.
  intros self now1 now2 req1 req2 D.
  assert (D12 : String.eqb (getKey req1) (getKey req2) = false)
    by (apply String.eqb_neq; exact D).
  assert (D21 : String.eqb (getKey req2) (getKey req1) = false)
    by (apply String.eqb_neq; congruence).
  split; [| split].
  - unfold middleware. cbn [snd fst store windowMs maxRequests]. unfold put.
    rewrite D21. reflexivity.
  - intros k Hk. rewrite middleware_store.
    apply String.eqb_neq in Hk. rewrite Hk. reflexivity.
  - intro k. unfold middleware. cbn [snd fst store windowMs maxRequests]. unfold put.
    rewrite D21, D12.
    destruct (String.eqb k (getKey req2)) eqn:E2;
      destruct (String.eqb k (getKey req1)) eqn:E1; try reflexivity.
    apply String.eqb_eq in E1. apply String.eqb_eq in E2. congruence.
Qed.

Lemma clients_are_independent_witness :
  outcome (fst (middleware
                  (snd (middleware (new 1000 1) 0
                                   {| ip := Some "10.0.0.7"%string; remoteAddress := None |}))
                  1 {| ip := None; remoteAddress := None |}))
  = Next.
Proof.
  assert (D : getKey {| ip := Some "10.0.0.7"%string; remoteAddress := None |}
              <> getKey {| ip := None; remoteAddress := None |})
    by (vm_compute; discriminate).
  rewrite (proj1 (@clients_are_independent (new 1000 1) 0 1 _ _ D)).
  reflexivity.
Defined.

(** X22.  The periodic [cleanup] cannot be observed: a request that comes
    at or after the time of a cleanup gets the same answer, headers
    included, as without the cleanup, and (with a window that is not
    negative) cleaning before the request or after it leaves the same
    store. *)
Theorem cleanup_is_unobservable :
  forall (self : t) (cleaned now : Z) (req : Request),
    cleaned <= now ->
    fst (middleware (cleanup cleaned self) now req) = fst (middleware self now req) /\
    (0 <= windowMs self ->
     forall k, store (snd (middleware (cleanup cleaned self) now req)) k
               = store (cleanup cleaned (snd (middleware self now req))) k).
Proof.
  intros self cleaned now req H.
  assert (E : match store (cleanup cleaned self) (getKey req) with
              | Some e =>
                  if resetTime e <? now
                  then {| count := 1; resetTime := now + windowMs self |}
                  else {| count := count e + 1; resetTime := resetTime e |}
              | None => {| count := 1; resetTime := now + windowMs self |}
              end
              = match store self (getKey req) with
                | Some e =>
                    if resetTime e <? now
                    then {| count := 1; resetTime := now + windowMs self |}
                    else {| count := count e + 1; resetTime := resetTime e |}
                | None => {| count := 1; resetTime := now + windowMs self |}
                end).
  { cbn [cleanup store].
    destruct (store self (getKey req)) as [e |]; [| reflexivity].
    destruct (resetTime e <? cleaned) eqn:C; [| reflexivity].
    apply Z.ltb_lt in C.
    assert (F : (resetTime e <? now) = true) by (apply Z.ltb_lt; lia).
    rewrite F. reflexivity. }
  split.
  - unfold middleware. cbn [fst windowMs maxRequests cleanup] in *.
    cbn [store] in E |- *. rewrite E. reflexivity.
  - intros W k. unfold middleware.
    cbn [snd windowMs maxRequests cleanup store] in *. rewrite E. unfold put.
    destruct (String.eqb k (getKey req)); [| reflexivity].
    destruct (store self (getKey req)) as [e |].
    + destruct (resetTime e <? now) eqn:F; cbn [resetTime].
      * assert (G : (now + windowMs self <? cleaned) = false) by (apply Z.ltb_ge; lia).
        rewrite G. reflexivity.
      * apply Z.ltb_ge in F.
        assert (G : (resetTime e <? cleaned) = false) by (apply Z.ltb_ge; lia).
        rewrite G. reflexivity.
    + cbn [resetTime].
      assert (G : (now + windowMs self <? cleaned) = false) by (apply Z.ltb_ge; lia).
      rewrite G. reflexivity.
Qed.

Lemma cleanup_is_unobservable_witness :
  outcome (fst (middleware
                  (cleanup 500
                     (snd (middleware (new 1000 1) 0 {| ip := None; remoteAddress := None |})))
                  600 {| ip := None; remoteAddress := None |}))
  = TooManyRequests 1.
Proof.
  assert (H : 500 <= 600) by lia.
  rewrite (proj1 (@cleanup_is_unobservable
                    (snd (middleware (new 1000 1) 0 {| ip := None; remoteAddress := None |}))
                    500 600 {| ip := None; remoteAddress := None |} H)).
  reflexivity.
Defined.

Lemma ceilSeconds_bounds (x : Z) : x <= 1000 * ceilSeconds x < x + 1000.
Proof.
  unfold ceilSeconds.
  pose proof (Z.mul_div_le (- x) 1000 eq_refl).
  pose proof (Z.mul_succ_div_gt (- x) 1000 eq_refl).
  lia.
Qed.

(** X23.  With [maxRequests] at least 1, a refused request is told a
    number of seconds that is not negative, and every request of the same
    client later than that many seconds after the refusal gets through.
    A request exactly that many seconds after the refusal can still be
    refused, with 0 seconds to wait. *)
Theorem retryAfter_is_enough :
  (forall (self : t) (now : Z) (req : Request) (retryAfter : Z),
      1 <= maxRequests self ->
      outcome (fst (middleware self now req)) = TooManyRequests retryAfter ->
      0 <= retryAfter /\
      forall later : Z,
        now + 1000 * retryAfter < later ->
        outcome (fst (middleware (snd (middleware self now req)) later req)) = Next) /\
  (exists (self : t) (now : Z) (req : Request) (retryAfter : Z),
      1 <= maxRequests self /\
      outcome (fst (middleware self now req)) = TooManyRequests retryAfter /\
      outcome (fst (middleware (snd (middleware self now req))
                               (now + 1000 * retryAfter) req))
      = TooManyRequests 0).
Proof.
  split.
  - intros self now req retryAfter M R.
    destruct (store self (getKey req)) as [e |] eqn:E.
    + destruct (Z_lt_le_dec (resetTime e) now) as [X | L].
      * destruct (@middleware_fresh self now req) as [_ O].
        { intros e' E'. congruence. }
        rewrite O in R.
        assert (F : (maxRequests self <? 1) = false) by (apply Z.ltb_ge; exact M).
        rewrite F in R. discriminate R.
      * destruct (@middleware_live self now req e E L) as [S O].
        rewrite O in R.
        destruct (maxRequests self <? count e + 1); [| discriminate R].
        injection R as <-.
        pose proof (ceilSeconds_bounds (resetTime e - now)) as B.
        split; [lia |].
        intros later Hlater.
        destruct (@middleware_fresh (snd (middleware self now req)) later req) as [_ O'].
        { intros e' E'. rewrite S in E'. injection E' as <-. cbn [resetTime]. lia. }
        rewrite O'. destruct (middleware_config self now req) as [-> _].
        assert (F : (maxRequests self <? 1) = false) by (apply Z.ltb_ge; exact M).
        rewrite F. reflexivity.
    + destruct (@middleware_fresh self now req) as [_ O].
      { intros e' E'. congruence. }
      rewrite O in R.
      assert (F : (maxRequests self <? 1) = false) by (apply Z.ltb_ge; exact M).
      rewrite F in R. discriminate R.
  - exists (snd (middleware (new 1000 1) 0 {| ip := None; remoteAddress := None |})),
      0, {| ip := None; remoteAddress := None |}, 1.
    split; [cbn; lia |]. split; reflexivity.
Qed.

Lemma retryAfter_is_enough_witness :
  outcome (fst (middleware
                  (snd (middleware
                          (snd (middleware (new 1000 1) 0
                                           {| ip := None; remoteAddress := None |}))
                          0 {| ip := None; remoteAddress := None |}))
                  1001 {| ip := None; remoteAddress := None |}))
  = Next.
Proof.
  assert (M : 1 <= maxRequests
                     (snd (middleware (new 1000 1) 0 {| ip := None; remoteAddress := None |})))
    by (cbn; lia).
  assert (R : outcome (fst (middleware
                              (snd (middleware (new 1000 1) 0
                                               {| ip := None; remoteAddress := None |}))
                              0 {| ip := None; remoteAddress := None |}))
              = TooManyRequests 1) by reflexivity.
  apply (proj2 (proj1 retryAfter_is_enough _ _ _ _ M R)). lia.
Defined.

End RateLimiterFacts.

(** ** Block decision and moderation advice *)

Lemma sampleReport_is_a_report :
  fst (TextAnalysisService.analyzeText sampleEnv (TextAnalysisService.new sampleEnv)
         {| TextAnalysisService.text := "Nazi ideology: men are vermin." |})
  = Ok sampleReport.
Proof. vm_compute. reflexivity. Qed.

(** X24.  The advice of [getModerationRecommendations] follows the overall
    risk alone, with the action that [getModerationAction] gives for that
    risk, whereas [shouldBlockContent] also looks at the four thresholds.
    A report at critical risk is blocked by both; a report that reaches a
    threshold at overall risk safe is blocked by [shouldBlockContent] while
    the advice is to allow it, and the text analysis does produce such
    reports (hate speech 75 alone weighs 26.25, below the 30 of a
    warning). *)
Theorem advice_follows_risk_not_thresholds :
  (forall (self : HateSpeechDetectionPlugin.t) (analysis : ContentAnalysisResult),
      let results := analysis_of analysis in
      let advice := HateSpeechDetectionPlugin.getModerationRecommendations analysis in
      let decision := HateSpeechDetectionPlugin.shouldBlockContent self analysis in
      HateSpeechDetectionPlugin.action advice
      = fst (PluginHelpers.getModerationAction (Analysis.overallRisk results)) /\
      (Analysis.overallRisk results = criticalRisk ->
       HateSpeechDetectionPlugin.shouldBlock decision = true /\
       HateSpeechDetectionPlugin.action advice = PluginHelpers.block) /\
      (Analysis.overallRisk results = safe ->
       PluginHelpers.hateSpeech
         (HateSpeechDetectionPlugin.thresholds (HateSpeechDetectionPlugin.config self))
       <= Category.score (Analysis.hateSpeech results) ->
       HateSpeechDetectionPlugin.shouldBlock decision = true /\
       HateSpeechDetectionPlugin.action advice = PluginHelpers.allow)) /\
  (exists (report : ContentAnalysisResult) (text : string),
      fst (TextAnalysisService.analyzeText sampleEnv (TextAnalysisService.new sampleEnv)
             {| TextAnalysisService.text := text |}) = Ok report /\
      Analysis.overallRisk (analysis_of report) = safe /\
      PluginHelpers.hateSpeech
        (HateSpeechDetectionPlugin.thresholds
           (HateSpeechDetectionPlugin.config (HateSpeechDetectionPlugin.new None)))
      <= Category.score (Analysis.hateSpeech (analysis_of report))).
Proof.
  split.
  - intros self analysis results advice decision.
    subst advice decision.
    unfold HateSpeechDetectionPlugin.getModerationRecommendations,
      HateSpeechDetectionPlugin.shouldBlockContent.
    fold results.
    split; [destruct (Analysis.overallRisk results); reflexivity |].
    split.
    + intros ->. cbn [HateSpeechDetectionPlugin.shouldBlock HateSpeechDetectionPlugin.action
                      PluginHelpers.isCritical].
      split; [apply orb_true_r | reflexivity].
    + intros -> H. apply NumFacts.geb_true in H.
      cbn [HateSpeechDetectionPlugin.shouldBlock HateSpeechDetectionPlugin.action].
      rewrite H. split; reflexivity.
  - exists sampleReport, "Nazi ideology: men are vermin.".
    split; [exact sampleReport_is_a_report |].
    split; [reflexivity | vm_compute; discriminate].
Qed.

Lemma advice_follows_risk_not_thresholds_witness :
  Analysis.overallRisk (analysis_of sampleReport) = safe /\
  HateSpeechDetectionPlugin.shouldBlock
    (HateSpeechDetectionPlugin.shouldBlockContent
       (HateSpeechDetectionPlugin.new None) sampleReport) = true /\
  HateSpeechDetectionPlugin.action
    (HateSpeechDetectionPlugin.getModerationRecommendations sampleReport)
  = PluginHelpers.allow.
Proof.
  assert (R : Analysis.overallRisk (analysis_of sampleReport) = safe) by reflexivity.
  assert (H : PluginHelpers.hateSpeech
                (HateSpeechDetectionPlugin.thresholds
                   (HateSpeechDetectionPlugin.config (HateSpeechDetectionPlugin.new None)))
              <= Category.score (Analysis.hateSpeech (analysis_of sampleReport)))
    by (vm_compute; discriminate).
  split; [exact R |].
  exact (proj2 (proj2 (proj1 advice_follows_risk_not_thresholds
                         (HateSpeechDetectionPlugin.new None) sampleReport)) R H).
Defined.

(** ** Sanitizing a text (helpers) *)

Lemma take_length (n : nat) (s : string) :
  (String.length (PluginHelpers.take n s) <= Nat.min n (String.length s))%nat.
Proof.
  revert s. induction n as [| n IH]; intros [| c s]; cbn [PluginHelpers.take String.length];
    try lia.
  specialize (IH s). lia.
Qed.

Lemma take_forallb (p : ascii -> bool) (n : nat) (s : string) :
  Str.forallb p s = true -> Str.forallb p (PluginHelpers.take n s) = true.
Proof.
  revert s. induction n as [| n IH]; intros [| c s]; cbn [PluginHelpers.take Str.forallb];
    try reflexivity.
  intro H. apply andb_true_iff in H as [Hc Hs]. rewrite Hc. exact (IH s Hs).
Qed.

Lemma remove_length (p : ascii -> bool) (s : string) :
  (String.length (PluginHelpers.remove p s) <= String.length s)%nat.
Proof.
  induction s as [| c s IH]; cbn [PluginHelpers.remove String.length]; [lia |].
  destruct (p c); cbn [String.length]; lia.
Qed.

Lemma remove_forallb (p q : ascii -> bool) (s : string) :
  Str.forallb q s = true ->
  Str.forallb (fun c => negb (p c) && q c)%bool (PluginHelpers.remove p s) = true.
Proof.
  induction s as [| c s IH]; cbn [PluginHelpers.remove Str.forallb]; [reflexivity |].
  intro H. apply andb_true_iff in H as [Hc Hs].
  destruct (p c) eqn:P; cbn [Str.forallb]; [exact (IH Hs) |].
  rewrite P, Hc. exact (IH Hs).
Qed.

Lemma collapseSpaces_length (inRun : bool) (s : string) :
  (String.length (Str.collapseSpaces inRun s) <= String.length s)%nat.
Proof.
  revert inRun. induction s as [| c s IH]; intro inRun;
    cbn [Str.collapseSpaces String.length]; [lia |].
  destruct (Char.isSpace c).
  - destruct inRun; cbn [String.length]; specialize (IH true); lia.
  - cbn [String.length]. specialize (IH false). lia.
Qed.

(** After [replace(/\s+/g, ' ')] the only white space left is the space. *)
Lemma collapseSpaces_plain (inRun : bool) (s : string) :
  Str.forallb (fun c => negb (Char.isSpace c) || Ascii.eqb c " ")%bool
              (Str.collapseSpaces inRun s) = true.
Proof.
  revert inRun. induction s as [| c s IH]; intro inRun;
    cbn [Str.collapseSpaces Str.forallb]; [reflexivity |].
  destruct (Char.isSpace c) eqn:E.
  - destruct inRun; [apply IH |]. cbn [Str.forallb]. rewrite IH. reflexivity.
  - cbn [Str.forallb]. rewrite E, IH. reflexivity.
Qed.

Lemma trimStart_length (s : string) :
  (String.length (Str.trimStart s) <= String.length s)%nat.
Proof.
  induction s as [| c s IH]; cbn [Str.trimStart String.length]; [lia |].
  destruct (Char.isSpace c); cbn [String.length]; lia.
Qed.

Lemma trimEnd_length (s : string) :
  (String.length (Str.trimEnd s) <= String.length s)%nat.
Proof.
  induction s as [| c s IH]; cbn [Str.trimEnd String.length]; [lia |].
  destruct (Str.trimEnd s) as [| d t]; [destruct (Char.isSpace c) |];
    cbn [String.length] in *; lia.
Qed.

(** X25.  A sanitized text has at most 10000 code units and is never
    longer than the text; it is made of word characters, spaces and the
    punctuation [@#.,!?;:()-] only (tabs and line ends have become spaces).
    It is not always trimmed, for a removed character can leave a space at
    the start. *)
Theorem sanitizeText_bounded_and_plain :
  (forall text : string,
      (N.of_nat (String.length (PluginHelpers.sanitizeText text)) <= 10000)%N /\
      (String.length (PluginHelpers.sanitizeText text) <= String.length text)%nat /\
      Str.forallb PluginHelpers.sanitized (PluginHelpers.sanitizeText text) = true) /\
  (exists text : string,
      Str.trim (PluginHelpers.sanitizeText text) <> PluginHelpers.sanitizeText text).
Proof.
  split.
  - intro text. unfold PluginHelpers.sanitizeText, PluginHelpers.substring0.
    set (cleaned := PluginHelpers.remove _ _).
    pose proof (take_length (N.to_nat 10000) cleaned) as L.
    split; [lia |]. split.
    + assert (String.length cleaned <= String.length text)%nat; [| lia].
      subst cleaned.
      eapply Nat.le_trans; [apply remove_length |].
      eapply Nat.le_trans; [apply collapseSpaces_length |].
      unfold Str.trim.
      eapply Nat.le_trans; [apply trimEnd_length | apply trimStart_length].
    + apply take_forallb. subst cleaned.
      eapply str_forallb_impl; [| apply remove_forallb, (collapseSpaces_plain false)].
      intros c H. cbv beta in H. apply andb_true_iff in H as [K P].
      apply negb_true_iff, negb_false_iff in K.
      unfold PluginHelpers.kept in K. unfold PluginHelpers.sanitized.
      destruct (Char.isWord c); [reflexivity |].
      destruct (existsb (Ascii.eqb c) PluginHelpers.punctuation);
        [apply orb_true_r |].
      destruct (Char.isSpace c); [| discriminate K].
      cbn [negb orb] in P. rewrite P. reflexivity.
  - exists "$ a". vm_compute. discriminate.
Qed.

(** ** The confidence of the helpers *)

Lemma fold_sum_constant (v : Q) (l : list Q) :
  Forall (fun s => s == v) l ->
  forall a, fold_left Qplus l a == a + Num.ofNat (List.length l) * v.
Proof.
  induction 1 as [| s l Hs _ IH]; intro a.
  - cbn [fold_left List.length]. change (Num.ofNat 0) with 0. ring.
  - cbn [fold_left List.length]. rewrite IH, ofNat_succ, Hs. ring.
Qed.

Lemma fold_deviation_zero (avg : Q) (l : list Q) :
  Forall (fun s => s == avg) l ->
  forall a, fold_left (fun a b => a + (b - avg) * (b - avg)) l a == a.
Proof.
  induction 1 as [| s l Hs _ IH]; intro a.
  - reflexivity.
  - cbn [fold_left]. rewrite IH, Hs. lra.
Qed.

(** X26.  With a square root that is not negative and is 0 at 0, the
    helpers' [calculateConfidence] returns an integer between 0 and 100; it
    is 0 for no scores at all, and 100 as soon as all the scores agree,
    whatever their value. *)
Theorem helpers_confidence_in_range :
  forall (env : Env) (scores : list Q),
    (forall x, 0 <= sqrt env x) ->
    (forall x, x == 0 -> sqrt env x == 0) ->
    (exists z : Z,
        PluginHelpers.calculateConfidence env scores = inject_Z z /\ (0 <= z <= 100)%Z) /\
    (scores = [] -> PluginHelpers.calculateConfidence env scores = 0) /\
    (forall v, scores <> [] -> Forall (fun s => s == v) scores ->
               PluginHelpers.calculateConfidence env scores = 100).
Proof.
  intros env scores Hpos Hzero. split; [| split].
  - unfold PluginHelpers.calculateConfidence.
    destruct (Nat.eqb (List.length scores) 0).
    + exists 0%Z. split; [reflexivity | lia].
    + cbv zeta. set (sd := sqrt env _).
      pose proof (Hpos (fold_left (fun a b => a + (b - (fold_left Qplus scores 0 / Num.ofNat (List.length scores))) * (b - (fold_left Qplus scores 0 / Num.ofNat (List.length scores)))) scores 0 / Num.ofNat (List.length scores))) as P.
      fold sd in P.
      eexists. split; [reflexivity |].
      assert (R : 0 <= Num.max 0 (100 - sd * 2) <= 100).
      { split; [apply NumFacts.max_ge_l |].
        destruct (NumFacts.max_spec 0 (100 - sd * 2)) as [[_ ->] | [_ ->]]; lra. }
      split.
      * apply (Qfloor_resp_le 0 (Num.max 0 (100 - sd * 2) + (1 # 2))). lra.
      * rewrite Zle_Qle. apply (@round_le_integer (Num.max 0 (100 - sd * 2)) 100). apply R.
  - intros ->. reflexivity.
  - intros v Hne Hall. unfold PluginHelpers.calculateConfidence.
    destruct scores as [| s rest]; [contradiction Hne; reflexivity |].
    set (scores := s :: rest) in *.
    change (Nat.eqb (List.length scores) 0) with false. cbv iota zeta.
    set (n := Num.ofNat (List.length scores)).
    assert (N : 0 < n).
    { unfold n, scores. cbn [List.length]. rewrite ofNat_succ.
      pose proof (NumFacts.ofNat_nonneg (List.length rest)). lra. }
    set (avg := fold_left Qplus scores 0 / n).
    assert (A : avg == v).
    { unfold avg. rewrite (fold_sum_constant Hall 0). fold n. field. lra. }
    assert (Hall' : Forall (fun s => s == avg) scores).
    { eapply Forall_impl; [| exact Hall]. intros x Hx. cbv beta in *. rewrite Hx, A.
      reflexivity. }
    set (variance := fold_left _ scores 0 / n).
    assert (V : variance == 0).
    { unfold variance. rewrite (fold_deviation_zero Hall' 0). field. lra. }
    pose proof (Hzero variance V) as S.
    assert (C : Num.max 0 (100 - sqrt env variance * 2) == 100).
    { destruct (NumFacts.max_spec 0 (100 - sqrt env variance * 2)) as [[F _] | [_ ->]]; lra. }
    unfold Num.round.
    assert (Q : Num.max 0 (100 - sqrt env variance * 2) + (1 # 2) == 100 + (1 # 2))
      by (rewrite C; reflexivity).
    rewrite (Qfloor_comp _ _ Q). reflexivity.
Qed.

Lemma helpers_confidence_in_range_witness :
  PluginHelpers.calculateConfidence sampleEnv [ 40; 40; 40 ] = 100.
Proof.
  assert (P : forall x, 0 <= sqrt sampleEnv x).
  { intro x. cbn [sqrt sampleEnv]. change 0 with (inject_Z 0). rewrite <- Zle_Qle.
    apply Z.sqrt_nonneg. }
  assert (Z : forall x, x == 0 -> sqrt sampleEnv x == 0).
  { intros x H. cbn [sqrt sampleEnv]. rewrite (Qfloor_comp _ _ H). reflexivity. }
  apply (proj2 (proj2 (@helpers_confidence_in_range sampleEnv [ 40; 40; 40 ] P Z)) 40).
  - discriminate.
  - repeat constructor; reflexivity.
Defined.

(** ** Analyzing an image *)

Lemma riskRank_injective (a b : Risk) : riskRank a = riskRank b -> a = b.
Proof. destruct a, b; cbn [riskRank]; intro H; solve [reflexivity | discriminate H]. Qed.

Lemma imageRisk_compat (h h' t t' r r' p p' : Q) :
  h == h' -> t == t' -> r == r' -> p == p' ->
  ImageAnalysisService.calculateOverallRisk h t r p
  = ImageAnalysisService.calculateOverallRisk h' t' r' p'.
Proof.
  intros Hh Ht Hr Hp. apply riskRank_injective, Nat.le_antisymm;
    apply imageRisk_monotone; lra.
Qed.

Lemma max_zero (s : Q) : 0 <= s -> Num.max 0 s == s.
Proof.
  intro H. destruct (NumFacts.max_spec 0 s) as [[F ->] | [_ ->]]; lra.
Qed.

Lemma analyzeWithOpenAI_default (vision : ImageAnalysisService.Vision)
    (self : ImageAnalysisService.t) (imageUrl : string) (description : option string) :
  ImageAnalysisService.openaiApiKey self = EmptyString \/
  (exists e, vision (ImageAnalysisService.openaiApiKey self) imageUrl description = Throw e) ->
  ImageAnalysisService.analyzeWithOpenAI vision self imageUrl description
  = ImageAnalysisService.getDefaultAnalysis.
Proof.
  unfold ImageAnalysisService.analyzeWithOpenAI. intros [-> | [e ->]].
  - reflexivity.
  - destruct (String.eqb _ _); reflexivity.
Qed.

(** X27.  Without a key, or when the call to the vision service fails,
    [analyzeImage] still returns a result.  With no description, or an
    empty one, it is the default analysis (scores 0, risk safe, confidence
    50).  With a description, the four scores and flags are those of the
    text analysis of the description by a text service of its own, the
    confidence is the rounded mean of 50 and the text's, the advice to
    review by hand comes first in the suggestions, and the overall risk is
    computed from the four text scores by the image service's rule, not by
    the text service's: a description that the text service rates safe can
    come out as danger. *)
Theorem analyzeImage_without_vision :
  (forall (env : Env) (vision : ImageAnalysisService.Vision)
          (self : ImageAnalysisService.t)
          (request : ImageAnalysisService.ImageAnalysisRequest),
      ImageAnalysisService.openaiApiKey self = EmptyString \/
      (exists e, vision (ImageAnalysisService.openaiApiKey self)
                        (ImageAnalysisService.imageUrl request)
                        (ImageAnalysisService.description request) = Throw e) ->
      exists result : ImageAnalysisService.ImageResult,
        ImageAnalysisService.analyzeImage env vision self request = Ok result /\
        ImageAnalysisService.imageContent result = ImageAnalysisService.imageUrl request /\
        match ImageAnalysisService.description request with
        | None | Some EmptyString =>
            ImageAnalysisService.imageAnalysis result
            = ImageAnalysisService.getDefaultAnalysis
        | Some description =>
            exists (report : ContentAnalysisResult) (after : TextAnalysisService.t),
              let merged := ImageAnalysisService.imageAnalysis result in
              let text := analysis_of report in
              TextAnalysisService.analyzeText env (TextAnalysisService.new env)
                {| TextAnalysisService.text := description |} = (Ok report, after) /\
              (forall image_category text_category,
                  In (image_category, text_category)
                     [ (ImageAnalysisService.hateSpeech, Analysis.hateSpeech);
                       (ImageAnalysisService.toxicity, Analysis.toxicity);
                       (ImageAnalysisService.harassment, Analysis.harassment);
                       (ImageAnalysisService.profanity, Analysis.profanity) ] ->
                  ImageAnalysisService.score (image_category merged)
                  == Category.score (text_category text) /\
                  ImageAnalysisService.detected (image_category merged)
                  = Category.detected (text_category text)) /\
              ImageAnalysisService.overallRisk merged
              = ImageAnalysisService.riskName
                  (ImageAnalysisService.calculateOverallRisk
                     (Category.score (Analysis.hateSpeech text))
                     (Category.score (Analysis.toxicity text))
                     (Category.score (Analysis.harassment text))
                     (Category.score (Analysis.profanity text))) /\
              ImageAnalysisService.confidence merged
              = Num.round ((50 + Analysis.confidence text) / 2) /\
              ImageAnalysisService.flaggedWords merged = Analysis.flaggedWords text /\
              ImageAnalysisService.suggestions merged
              = "Unable to analyze image content - manual review recommended"
                  :: Analysis.suggestions text
        end) /\
  (exists (description : string) (report : ContentAnalysisResult)
          (result : ImageAnalysisService.ImageResult),
      fst (TextAnalysisService.analyzeText sampleEnv (TextAnalysisService.new sampleEnv)
             {| TextAnalysisService.text := description |}) = Ok report /\
      ImageAnalysisService.analyzeImage sampleEnv (fun _ _ _ => Throw "Network Error")
        {| ImageAnalysisService.openaiApiKey := EmptyString |}
        {| ImageAnalysisService.imageUrl := "https://example.com/a.png";
           ImageAnalysisService.description := Some description |} = Ok result /\
      Analysis.overallRisk (analysis_of report) = safe /\
      ImageAnalysisService.overallRisk (ImageAnalysisService.imageAnalysis result)
      = ImageAnalysisService.riskName danger).
Proof.
  split.
  - intros env vision self request H.
    unfold ImageAnalysisService.analyzeImage.
    rewrite (analyzeWithOpenAI_default vision self _ _ H).
    destruct (ImageAnalysisService.description request) as [[| c rest] |].
    + eexists. split; [reflexivity |]. split; reflexivity.
    + destruct (category_scores_range env (TextAnalysisService.new env)
                  {| TextAnalysisService.text := String c rest |})
        as (report & after & E & Hh & Ht & Hha & Hp & _).
      unfold ImageAnalysisService.analyzeImageDescription. rewrite E.
      cbn [fst bind tryCatch].
      eexists. split; [reflexivity |]. split; [reflexivity |].
      exists report, after. cbv zeta.
      cbn [ImageAnalysisService.imageAnalysis
           ImageAnalysisService.combineImageAndTextAnalysis
           ImageAnalysisService.overallRisk ImageAnalysisService.confidence
           ImageAnalysisService.flaggedWords ImageAnalysisService.suggestions].
      split; [reflexivity |]. unfold analysis_of.
      split; [| split; [| split; [| split]]].
      * intros ic tc [X | [X | [X | [X | []]]]]; injection X as <- <-;
          cbn [ImageAnalysisService.hateSpeech ImageAnalysisService.toxicity
               ImageAnalysisService.harassment ImageAnalysisService.profanity
               ImageAnalysisService.combineCategory ImageAnalysisService.score
               ImageAnalysisService.detected ImageAnalysisService.getDefaultAnalysis orb];
          (split; [apply max_zero; lra | reflexivity]).
      * f_equal. cbn [ImageAnalysisService.hateSpeech ImageAnalysisService.toxicity
               ImageAnalysisService.harassment ImageAnalysisService.profanity
               ImageAnalysisService.score ImageAnalysisService.getDefaultAnalysis].
        apply imageRisk_compat; apply max_zero; lra.
      * reflexivity.
      * reflexivity.
      * reflexivity.
    + eexists. split; [reflexivity |]. split; reflexivity.
  - exists "Nazi ideology: men are vermin.", sampleReport. eexists.
    split; [exact sampleReport_is_a_report |].
    split; [vm_compute; reflexivity |].
    split; reflexivity.
Qed.

Lemma analyzeImage_without_vision_witness :
  exists result : ImageAnalysisService.ImageResult,
    ImageAnalysisService.analyzeImage sampleEnv (fun _ _ _ => Throw "Network Error")
      {| ImageAnalysisService.openaiApiKey := "sk-test" |}
      {| ImageAnalysisService.imageUrl := "https://example.com/a.png";
         ImageAnalysisService.description := None |} = Ok result /\
    ImageAnalysisService.imageAnalysis result = ImageAnalysisService.getDefaultAnalysis.
Proof.
  destruct (proj1 analyzeImage_without_vision sampleEnv (fun _ _ _ => Throw "Network Error")
              {| ImageAnalysisService.openaiApiKey := "sk-test" |}
              {| ImageAnalysisService.imageUrl := "https://example.com/a.png";
                 ImageAnalysisService.description := None |})
    as (result & E & _ & D).
  - right. exists "Network Error". reflexivity.
  - exists result. split; [exact E | exact D].
Defined.
